(** * velocloud-cloudinit-builder: process orchestration, verified

    A shallow embedding of the Go packages [sysutil], [fsutil], [logutil],
    [output], [deps], [builder] and [vmtest].  Go strings are byte strings
    ([string]); durations and exit codes are [Z]; every function that talks
    to the operating system runs in the monad [M], which reads the history
    of events so far and returns the events it adds.  What the operating
    system and the Go standard library answer is a [Host] record, a
    function of that history, so every theorem holds for every
    deterministic environment.

    Paths use the separator ['/'] (the lexical algorithm of
    [filepath.Clean] is the same on every platform; drive letters are not
    modelled).  Case mapping is the ASCII part of [strings.ToLower]. *)

From Stdlib Require Import String Ascii List ZArith Lia Bool DecimalString.
Import ListNotations.

Open Scope string_scope.
Open Scope Z_scope.
Open Scope list_scope.

Notation "a ^^ b" := (String.append a b) (at level 60, right associativity).

(** ** Package [strings] of the Go standard library (byte-wise, ASCII) *)

Module strings.

Definition dquote : ascii := ascii_of_nat 34.
Definition backslash : ascii := ascii_of_nat 92.
Definition tab : ascii := ascii_of_nat 9.
Definition newline : ascii := ascii_of_nat 10.
Definition space : ascii := ascii_of_nat 32.

Definition isUpper (c : ascii) : bool :=
  let n := nat_of_ascii c in (Nat.leb 65 n && Nat.leb n 90)%bool.

Definition lowerByte (c : ascii) : ascii :=
  if isUpper c then ascii_of_nat (nat_of_ascii c + 32) else c.

Fixpoint ToLower (s : string) : string :=
  match s with
  | EmptyString => EmptyString
  | String c r => String (lowerByte c) (ToLower r)
  end.

Definition HasPrefix (s p : string) : bool := String.prefix p s.

Fixpoint Contains (s sub : string) : bool :=
  HasPrefix s sub ||
  match s with
  | EmptyString => false
  | String _ r => Contains r sub
  end.

Fixpoint ContainsRune (chars : string) (c : ascii) : bool :=
  match chars with
  | EmptyString => false
  | String d r => Ascii.eqb c d || ContainsRune r c
  end.

Fixpoint ContainsAny (s chars : string) : bool :=
  match s with
  | EmptyString => false
  | String c r => ContainsRune chars c || ContainsAny r chars
  end.

(** [strings.ReplaceAll s old new] for a one-byte [old]. *)
Fixpoint ReplaceAll (s : string) (old : ascii) (new : string) : string :=
  match s with
  | EmptyString => EmptyString
  | String c r =>
      if Ascii.eqb c old then new ^^ ReplaceAll r old new
      else String c (ReplaceAll r old new)
  end.

Definition Join (elems : list string) (sep : string) : string :=
  String.concat sep elems.

(** The ASCII white space of [unicode.IsSpace]:
    tab, newline, vertical tab, form feed, carriage return, space. *)
Definition isSpace (c : ascii) : bool :=
  let n := nat_of_ascii c in
  (Nat.leb 9 n && Nat.leb n 13 || Nat.eqb n 32)%bool.

Fixpoint TrimLeft (s : string) : string :=
  match s with
  | EmptyString => EmptyString
  | String c r => if isSpace c then TrimLeft r else s
  end.

Fixpoint rev_string (s acc : string) : string :=
  match s with
  | EmptyString => acc
  | String c r => rev_string r (String c acc)
  end.

Definition TrimSpace (s : string) : string :=
  rev_string (TrimLeft (rev_string (TrimLeft s) EmptyString)) EmptyString.

Definition EqualFold (a b : string) : bool :=
  String.eqb (ToLower a) (ToLower b).

(** [strconv.Itoa], also what [%d] prints. *)
Definition Itoa (n : Z) : string := NilZero.string_of_int (Z.to_int n).

End strings.

(** ** Package [path/filepath] (lexical part, separator ['/']) *)

Module filepath.

Definition slash : ascii := ascii_of_nat 47.
Definition Separator : string := String slash EmptyString.

(** [strings.Split(s, "/")], the current element accumulated in reverse. *)
Fixpoint splitAcc (s : string) (cur : string) : list string :=
  match s with
  | EmptyString => [strings.rev_string cur EmptyString]
  | String c r =>
      if Ascii.eqb c slash
      then strings.rev_string cur EmptyString :: splitAcc r EmptyString
      else splitAcc r (String c cur)
  end.

Definition split (s : string) : list string := splitAcc s EmptyString.

Definition IsAbs (path : string) : bool := strings.HasPrefix path Separator.

(** One element of the path against the stack of elements kept so far
    (innermost first): [.] and empty elements vanish, [..] removes the
    element before it, or is dropped at the root, or is kept. *)
Definition cleanStep (rooted : bool) (stack : list string) (elem : string)
  : list string :=
  if String.eqb elem EmptyString then stack
  else if String.eqb elem "." then stack
  else if String.eqb elem ".." then
    match stack with
    | top :: rest => if String.eqb top ".." then elem :: stack else rest
    | [] => if rooted then [] else [elem]
    end
  else elem :: stack.

Definition Clean (path : string) : string :=
  let rooted := IsAbs path in
  let kept := rev (fold_left (cleanStep rooted) (split path) []) in
  let body := strings.Join kept Separator in
  if rooted then Separator ^^ body
  else if String.eqb body EmptyString then "." else body.

(** [filepath.Join]: the elements from the first non-empty one on are
    joined with the separator and cleaned; all empty gives the empty path. *)
Fixpoint Join (elem : list string) : string :=
  match elem with
  | [] => EmptyString
  | e :: rest =>
      if String.eqb e EmptyString then Join rest
      else Clean (strings.Join elem Separator)
  end.

(** The part of [path] up to and including its last separator. *)
Fixpoint dirPart (path : string) : string :=
  match path with
  | EmptyString => EmptyString
  | String c r =>
      if strings.ContainsRune path slash then String c (dirPart r)
      else EmptyString
  end.

Definition Dir (path : string) : string := Clean (dirPart path).

Definition Base (path : string) : string :=
  match filter (fun e => negb (String.eqb e EmptyString)) (split path) with
  | [] => if String.eqb path EmptyString then "." else Separator
  | e :: es => last es e
  end.

Definition FromSlash (path : string) : string := path.

End filepath.


(** ** Errors, events and the host *)

(** A Go [error]: made by [errors.New] or [fmt.Errorf] without [%w],
    returned by the operating system or the standard library (with what
    [os.IsNotExist] says about it), or wrapped by [fmt.Errorf] with a
    prefix before [%w]. *)
Inductive error : Type :=
| New (msg : string)
| OsError (msg : string) (notExist : bool)
| Wrap (prefix : string) (inner : error).

Fixpoint Error (e : error) : string :=
  match e with
  | New msg => msg
  | OsError msg _ => msg
  | Wrap prefix inner => prefix ^^ Error inner
  end.

(** [os.IsNotExist] does not look through [fmt.Errorf] wrappers. *)
Definition IsNotExist (e : error) : bool :=
  match e with
  | OsError _ b => b
  | _ => false
  end.

Definition Duration := Z.
Definition Second : Duration := 1000000000.
Definition Minute : Duration := 60 * Second.

(** An open file used as an [io.Writer], named by its path. *)
Definition File := string.

(** What [exec.Cmd] carries when it is started; [cmdEnv] holds the
    bindings of [RunOptions.Env], which are appended to the environment of
    the parent. *)
Record Cmd : Type := {
  cmdPath : string;
  cmdArgs : list string;
  cmdDir : string;
  cmdEnv : list string
}.

(** A child process left alone: it runs for [runtime], exits with
    [exitStatus], and has written [stdoutBy d] and [stderrBy d] after [d];
    killed, the operating system reports [killedStatus]. *)
Record Process : Type := {
  runtime : Duration;
  exitStatus : Z;
  stdoutBy : Duration -> string;
  stderrBy : Duration -> string;
  killedStatus : Z
}.

Inductive ProcBehaviour : Type :=
| StartFails (cause : error)
| Starts (p : Process).

(** The type bits of an [os.FileMode]. *)
Inductive FileType : Type :=
| Regular | Directory | NamedPipe | Socket | Device.

Definition IsDir (t : FileType) : bool :=
  match t with Directory => true | _ => false end.

Definition IsRegular (t : FileType) : bool :=
  match t with Regular => true | _ => false end.

(** The calls that change the file system or hold a file open:
    [os.MkdirAll], [os.RemoveAll], [os.Remove], [os.Open], [os.Create] and
    [os.OpenFile] for writing, [io.Copy] into an open file (from a file, an
    archive entry or a response body, named by [src]), a write of known
    content, [Close] and [os.Rename]. *)
Inductive FsOp : Type :=
| MkdirAll (path : string)
| RemoveAll (path : string)
| Remove (path : string)
| OpenRead (path : string)
| OpenWrite (path : string)
| CopyBytes (dst src : string)
| WriteString (dst content : string)
| Close (path : string)
| Rename (old new : string).

(** An entry of [zip.Reader.File]: its name, whether its header marks a
    directory, and the error of [file.Open()], if any. *)
Record ZipEntry : Type := {
  Name : string;
  entryIsDir : bool;
  entryOpen : option error
}.

(** One call of the callback of [filepath.WalkDir]: the path, the entry
    and the error handed to it. *)
Record DirEntry : Type := {
  walkPath : string;
  entryName : string;
  entryType : FileType;
  walkErr : option error
}.

(** The part of an [http.Response] that [downloadFile] reads. *)
Record Response : Type := {
  StatusCode : Z;
  Status : string;
  ContentLength : Z
}.

(** What a run leaves behind, in order: processes started, requests to
    the operating system, lines given to a logger, copies of the output
    of a child given to a sink, and text printed on the console and on the
    standard error. *)
Inductive Event : Type :=
| EvExec (c : Cmd)
| EvStat (path : string)
| EvFs (op : FsOp)
| EvHttpGet (url : string)
| EvZipOpen (path : string)
| EvWalk (root : string)
| EvNow
| EvGetwd
| EvGetenv (name : string)
| EvLog (logger : File) (line : string)
| EvTee (sink : File) (data : string)
| EvConsole (text : string)
| EvStderr (text : string).

Definition Trace := list Event.

(** Everything the program consumes and does not define: the answers of
    the operating system, each a function of the history before the
    request ([host_now] is [time.Now()] in the layout [20060102-150405]);
    [Duration.String] and [filepath.Rel] of the standard library; and the
    quiet flag of package [output], set before an operation runs. *)
Record Host : Type := {
  host_exec : Trace -> Cmd -> ProcBehaviour;
  host_stat : Trace -> string -> error + FileType;
  host_fs : Trace -> FsOp -> option error;
  host_http : Trace -> string -> error + Response;
  host_zip : Trace -> string -> error + list ZipEntry;
  host_walk : Trace -> string -> list DirEntry;
  host_now : Trace -> string;
  host_getwd : Trace -> error + string;
  host_getenv : Trace -> string -> string;
  fmtDuration : Duration -> string;
  filepath_Rel : string -> string -> error + string;
  quiet : bool
}.

(** ** The monad of effects: read the history, return the new events *)

Definition M (A : Type) : Type := Trace -> A * Trace.

Definition ret {A : Type} (a : A) : M A := fun _ => (a, []).

Definition bind {A B : Type} (m : M A) (f : A -> M B) : M B :=
  fun t =>
    let '(a, es) := m t in
    let '(b, es') := f a (t ++ es) in
    (b, es ++ es').

Notation "x <- m ;; k" := (bind m (fun x => k))
  (at level 61, m at next level, right associativity).
Notation "m ;; k" := (bind m (fun _ => k))
  (at level 61, right associativity).
Notation "' pat <- m ;; k" :=
  (bind m (fun x => match x with pat => k end))
  (at level 61, pat pattern, m at next level, right associativity).

(** A step that only leaves an event. *)
Definition emit (e : Event) : M unit := fun _ => (tt, [e]).

(** A request: the host answers from the history, the event is recorded. *)
Definition request {A : Type} (answer : Trace -> A) (e : Event) : M A :=
  fun t => (answer t, [e]).

(** [if err := step; err != nil { return wrap(err) }] followed by [k]. *)
Definition check (step : M (option error)) (wrap : error -> error)
  (k : M (option error)) : M (option error) :=
  r <- step ;;
  match r with
  | Some err => ret (Some (wrap err))
  | None => k
  end.

(** The events a computation adds to a history. *)
Definition events {A : Type} (m : M A) (t : Trace) : Trace := snd (m t).
Definition result {A : Type} (m : M A) (t : Trace) : A := fst (m t).

(** ** Package [sysutil]: the process runner *)

Module sysutil.

(** A [Logger] that may be [nil]; the loggers of this program write to a
    log file. *)
Definition Logger := option File.

Definition Printf (logger : Logger) (line : string) : M unit :=
  match logger with
  | Some f => emit (EvLog f line)
  | None => ret tt
  end.

(** [RunOptions] and [RunResult]; a field whose name is taken already
    carries an underscore. *)
Record RunOptions : Type := {
  Timeout : Duration;
  Dir : string;
  Env : list string;
  Stdout : option File;
  Stderr : option File;
  Logger_ : Logger
}.

Record RunResult : Type := {
  Command : string;
  Stdout_ : string;
  Stderr_ : string;
  ExitCode : Z;
  Duration_ : Duration;
  TimedOut : bool
}.

Definition shellQuote (s : string) : string :=
  if String.eqb s EmptyString then String strings.dquote (String strings.dquote EmptyString)
  else if strings.ContainsAny s
            (String strings.space (String strings.tab (String strings.dquote EmptyString)))
  then String strings.dquote
         (strings.ReplaceAll s strings.dquote
            (String strings.backslash (String strings.dquote EmptyString))
          ^^ String strings.dquote EmptyString)
  else s.

Definition commandString (name : string) (args : list string) : string :=
  strings.Join (shellQuote name :: map shellQuote args) " ".

(** [context.Background()] or [context.WithTimeout(ctx, d)]. *)
Inductive Context : Type :=
| Background
| WithTimeout (d : Duration).

Inductive ctxError : Type := DeadlineExceeded.

(** [ctx.Err()] once [elapsed] has passed since the context was made. *)
Definition ctxErr (ctx : Context) (elapsed : Duration) : option ctxError :=
  match ctx with
  | Background => None
  | WithTimeout d => if d <=? elapsed then Some DeadlineExceeded else None
  end.

(** What [cmd.Run()] returns: nothing, an [*exec.ExitError], or the error
    that kept the process from starting. *)
Inductive runError : Type :=
| ExitError (code : Z)
| StartError (cause : error).

Record Finished : Type := {
  runErr : option runError;
  ProcessState : option Z;
  outBytes : string;
  errBytes : string;
  elapsed : Duration
}.

Definition exited (p : Process) : Finished :=
  {| runErr := if exitStatus p =? 0 then None else Some (ExitError (exitStatus p));
     ProcessState := Some (exitStatus p);
     outBytes := stdoutBy p (runtime p);
     errBytes := stderrBy p (runtime p);
     elapsed := runtime p |}.

Definition killedAt (p : Process) (d : Duration) : Finished :=
  {| runErr := Some (ExitError (killedStatus p));
     ProcessState := Some (killedStatus p);
     outBytes := stdoutBy p d;
     errBytes := stderrBy p d;
     elapsed := d |}.

(** [exec.CommandContext(ctx, ...).Run()]: the process is killed when the
    deadline of [ctx] passes before it has exited. *)
Definition cmdRun (ctx : Context) (b : ProcBehaviour) : Finished :=
  match b with
  | StartFails cause =>
      {| runErr := Some (StartError cause); ProcessState := None;
         outBytes := EmptyString; errBytes := EmptyString; elapsed := 0 |}
  | Starts p =>
      match ctx with
      | Background => exited p
      | WithTimeout d => if d <=? runtime p then killedAt p d else exited p
      end
  end.

(** [io.MultiWriter(sink, &buf)]: the sink gets a copy of what is captured. *)
Definition tee (sink : option File) (data : string) : M unit :=
  match sink with
  | Some f => emit (EvTee f data)
  | None => ret tt
  end.

Section WithHost.
Variable h : Host.

Definition RunCommand (opts : RunOptions) (name : string) (args : list string)
  : M (option RunResult * option error) :=
  if String.eqb name EmptyString then
    ret (None, Some (New "sysutil: command name is required"))
  else
    let cmdLine := commandString name args in
    let ctx := if 0 <? Timeout opts then WithTimeout (Timeout opts) else Background in
    let cmd := {| cmdPath := name; cmdArgs := args;
                  cmdDir := Dir opts; cmdEnv := Env opts |} in
    Printf (Logger_ opts) ("running command: " ^^ cmdLine) ;;
    b <- request (fun t => host_exec h t cmd) (EvExec cmd) ;;
    let fin := cmdRun ctx b in
    tee (Stdout opts) (outBytes fin) ;;
    tee (Stderr opts) (errBytes fin) ;;
    let result :=
      {| Command := cmdLine;
         Stdout_ := outBytes fin;
         Stderr_ := errBytes fin;
         ExitCode := match ProcessState fin with Some c => c | None => 0 end;
         Duration_ := elapsed fin;
         TimedOut := false |} in
    Printf (Logger_ opts)
      ("command finished (exit=" ^^ strings.Itoa (ExitCode result)
       ^^ ", duration=" ^^ fmtDuration h (Duration_ result) ^^ ")") ;;
    match ctxErr ctx (elapsed fin) with
    | Some DeadlineExceeded =>
        ret (Some {| Command := cmdLine;
                     Stdout_ := outBytes fin;
                     Stderr_ := errBytes fin;
                     ExitCode := ExitCode result;
                     Duration_ := elapsed fin;
                     TimedOut := true |},
             Some (New ("command timed out after " ^^ fmtDuration h (Timeout opts)
                        ^^ ": " ^^ cmdLine)))
    | None =>
        match runErr fin with
        | Some (ExitError code) =>
            ret (Some result,
                 Some (New ("command failed with exit code " ^^ strings.Itoa code
                            ^^ ": " ^^ cmdLine)))
        | Some (StartError cause) =>
            ret (Some result, Some (Wrap "command failed: " cause))
        | None => ret (Some result, None)
        end
    end.

End WithHost.

End sysutil.

(** ** Package [output]: console lines, silenced by the quiet flag *)

Module output.
Section WithHost.
Variable h : Host.

Definition Println (msg : string) : M unit :=
  if quiet h then ret tt
  else emit (EvConsole (msg ^^ String strings.newline EmptyString)).

Definition Printf (text : string) : M unit :=
  if quiet h then ret tt else emit (EvConsole text).

End WithHost.
End output.

(** ** Package [fsutil] *)

Module fsutil.
Section WithHost.
Variable h : Host.

Definition fsop (op : FsOp) : M (option error) :=
  request (fun t => host_fs h t op) (EvFs op).

Definition Stat (path : string) : M (error + FileType) :=
  request (fun t => host_stat h t path) (EvStat path).

Definition EnsureDir (path : string) : M (option error) :=
  if String.eqb path EmptyString then
    ret (Some (New "fsutil: empty path for EnsureDir"))
  else fsop (MkdirAll path).

Definition PathExists (path : string) : M (bool * option error) :=
  if String.eqb path EmptyString then
    ret (false, Some (New "fsutil: empty path for PathExists"))
  else
    r <- Stat path ;;
    match r with
    | inr _ => ret (true, None)
    | inl err => if IsNotExist err then ret (false, None) else ret (false, Some err)
    end.

Definition RemoveIfExists (path : string) : M (option error) :=
  if String.eqb path EmptyString then
    ret (Some (New "fsutil: empty path for RemoveIfExists"))
  else
    err <- fsop (RemoveAll path) ;;
    match err with
    | Some e => if IsNotExist e then ret None else ret (Some e)
    | None => ret None
    end.

Definition CopyStream (destPath : string) (content : string) : M (option error) :=
  if String.eqb destPath EmptyString then
    ret (Some (New "fsutil: empty destPath for CopyStream"))
  else
    check (EnsureDir (filepath.Dir destPath)) (fun e => e) (
    check (fsop (OpenWrite destPath)) (fun e => e) (
    err <- fsop (WriteString destPath content) ;;
    fsop (Close destPath) ;;
    ret err)).

Definition CopyFile (src dest : string) : M (option error) :=
  if (String.eqb src EmptyString || String.eqb dest EmptyString)%bool then
    ret (Some (New "fsutil: CopyFile requires non-empty src and dest"))
  else
    info <- Stat src ;;
    match info with
    | inl err => ret (Some (Wrap "fsutil: stat source: " err))
    | inr mode =>
        if negb (IsRegular mode) then
          ret (Some (New ("fsutil: source is not a regular file: " ^^ src)))
        else
          check (EnsureDir (filepath.Dir dest)) (fun e => e) (
          check (fsop (OpenRead src)) (fun e => e) (
          openErr <- fsop (OpenWrite dest) ;;
          match openErr with
          | Some e => fsop (Close src) ;; ret (Some e)
          | None =>
              copyErr <- fsop (CopyBytes dest src) ;;
              match copyErr with
              | Some e => fsop (Close dest) ;; fsop (Close src) ;; ret (Some e)
              | None =>
                  closeErr <- fsop (Close dest) ;;
                  fsop (Close dest) ;; fsop (Close src) ;;
                  ret closeErr
              end
          end))
    end.

End WithHost.
End fsutil.

(** ** Package [logutil] *)

Module logutil.
Section WithHost.
Variable h : Host.

(** The logger and the file handle are both the log file; the third
    result of the source, its path, is the same string. *)
Definition NewOperationLogger (baseDir prefix : string) : M (error + File) :=
  if String.eqb baseDir EmptyString then
    ret (inl (New "logutil: baseDir is required"))
  else
    let prefix := if String.eqb prefix EmptyString then "log" else prefix in
    let logDir := filepath.Join [baseDir; "logs"] in
    err <- fsutil.EnsureDir h logDir ;;
    match err with
    | Some e => ret (inl e)
    | None =>
        now <- request (host_now h) EvNow ;;
        let filename := prefix ^^ "-" ^^ now ^^ ".txt" in
        let fullPath := filepath.Join [logDir; filename] in
        openErr <- fsutil.fsop h (OpenWrite fullPath) ;;
        match openErr with
        | Some e => ret (inl e)
        | None =>
            sysutil.Printf (Some fullPath) ("starting " ^^ prefix ^^ " operation") ;;
            ret (inr fullPath)
        end
    end.

End WithHost.
End logutil.

(** ** Package [deps], machine lifecycle *)

Module deps.

Definition podmanMachineName : string := "cloudinit-builder".
Definition machineInitTimeout : Duration := 10 * Minute.
Definition machineStartTimeout : Duration := 3 * Minute.

(** [for _, x := range xs { if err := body(x); err != nil { return err } }]:
    a body that answers [None] goes on to the next element. *)
Fixpoint forEach {A : Type} (xs : list A) (body : A -> M (option error))
  : M (option error) :=
  match xs with
  | [] => ret None
  | x :: rest => check (body x) (fun e => e) (forEach rest body)
  end.

Definition machineMissing (err : option error) (result : option sysutil.RunResult)
  : bool :=
  match err with
  | None => false
  | Some e =>
      let msg := strings.ToLower (Error e) in
      if (strings.Contains msg "no such vm"
          || strings.Contains msg "not found"
          || strings.Contains msg "does not exist")%bool
      then true
      else
        match result with
        | Some r =>
            let stdout := strings.ToLower (sysutil.Stdout_ r) in
            let stderr := strings.ToLower (sysutil.Stderr_ r) in
            (strings.Contains stdout "does not exist"
             || strings.Contains stderr "does not exist"
             || strings.Contains stdout "no such vm"
             || strings.Contains stderr "no such vm")%bool
        | None => false
        end
  end.

Section WithHost.
Variable h : Host.

Definition podmanEnv (baseDir : string) : M (list string * option error) :=
  let configDir := filepath.Join [baseDir; "runtime"; "podman"; "config"] in
  let tmpDir := filepath.Join [baseDir; "runtime"; "podman"; "tmp"] in
  let runDir := filepath.Join [baseDir; "runtime"; "podman"; "run"] in
  let homeDir := filepath.Join [baseDir; "runtime"; "podman"; "home"] in
  err <- forEach [configDir; tmpDir; runDir; homeDir] (fsutil.EnsureDir h) ;;
  match err with
  | Some e => ret ([], Some e)
  | None =>
      ret (["XDG_CONFIG_HOME=" ^^ configDir;
            "XDG_RUNTIME_DIR=" ^^ runDir;
            "PODMAN_CONFIG=" ^^ filepath.Join [configDir; "containers.conf"];
            "PODMAN_TMPDIR=" ^^ tmpDir;
            "TMPDIR=" ^^ tmpDir;
            "HOME=" ^^ homeDir], None)
  end.

Definition machineOpts (timeout : Duration) (baseDir : string) (env : list string)
  (logWriter : option File) (logger : sysutil.Logger) : sysutil.RunOptions :=
  {| sysutil.Timeout := timeout;
     sysutil.Dir := baseDir;
     sysutil.Env := env;
     sysutil.Stdout := logWriter;
     sysutil.Stderr := logWriter;
     sysutil.Logger_ := logger |}.

Definition cleanupMachineConnection (baseDir podmanPath : string) (env : list string)
  (logWriter : option File) (logger : sysutil.Logger) : M (option error) :=
  let names := [podmanMachineName; podmanMachineName ^^ "-root"] in
  forEach names (fun name =>
    let opts := machineOpts (30 * Second) baseDir env logWriter logger in
    '(result, err) <- sysutil.RunCommand h opts podmanPath
                        ["system"; "connection"; "rm"; name] ;;
    match err with
    | Some e =>
        if machineMissing err result then ret None
        else
          let errLower := strings.ToLower (Error e) in
          if (strings.Contains errLower "no such connection"
              || strings.Contains errLower "not found")%bool
          then ret None
          else ret (Some e)
    | None => ret None
    end).

(** [if cleanupErr := cleanupMachineConnection(...); cleanupErr != nil &&
    logger != nil { logger.Printf("warning: ...") }] *)
Definition cleanupOrWarn (warning : string) (baseDir podmanPath : string)
  (env : list string) (logWriter : option File) (logger : sysutil.Logger) : M unit :=
  cleanupErr <- cleanupMachineConnection baseDir podmanPath env logWriter logger ;;
  match cleanupErr with
  | Some e => sysutil.Printf logger (warning ^^ Error e)
  | None => ret tt
  end.

Definition initArgs : list string := ["machine"; "init"; podmanMachineName; "--now"].

Definition ensureMachineExists (baseDir podmanPath : string) (env : list string)
  (logWriter : option File) (logger : sysutil.Logger) : M (option error) :=
  let opts := machineOpts machineStartTimeout baseDir env logWriter logger in
  '(result, err) <- sysutil.RunCommand h opts podmanPath
                      ["machine"; "inspect"; podmanMachineName] ;;
  match err with
  | None => ret None
  | Some e =>
      if negb (machineMissing err result) then
        ret (Some (Wrap "check podman machine: " e))
      else
        sysutil.Printf logger ("initializing podman machine " ^^ podmanMachineName) ;;
        let opts := machineOpts machineInitTimeout baseDir env logWriter logger in
        cleanupOrWarn "warning: failed to clean stale connection: "
          baseDir podmanPath env logWriter logger ;;
        '(_, err) <- sysutil.RunCommand h opts podmanPath initArgs ;;
        match err with
        | Some e =>
            let errLower := strings.ToLower (Error e) in
            if (strings.Contains errLower "connection"
                && strings.Contains errLower "already exists")%bool
            then
              cleanupOrWarn "warning: failed to clean stale connection: "
                baseDir podmanPath env logWriter logger ;;
              '(_, retryErr) <- sysutil.RunCommand h opts podmanPath initArgs ;;
              match retryErr with
              | Some re => ret (Some (Wrap "podman machine init after cleanup: " re))
              | None => ret None
              end
            else ret (Some (Wrap "podman machine init: " e))
        | None => ret None
        end
  end.

Definition machineState (baseDir podmanPath : string) (env : list string)
  (logWriter : option File) (logger : sysutil.Logger) : M (string * option error) :=
  let opts := machineOpts (30 * Second) baseDir env logWriter logger in
  '(result, err) <- sysutil.RunCommand h opts podmanPath
                      ["machine"; "inspect"; podmanMachineName; "--format"; "{{.State}}"] ;;
  match err, result with
  | Some e, _ => ret (EmptyString, Some (Wrap "podman machine inspect: " e))
  | None, Some r => ret (strings.TrimSpace (sysutil.Stdout_ r), None)
  | None, None => ret (EmptyString, None)
  end.

Definition ensureMachineRunning (baseDir podmanPath : string) (env : list string)
  (logWriter : option File) (logger : sysutil.Logger) : M (option error) :=
  '(state, err) <- machineState baseDir podmanPath env logWriter logger ;;
  match err with
  | Some e => ret (Some e)
  | None =>
      if String.eqb (strings.TrimSpace state) "running" then ret None
      else
        sysutil.Printf logger ("starting podman machine " ^^ podmanMachineName) ;;
        let opts := machineOpts machineStartTimeout baseDir env logWriter logger in
        '(_, err) <- sysutil.RunCommand h opts podmanPath
                       ["machine"; "start"; podmanMachineName] ;;
        match err with
        | Some e => ret (Some (Wrap "podman machine start: " e))
        | None => ret None
        end
  end.

Definition ensureDefaultConnection (baseDir podmanPath : string) (env : list string)
  (logWriter : option File) (logger : sysutil.Logger) : M (option error) :=
  let opts := machineOpts (30 * Second) baseDir env logWriter logger in
  '(_, err) <- sysutil.RunCommand h opts podmanPath
                 ["system"; "connection"; "default"; podmanMachineName] ;;
  match err with
  | Some e =>
      if negb (strings.Contains (Error e) "already default")
      then ret (Some (Wrap "set podman connection default: " e))
      else ret None
  | None => ret None
  end.

Definition EnsurePodmanMachine (baseDir podmanPath : string)
  (logWriter : option File) (logger : sysutil.Logger)
  : M (string * list string * option error) :=
  '(env, err) <- podmanEnv baseDir ;;
  match err with
  | Some e => ret (EmptyString, [], Some e)
  | None =>
      err <- ensureMachineExists baseDir podmanPath env logWriter logger ;;
      match err with
      | Some e => ret (EmptyString, [], Some e)
      | None =>
          err <- ensureMachineRunning baseDir podmanPath env logWriter logger ;;
          match err with
          | Some e => ret (EmptyString, [], Some e)
          | None =>
              err <- ensureDefaultConnection baseDir podmanPath env logWriter logger ;;
              match err with
              | Some e => ret (EmptyString, [], Some e)
              | None => ret (podmanMachineName, env, None)
              end
          end
      end
  end.

Definition StopPodmanMachine (baseDir podmanPath machineName : string)
  (env : list string) (logWriter : option File) (logger : sysutil.Logger)
  : M (option error) :=
  let machineName :=
    if String.eqb machineName EmptyString then podmanMachineName else machineName in
  let opts := machineOpts machineStartTimeout baseDir env logWriter logger in
  '(result, err) <- sysutil.RunCommand h opts podmanPath
                      ["machine"; "stop"; machineName] ;;
  match err with
  | Some e =>
      if (machineMissing err result
          || strings.Contains (strings.ToLower (Error e)) "already stopped")%bool
      then ret None
      else ret (Some (Wrap "podman machine stop: " e))
  | None => ret None
  end.

Definition RemovePodmanMachine (baseDir podmanPath : string) (logger : sysutil.Logger)
  : M (option error) :=
  '(env, err) <- podmanEnv baseDir ;;
  match err with
  | Some e => ret (Some e)
  | None =>
      check (StopPodmanMachine baseDir podmanPath podmanMachineName env None logger)
        (fun e => e) (
      let opts := machineOpts machineStartTimeout baseDir env None logger in
      '(result, err) <- sysutil.RunCommand h opts podmanPath
                          ["machine"; "rm"; "-f"; podmanMachineName] ;;
      match err with
      | Some e =>
          if machineMissing err result then ret None
          else ret (Some (Wrap "podman machine rm: " e))
      | None =>
          cleanupOrWarn "warning: failed to clean connection after removal: "
            baseDir podmanPath env None logger ;;
          ret None
      end)
  end.

(** *** Layout, templates, downloads and archives *)

Definition podmanVersionTag : string := "v5.1.0".
Definition podmanZipURL : string :=
  "https://github.com/containers/podman/releases/download/v5.1.0/podman-remote-release-windows_amd64.zip".
Definition podmanZipName : string := "podman-remote-release-windows_amd64.zip".

Definition qemuVersionTag : string := "20240822".
Definition qemuZipName : string := "qemu-w64-portable-20240822.zip".
Definition qemuZipURL : string :=
  "https://github.com/dirkarnez/qemu-portable/releases/download/20240822/qemu-w64-portable-20240822.zip".
Definition qemuExeName : string := "qemu-system-x86_64.exe".

Definition baseDirs : list string :=
  ["tools"; "tools/podman"; "tools/qemu"; "templates"; "images"; "runtime";
   "runtime/podman"; "runtime/podman/tmp"; "runtime/podman/config";
   "runtime/podman/run"; "runtime/podman/home"; "cache"; "logs"].

Definition lf : string := String strings.newline EmptyString.

Definition defaultUserData : string :=
  strings.Join ["#cloud-config"; "hostname: vce"; "password: Velocloud123";
                "chpasswd: {expire: False}"; "ssh_pwauth: True"] lf ^^ lf.

Definition defaultMetaData : string :=
  strings.Join ["instance-id: vce"; "local-hostname: vce"] lf ^^ lf.

Definition EnsureBaseLayout (baseDir : string) (logger : sysutil.Logger)
  : M (option error) :=
  check (forEach baseDirs (fun rel =>
           fsutil.EnsureDir h (filepath.Join [baseDir; filepath.FromSlash rel])))
    (fun e => e) (
  sysutil.Printf logger ("base layout verified at " ^^ baseDir) ;;
  ret None).

Definition ensureFileWithContent (path content : string) (logger : sysutil.Logger)
  : M (bool * option error) :=
  '(exists_, err) <- fsutil.PathExists h path ;;
  match err with
  | Some e => ret (false, Some e)
  | None =>
      if exists_ then ret (false, None)
      else
        err <- fsutil.CopyStream h path content ;;
        match err with
        | Some e => ret (false, Some e)
        | None => ret (true, None)
        end
  end.

Definition EnsureTemplates (baseDir : string) (logger : sysutil.Logger)
  : M (option error) :=
  let templateDir := filepath.Join [baseDir; "templates"] in
  let userData := filepath.Join [templateDir; "user-data.txt"] in
  let metaData := filepath.Join [templateDir; "meta-data.txt"] in
  '(created, err) <- ensureFileWithContent userData defaultUserData logger ;;
  match err with
  | Some e => ret (Some e)
  | None =>
      (if created
       then sysutil.Printf logger ("created default user-data template at " ^^ userData)
       else ret tt) ;;
      '(created, err) <- ensureFileWithContent metaData defaultMetaData logger ;;
      match err with
      | Some e => ret (Some e)
      | None =>
          (if created
           then sysutil.Printf logger ("created default meta-data template at " ^^ metaData)
           else ret tt) ;;
          ret None
      end
  end.

Definition downloadFile (url dest : string) (logger : sysutil.Logger)
  : M (option error) :=
  resp <- request (fun t => host_http h t url) (EvHttpGet url) ;;
  match resp with
  | inl err => ret (Some (Wrap "download failed: " err))
  | inr resp =>
      if negb (StatusCode resp =? 200) then
        ret (Some (New ("unexpected HTTP status " ^^ Status resp)))
      else
        let tmpDest := dest ^^ ".tmp" in
        check (fsutil.fsop h (OpenWrite tmpDest)) (fun e => e) (
        copyErr <- fsutil.fsop h (CopyBytes tmpDest url) ;;
        match copyErr with
        | Some e => fsutil.fsop h (Close tmpDest) ;; ret (Some e)
        | None =>
            closeErr <- fsutil.fsop h (Close tmpDest) ;;
            match closeErr with
            | Some e => fsutil.fsop h (Close tmpDest) ;; ret (Some e)
            | None =>
                renameErr <- fsutil.fsop h (Rename tmpDest dest) ;;
                match renameErr with
                | Some e => fsutil.fsop h (Close tmpDest) ;; ret (Some e)
                | None =>
                    sysutil.Printf logger
                      ("downloaded " ^^ dest ^^ " ("
                       ^^ strings.Itoa (ContentLength resp) ^^ " bytes)") ;;
                    fsutil.fsop h (Close tmpDest) ;;
                    ret None
                end
            end
        end)
  end.

(** One entry of the archive, the body of the loop of [extractZip]. *)
Definition extractEntry (dest : string) (file : ZipEntry) : M (option error) :=
  let targetPath := filepath.Join [dest; Name file] in
  if negb (strings.HasPrefix (filepath.Clean targetPath) (filepath.Clean dest)) then
    ret (Some (New ("unsafe path in archive: " ^^ Name file)))
  else if entryIsDir file then
    fsutil.EnsureDir h targetPath
  else
    check (fsutil.EnsureDir h (filepath.Dir targetPath)) (fun e => e) (
    match entryOpen file with
    | Some e => ret (Some e)
    | None =>
        check (fsutil.fsop h (OpenWrite targetPath)) (fun e => e) (
        copyErr <- fsutil.fsop h (CopyBytes targetPath (Name file)) ;;
        fsutil.fsop h (Close targetPath) ;;
        ret copyErr)
    end).

Definition extractZip (zipPath dest : string) : M (option error) :=
  reader <- request (fun t => host_zip h t zipPath) (EvZipOpen zipPath) ;;
  match reader with
  | inl err => ret (Some err)
  | inr files => forEach files (extractEntry dest)
  end.

(** [filepath.WalkDir] with a callback that passes an entry's error on,
    skips directories (and, when [regularOnly], everything not regular),
    and stops at the first entry whose name matches ignoring case. *)
Fixpoint walkFind (regularOnly : bool) (name : string) (entries : list DirEntry)
  : string * option error :=
  match entries with
  | [] => (EmptyString, None)
  | d :: rest =>
      match walkErr d with
      | Some e => (EmptyString, Some e)
      | None =>
          if IsDir (entryType d) then walkFind regularOnly name rest
          else if (regularOnly && negb (IsRegular (entryType d)))%bool
          then walkFind regularOnly name rest
          else if strings.EqualFold (entryName d) name then (walkPath d, None)
          else walkFind regularOnly name rest
      end
  end.

Definition copyBinaryIfNeeded (rootDir binaryName : string) : M (option error) :=
  let target := filepath.Join [rootDir; binaryName] in
  '(exists_, err) <- fsutil.PathExists h target ;;
  match err with
  | Some e => ret (Some e)
  | None =>
      if exists_ then ret None
      else
        entries <- request (fun t => host_walk h t rootDir) (EvWalk rootDir) ;;
        match walkFind false binaryName entries with
        | (_, Some e) => ret (Some e)
        | (found, None) =>
            if String.eqb found EmptyString then
              ret (Some (New (binaryName ^^ " not found after extraction")))
            else
              check (fsutil.fsop h (OpenRead found)) (fun e => e) (
              openErr <- fsutil.fsop h (OpenWrite target) ;;
              match openErr with
              | Some e => fsutil.fsop h (Close found) ;; ret (Some e)
              | None =>
                  copyErr <- fsutil.fsop h (CopyBytes target found) ;;
                  match copyErr with
                  | Some e =>
                      fsutil.fsop h (Close target) ;;
                      fsutil.fsop h (Close found) ;; ret (Some e)
                  | None =>
                      closeErr <- fsutil.fsop h (Close target) ;;
                      fsutil.fsop h (Close found) ;;
                      ret closeErr
                  end
              end)
        end
  end.

Definition placePodmanExecutable (podmanDir : string) : M (option error) :=
  copyBinaryIfNeeded podmanDir "podman.exe".

Definition copySupportBinaries (podmanDir : string) : M (option error) :=
  forEach ["win-sshproxy.exe"; "gvproxy.exe"] (copyBinaryIfNeeded podmanDir).

Definition EnsurePodman (baseDir : string) (logger : sysutil.Logger)
  : M (string * option error) :=
  let podmanDir := filepath.Join [baseDir; "tools"; "podman"] in
  let podmanExe := filepath.Join [podmanDir; "podman.exe"] in
  let fail (e : error) : M (string * option error) := ret (EmptyString, Some e) in
  '(exists_, err) <- fsutil.PathExists h podmanExe ;;
  match err with
  | Some e => fail e
  | None =>
      if exists_ then
        err <- copySupportBinaries podmanDir ;;
        match err with
        | Some e => fail e
        | None =>
            sysutil.Printf logger ("podman already present at " ^^ podmanExe) ;;
            ret (podmanExe, None)
        end
      else
        sysutil.Printf logger
          ("podman not found, downloading portable release " ^^ podmanVersionTag) ;;
        let cacheDir := filepath.Join [baseDir; "cache"] in
        let zipPath := filepath.Join [cacheDir; podmanZipName] in
        err <- check (fsutil.EnsureDir h cacheDir) (fun e => e) (
               check (downloadFile podmanZipURL zipPath logger) (fun e => e) (
               sysutil.Printf logger ("extracting podman archive " ^^ zipPath) ;;
               check (fsutil.RemoveIfExists h podmanDir) (fun e => e) (
               check (fsutil.EnsureDir h podmanDir) (fun e => e) (
               check (extractZip zipPath podmanDir) (fun e => e) (
               check (placePodmanExecutable podmanDir) (fun e => e) (
               copySupportBinaries podmanDir)))))) ;;
        match err with
        | Some e => fail e
        | None =>
            sysutil.Printf logger ("podman ready at " ^^ podmanExe) ;;
            ret (podmanExe, None)
        end
  end.

Definition findQEMUExecutable (root : string) : M (string * option error) :=
  entries <- request (fun t => host_walk h t root) (EvWalk root) ;;
  match walkFind true qemuExeName entries with
  | (_, Some e) => ret (EmptyString, Some e)
  | (found, None) =>
      if String.eqb found EmptyString then
        ret (EmptyString, Some (New (qemuExeName ^^ " not found inside " ^^ root)))
      else ret (found, None)
  end.

Definition EnsureQEMU (baseDir : string) (logger : sysutil.Logger)
  : M (string * option error) :=
  let qemuDir := filepath.Join [baseDir; "tools"; "qemu"] in
  let fail (e : error) : M (string * option error) := ret (EmptyString, Some e) in
  err <- fsutil.EnsureDir h qemuDir ;;
  match err with
  | Some e => fail e
  | None =>
      '(exe, err) <- findQEMUExecutable qemuDir ;;
      match err with
      | None =>
          sysutil.Printf logger ("qemu already present at " ^^ exe) ;;
          ret (exe, None)
      | Some _ =>
          sysutil.Printf logger
            ("qemu not found, downloading portable release " ^^ qemuVersionTag) ;;
          let cacheDir := filepath.Join [baseDir; "cache"] in
          let zipPath := filepath.Join [cacheDir; qemuZipName] in
          err <- check (fsutil.EnsureDir h cacheDir) (fun e => e) (
                 check (downloadFile qemuZipURL zipPath logger) (fun e => e) (
                 sysutil.Printf logger ("extracting qemu archive " ^^ zipPath) ;;
                 check (fsutil.RemoveIfExists h qemuDir) (fun e => e) (
                 check (fsutil.EnsureDir h qemuDir) (fun e => e) (
                 extractZip zipPath qemuDir)))) ;;
          match err with
          | Some e => fail e
          | None =>
              '(exe, err) <- findQEMUExecutable qemuDir ;;
              match err with
              | Some e => fail e
              | None =>
                  sysutil.Printf logger ("qemu ready at " ^^ exe) ;;
                  ret (exe, None)
              end
          end
      end
  end.

End WithHost.
End deps.

(** ** Package [builder]: the build orchestrator *)

Module builder.

Definition imageName : string := "docker.io/library/debian:bookworm".
Definition podmanPullTimeout : Duration := 10 * Minute.
Definition podmanRunTimeout : Duration := 15 * Minute.
Definition buildLogPrefix : string := "build".

(** The variables of [Build] that its deferred function reads. *)
Record locals : Type := {
  podmanPath : string;
  machineName : string;
  podmanEnv : list string
}.

Section WithHost.
Variable h : Host.

Definition pathRelative (baseDir target : string) : string :=
  match filepath_Rel h baseDir target with
  | inl _ => target
  | inr rel => rel
  end.

Definition podmanOpts (timeout : Duration) (baseDir : string) (env : list string)
  (logFile : File) (logger : sysutil.Logger) : sysutil.RunOptions :=
  {| sysutil.Timeout := timeout;
     sysutil.Dir := baseDir;
     sysutil.Env := env;
     sysutil.Stdout := Some logFile;
     sysutil.Stderr := Some logFile;
     sysutil.Logger_ := logger |}.

Definition runPodman (baseDir podmanPath machineName : string) (env args : list string)
  (logFile : File) (logger : sysutil.Logger) (timeout : Duration) : M (option error) :=
  let allArgs := ["--connection"; machineName] ++ args in
  '(_, err) <- sysutil.RunCommand h (podmanOpts timeout baseDir env logFile logger)
                 podmanPath allArgs ;;
  ret err.

Definition buildScript : string :=
  strings.Join
    ["set -euo pipefail";
     "apt-get update -qq";
     "apt-get install -y genisoimage";
     "genisoimage -output /work/images/cloud-init.iso -volid cidata -joliet -rock -graft-points user-data=/work/templates/user-data.txt meta-data=/work/templates/meta-data.txt"]
    " && ".

Definition runPodmanRun (baseDir podmanPath machineName : string) (env : list string)
  (logFile : File) (logger : sysutil.Logger) : M (option error) :=
  let isoPath := filepath.Join [baseDir; "images"; "cloud-init.iso"] in
  let mountArg := filepath.Clean baseDir ^^ ":/work" in
  let podmanArgs :=
    ["run"; "--rm"; "-v"; mountArg; "-w"; "/work"; imageName; "bash"; "-c"; buildScript] in
  let launch : M (option error) :=
    check (fsutil.EnsureDir h (filepath.Dir isoPath)) (fun e => e) (
    '(_, err) <- sysutil.RunCommand h
                   (podmanOpts podmanRunTimeout baseDir env logFile logger)
                   podmanPath (["--connection"; machineName] ++ podmanArgs) ;;
    ret err) in
  rmErr <- fsutil.fsop h (Remove isoPath) ;;
  match rmErr with
  | Some e => if IsNotExist e then launch else ret (Some e)
  | None => launch
  end.

(** The deferred function of [Build]: it reads the variables and the
    named result [err] as they are when [Build] returns. *)
Definition stopOnExit (baseDir : string) (logFile : File) (logger : sysutil.Logger)
  (v : locals) (err : option error) : M unit :=
  if (String.eqb (podmanPath v) EmptyString
      || String.eqb (machineName v) EmptyString
      || Nat.eqb (length (podmanEnv v)) 0)%bool
  then ret tt
  else
    stopErr <- deps.StopPodmanMachine h baseDir (podmanPath v) (machineName v)
                 (podmanEnv v) (Some logFile) logger ;;
    match stopErr with
    | Some e =>
        emit (EvStderr ("warning: failed to stop podman machine: " ^^ Error e ^^ deps.lf))
    | None =>
        match err with
        | None => output.Println h "[*] Podman machine stopped."
        | Some _ => ret tt
        end
    end.

(** [Build] once the machine is ready: pull the image, make the ISO. *)
Definition Build_ready (baseDir : string) (logFile : File) (logger : sysutil.Logger)
  (v : locals) : M (locals * option error) :=
  output.Println h "[*] Pulling Debian image..." ;;
  err <- runPodman baseDir (podmanPath v) (machineName v) (podmanEnv v)
           ["pull"; imageName] logFile logger podmanPullTimeout ;;
  match err with
  | Some e => ret (v, Some (Wrap "podman pull: " e))
  | None =>
      output.Println h "[*] Building cloud-init.iso with genisoimage..." ;;
      err <- runPodmanRun baseDir (podmanPath v) (machineName v) (podmanEnv v)
               logFile logger ;;
      match err with
      | Some e => ret (v, Some (Wrap "podman run: " e))
      | None =>
          output.Println h "[+] Done: images/cloud-init.iso created." ;;
          ret (v, None)
      end
  end.

(** [Build] from the [defer] of the stop to a [return]: the value of the
    three variables at that [return], and the error returned. *)
Definition Build_steps (baseDir : string) (logFile : File) (logger : sysutil.Logger)
  : M (locals * option error) :=
  '(path, err) <- deps.EnsurePodman h baseDir logger ;;
  let v := {| podmanPath := path; machineName := EmptyString; podmanEnv := [] |} in
  match err with
  | Some e => ret (v, Some (Wrap "ensure podman: " e))
  | None =>
      output.Println h "[*] Podman ready." ;;
      '(name, env, err) <- deps.EnsurePodmanMachine h baseDir path (Some logFile) logger ;;
      let v := {| podmanPath := path; machineName := name; podmanEnv := env |} in
      match err with
      | Some e => ret (v, Some (Wrap "ensure podman machine: " e))
      | None => Build_ready baseDir logFile logger v
      end
  end.

Definition Build (baseDir : string) : M (option error) :=
  r <- logutil.NewOperationLogger h baseDir buildLogPrefix ;;
  match r with
  | inl e => ret (Some e)
  | inr logFile =>
      let logger : sysutil.Logger := Some logFile in
      err <-
        (output.Printf h ("[*] Logging build output to "
                          ^^ pathRelative baseDir logFile ^^ deps.lf) ;;
         output.Println h "[*] Checking dependencies..." ;;
         check (deps.EnsureBaseLayout h baseDir logger) (Wrap "ensure base layout: ") (
         check (deps.EnsureTemplates h baseDir logger) (Wrap "ensure templates: ") (
         '(v, err) <- Build_steps baseDir logFile logger ;;
         stopOnExit baseDir logFile logger v err ;;
         ret err))) ;;
      fsutil.fsop h (Close logFile) ;;
      ret err
  end.

End WithHost.
End builder.

(** ** Package [vmtest]: the smoke-test runner *)

Module vmtest.

Definition testLogPrefix : string := "test".
Definition vmRunTimeout : Duration := 30 * Minute.
Definition isoRelativePath : string := "images/cloud-init.iso".
Definition qcowRelative : string := "images/velocloud.qcow2".

Definition looksLikeQEMU (path : string) : bool :=
  let base := strings.ToLower (filepath.Base path) in
  (strings.HasPrefix base "qemu-system" || strings.Contains base "qemu")%bool.

Section WithHost.
Variable h : Host.

Definition relPath (baseDir target : string) : string :=
  match filepath_Rel h baseDir target with
  | inl _ => target
  | inr rel => rel
  end.

Definition ensureFileExists (path description : string) : M (option error) :=
  info <- fsutil.Stat h path ;;
  match info with
  | inl err =>
      if IsNotExist err then ret (Some (New (description ^^ " not found at " ^^ path)))
      else ret (Some (Wrap ("stat " ^^ description ^^ ": ") err))
  | inr mode =>
      if IsDir mode then
        ret (Some (New (description ^^ " points to a directory: " ^^ path)))
      else ret None
  end.

Definition defaultAccel : M string :=
  v <- request (fun t => host_getenv h t "CLOUDINIT_BUILDER_QEMU_ACCEL")
         (EvGetenv "CLOUDINIT_BUILDER_QEMU_ACCEL") ;;
  let v := strings.TrimSpace v in
  if negb (String.eqb v EmptyString) then ret v else ret "tcg".

Definition defaultQEMUArgs (diskPath isoPath : string) : M (list string) :=
  accel <- defaultAccel ;;
  ret ["-name"; "cloudinit-builder-test,process=cloudinit-builder-test";
       "-m"; "4096";
       "-smp"; "2";
       "-drive"; "if=virtio,format=qcow2,file=" ^^ diskPath;
       "-cdrom"; isoPath;
       "-boot"; "d";
       "-accel"; accel;
       "-netdev"; "user,id=wan,ipv6=off";
       "-device"; "virtio-net-pci,netdev=wan,mac=52:54:00:00:00:01";
       "-vga"; "std";
       "-display"; "sdl";
       "-serial"; "stdio"].

(** [filepath.Abs]: an absolute path is cleaned, a relative one is joined
    to the working directory. *)
Definition Abs (path : string) : M (string * option error) :=
  if filepath.IsAbs path then ret (filepath.Clean path, None)
  else
    wd <- request (host_getwd h) EvGetwd ;;
    match wd with
    | inl e => ret (EmptyString, Some e)
    | inr dir => ret (filepath.Join [dir; path], None)
    end.

(** The deferred function of [Run]. *)
Definition deleteClone (baseDir clonePath : string) : M unit :=
  err <- fsutil.RemoveIfExists h clonePath ;;
  match err with
  | Some e =>
      emit (EvStderr ("warning: failed to delete temp disk " ^^ clonePath ^^ ": "
                      ^^ Error e ^^ deps.lf))
  | None =>
      output.Printf h ("[*] Deleted temporary disk " ^^ relPath baseDir clonePath ^^ deps.lf)
  end.

Definition vmOpts (baseDir : string) (logFile : File) : sysutil.RunOptions :=
  {| sysutil.Timeout := vmRunTimeout;
     sysutil.Dir := baseDir;
     sysutil.Env := [];
     sysutil.Stdout := Some logFile;
     sysutil.Stderr := Some logFile;
     sysutil.Logger_ := Some logFile |}.

(** The arguments of the launch, as [Run] chooses them. *)
Definition launchArgs (absVM : string) (usingBundledQEMU : bool)
  (isoPath clonePath : string) (passthroughArgs : list string) : M (list string) :=
  args <-
    (if (usingBundledQEMU || looksLikeQEMU absVM)%bool then
       output.Println h "[*] Launching QEMU with qcow2 + ISO..." ;;
       defaultQEMUArgs clonePath isoPath
     else
       output.Println h "[*] Launching provided VM executable..." ;;
       ret ["--disk"; clonePath; "--cdrom"; isoPath]) ;;
  ret (if Nat.ltb 0 (length passthroughArgs) then args ++ passthroughArgs else args).

(** [Run] once the clone exists: choose the arguments, launch. *)
Definition Run_cloned (baseDir : string) (logFile : File) (absVM : string)
  (usingBundledQEMU : bool) (isoPath clonePath : string) (passthroughArgs : list string)
  : M (option error) :=
  args <- launchArgs absVM usingBundledQEMU isoPath clonePath passthroughArgs ;;
  '(_, err) <- sysutil.RunCommand h (vmOpts baseDir logFile) absVM args ;;
  match err with
  | Some e => ret (Some (Wrap "vm execution failed: " e))
  | None =>
      output.Println h "[+] VM process exited normally." ;;
      ret None
  end.

(** [Run] once the ISO is known to be there: check the base image, clone
    it, launch, delete the clone. *)
Definition Run_checked (baseDir : string) (logFile : File) (absVM : string)
  (usingBundledQEMU : bool) (isoPath : string) (passthroughArgs : list string)
  : M (option error) :=
  let qcowPath := filepath.Join [baseDir; filepath.FromSlash qcowRelative] in
  check (ensureFileExists qcowPath "velocloud qcow2 image") (fun e => e) (
  let tempDir := filepath.Join [baseDir; "runtime"; "vm"] in
  check (fsutil.EnsureDir h tempDir) (Wrap "prepare vm runtime dir: ") (
  now <- request (host_now h) EvNow ;;
  let cloneName := "velocloud-" ^^ now ^^ ".qcow2" in
  let clonePath := filepath.Join [tempDir; cloneName] in
  output.Printf h ("[*] Cloning base qcow2 to " ^^ relPath baseDir clonePath ^^ deps.lf) ;;
  check (fsutil.CopyFile h qcowPath clonePath) (Wrap "clone qcow2: ") (
  err <- Run_cloned baseDir logFile absVM usingBundledQEMU isoPath clonePath
           passthroughArgs ;;
  deleteClone baseDir clonePath ;;
  ret err))).

(** [Run] once the VM executable is known: check the ISO, go on. *)
Definition Run_resolved (baseDir : string) (logFile : File) (absVM : string)
  (usingBundledQEMU : bool) (passthroughArgs : list string) : M (option error) :=
  let isoPath := filepath.Join [baseDir; filepath.FromSlash isoRelativePath] in
  check (ensureFileExists isoPath "cloud-init ISO") (fun e => e) (
  Run_checked baseDir logFile absVM usingBundledQEMU isoPath passthroughArgs).

Definition Run (baseDir vmPath : string) (passthroughArgs : list string)
  : M (option error) :=
  r <- logutil.NewOperationLogger h baseDir testLogPrefix ;;
  match r with
  | inl e => ret (Some e)
  | inr logFile =>
      let logger : sysutil.Logger := Some logFile in
      err <-
        (output.Printf h ("[*] Logging test output to "
                          ^^ relPath baseDir logFile ^^ deps.lf) ;;
         if String.eqb vmPath EmptyString then
           output.Println h "[*] Preparing bundled QEMU runtime..." ;;
           '(absVM, err) <- deps.EnsureQEMU h baseDir logger ;;
           match err with
           | Some e => ret (Some (Wrap "ensure qemu: " e))
           | None => Run_resolved baseDir logFile absVM true passthroughArgs
           end
         else
           '(absVM, err) <- Abs vmPath ;;
           match err with
           | Some e => ret (Some (Wrap "resolve vm path: " e))
           | None =>
               check (ensureFileExists absVM "VM executable") (fun e => e) (
               Run_resolved baseDir logFile absVM false passthroughArgs)
           end) ;;
      fsutil.fsop h (Close logFile) ;;
      ret err
  end.

End WithHost.
End vmtest.

(** ** Package [deps], uninstall ([uninstall.go]) *)

Module uninstall.

(** [errors.Join(aggregate, err)] with [err] not nil: an error whose
    message holds the messages of the errors joined so far, one per line. *)
Definition errorsJoin (aggregate : option error) (err : error) : error :=
  match aggregate with
  | None => New (Error err)
  | Some a => New (Error a ^^ String strings.newline EmptyString ^^ Error err)
  end.

(** The batch file written by [scheduleSelfDelete]. *)
Definition scriptContent (binaryPath : string) : string :=
  let q := String strings.dquote EmptyString in
  "@echo off" ^^ deps.lf
  ^^ "timeout /t 2 >nul" ^^ deps.lf
  ^^ "del " ^^ q ^^ binaryPath ^^ q ^^ deps.lf
  ^^ "del " ^^ q ^^ "%~f0" ^^ q ^^ deps.lf.

Definition killOpts (baseDir : string) (logger : sysutil.Logger) : sysutil.RunOptions :=
  {| sysutil.Timeout := 5 * Second;
     sysutil.Dir := baseDir;
     sysutil.Env := [];
     sysutil.Stdout := None;
     sysutil.Stderr := None;
     sysutil.Logger_ := logger |}.

Definition scriptOpts : sysutil.RunOptions :=
  {| sysutil.Timeout := 2 * Second;
     sysutil.Dir := EmptyString;
     sysutil.Env := [];
     sysutil.Stdout := None;
     sysutil.Stderr := None;
     sysutil.Logger_ := None |}.

Section WithHost.
Variable h : Host.

(** [time.Now().Unix()], answered by the operating system from the
    history like every other request. *)
Variable unixNow : Trace -> Z.

(** The loop of [killProcesses] from the names left and the value of
    [aggregate]. *)
Fixpoint killEach (baseDir : string) (logger : sysutil.Logger)
  (processNames : list string) (aggregate : option error) : M (option error) :=
  match processNames with
  | [] => ret aggregate
  | name :: rest =>
      '(result, err) <- sysutil.RunCommand h (killOpts baseDir logger)
                          "taskkill" ["/IM"; name; "/T"; "/F"] ;;
      match err with
      | None => killEach baseDir logger rest aggregate
      | Some e =>
          if match result with
             | Some r => sysutil.ExitCode r =? 128
             | None => false
             end
          then killEach baseDir logger rest aggregate
          else
            sysutil.Printf logger
              ("warning: failed to kill " ^^ name ^^ ": " ^^ Error e) ;;
            killEach baseDir logger rest
              (Some (errorsJoin aggregate (Wrap ("kill " ^^ name ^^ ": ") e)))
      end
  end.

Definition killProcesses (baseDir : string) (logger : sysutil.Logger)
  (processNames : list string) : M (option error) :=
  killEach baseDir logger processNames None.

Definition scheduleSelfDelete (scriptPath binaryPath : string)
  (logger : sysutil.Logger) : M (option error) :=
  check (fsutil.fsop h (WriteString scriptPath (scriptContent binaryPath)))
    (fun e => e) (
  sysutil.Printf logger ("created self-delete script " ^^ scriptPath) ;;
  '(_, err) <- sysutil.RunCommand h scriptOpts "cmd.exe"
                 ["/C"; "start"; EmptyString; scriptPath] ;;
  match err with
  | Some e => ret (Some (Wrap "launch cleanup script: " e))
  | None =>
      sysutil.Printf logger ("scheduled self-delete via " ^^ scriptPath) ;;
      ret None
  end).

(** The directories [PerformUninstall] removes, in its order. *)
Definition targets (baseDir : string) : list string :=
  [filepath.Join [baseDir; "tools"];
   filepath.Join [baseDir; "images"];
   filepath.Join [baseDir; "runtime"];
   filepath.Join [baseDir; "cache"];
   filepath.Join [baseDir; "templates"]].

Definition removeTarget (logger : sysutil.Logger) (path : string) : M (option error) :=
  err <- fsutil.RemoveIfExists h path ;;
  match err with
  | Some e => ret (Some (Wrap ("remove " ^^ path ^^ ": ") e))
  | None => sysutil.Printf logger ("removed " ^^ path) ;; ret None
  end.

Definition PerformUninstall (baseDir : string) (selfDelete : bool)
  (binaryPath : string) (logger : sysutil.Logger) : M (option error) :=
  sysutil.Printf logger ("starting uninstall from " ^^ baseDir) ;;
  killErr <- killProcesses baseDir logger ["podman.exe"; "qemu-system-x86_64.exe"] ;;
  match killErr with
  | Some e =>
      sysutil.Printf logger
        ("warning: failed to terminate some helper processes: " ^^ Error e)
  | None => ret tt
  end ;;
  let podmanExe := filepath.Join [baseDir; "tools"; "podman"; "podman.exe"] in
  '(exists_, _) <- fsutil.PathExists h podmanExe ;;
  (if exists_ then
     rmErr <- deps.RemovePodmanMachine h baseDir podmanExe logger ;;
     match rmErr with
     | Some e =>
         sysutil.Printf logger ("warning: failed to remove podman machine: " ^^ Error e)
     | None => ret tt
     end
   else ret tt) ;;
  check (deps.forEach (targets baseDir) (removeTarget logger)) (fun e => e) (
  if negb selfDelete then ret None
  else if String.eqb binaryPath EmptyString then
    ret (Some (New "cannot self-delete: binary path unknown"))
  else
    now <- request unixNow EvNow ;;
    let scriptPath :=
      filepath.Join [baseDir; "cleanup-" ^^ strings.Itoa now ^^ ".bat"] in
    scheduleSelfDelete scriptPath binaryPath logger).

End WithHost.
End uninstall.

(** ** Vocabulary of the specification *)

Module RunnerSpec.

(** The rendering the specification describes: the argument between
    double quotes, its own double quotes escaped. *)
Definition quoted (s : string) : string :=
  String strings.dquote
    (strings.ReplaceAll s strings.dquote
       (String strings.backslash (String strings.dquote EmptyString))
     ^^ String strings.dquote EmptyString).

(** White space as Go defines it on bytes, or a double quote. *)
Fixpoint hasSpaceOrQuote (s : string) : bool :=
  match s with
  | EmptyString => false
  | String c r =>
      (strings.isSpace c || Ascii.eqb c strings.dquote || hasSpaceOrQuote r)%bool
  end.

(** A space, a tab or a double quote. *)
Fixpoint hasBlankOrQuote (s : string) : bool :=
  match s with
  | EmptyString => false
  | String c r =>
      (Ascii.eqb c strings.space || Ascii.eqb c strings.tab
       || Ascii.eqb c strings.dquote || hasBlankOrQuote r)%bool
  end.

Definition emptyToken : string :=
  String strings.dquote (String strings.dquote EmptyString).

(** The error kinds of the process runner, told apart by their message. *)
Definition isTimeout (e : error) : bool :=
  strings.HasPrefix (Error e) "command timed out after ".

Definition timeoutError (h : Host) (opts : sysutil.RunOptions) (cmdLine : string)
  : error :=
  New ("command timed out after " ^^ fmtDuration h (sysutil.Timeout opts)
       ^^ ": " ^^ cmdLine).

Definition processFailed (code : Z) (cmdLine : string) : error :=
  New ("command failed with exit code " ^^ strings.Itoa code ^^ ": " ^^ cmdLine).

Definition launchFailed (cause : error) : error := Wrap "command failed: " cause.

(** The command [RunCommand] starts, and the history the host sees when
    it is asked to start it. *)
Definition command (opts : sysutil.RunOptions) (name : string) (args : list string)
  : Cmd :=
  {| cmdPath := name; cmdArgs := args;
     cmdDir := sysutil.Dir opts; cmdEnv := sysutil.Env opts |}.

Definition asked (opts : sysutil.RunOptions) (name : string) (args : list string)
  (t : Trace) : Trace :=
  t ++ events (sysutil.Printf (sysutil.Logger_ opts)
                 ("running command: " ^^ sysutil.commandString name args)) t.

(** How the child of [RunCommand], called at history [t], behaves. *)
Definition behaviour (h : Host) (opts : sysutil.RunOptions) (name : string)
  (args : list string) (t : Trace) : ProcBehaviour :=
  host_exec h (asked opts name args t) (command opts name args).

(** The part of [RunCommand] after [cmd.Run()], without the log lines. *)
Definition conclude (h : Host) (opts : sysutil.RunOptions) (cmdLine : string)
  (fin : sysutil.Finished) : option sysutil.RunResult * option error :=
  let code := match sysutil.ProcessState fin with Some c => c | None => 0 end in
  let res (timedOut : bool) :=
    {| sysutil.Command := cmdLine;
       sysutil.Stdout_ := sysutil.outBytes fin;
       sysutil.Stderr_ := sysutil.errBytes fin;
       sysutil.ExitCode := code;
       sysutil.Duration_ := sysutil.elapsed fin;
       sysutil.TimedOut := timedOut |} in
  match sysutil.ctxErr
          (if 0 <? sysutil.Timeout opts
           then sysutil.WithTimeout (sysutil.Timeout opts) else sysutil.Background)
          (sysutil.elapsed fin) with
  | Some sysutil.DeadlineExceeded =>
      (Some (res true), Some (timeoutError h opts cmdLine))
  | None =>
      match sysutil.runErr fin with
      | Some (sysutil.ExitError c) =>
          (Some (res false), Some (processFailed c cmdLine))
      | Some (sysutil.StartError cause) =>
          (Some (res false), Some (launchFailed cause))
      | None => (Some (res false), None)
      end
  end.

(** What the specification promises of a call without a deadline: the
    result is not marked timed out, the error is no timeout error, and a
    process that starts is left to run to its end. *)
Definition Unbounded (h : Host) (opts : sysutil.RunOptions) (name : string)
  (args : list string) (t : Trace) : Prop :=
  let out := result (sysutil.RunCommand h opts name args) t in
  (forall r, fst out = Some r -> sysutil.TimedOut r = false)
  /\ (forall e, snd out = Some e -> isTimeout e = false)
  /\ (forall p, name <> EmptyString -> behaviour h opts name args t = Starts p ->
        exists r, fst out = Some r
          /\ sysutil.Duration_ r = runtime p
          /\ sysutil.ExitCode r = exitStatus p
          /\ sysutil.Stdout_ r = stdoutBy p (runtime p)
          /\ sysutil.Stderr_ r = stderrBy p (runtime p)).

(** What it promises when the process [p] outlives the deadline: the
    result comes back marked, with the output written until the deadline,
    next to the timeout error. *)
Definition Expired (h : Host) (opts : sysutil.RunOptions) (name : string)
  (args : list string) (t : Trace) (p : Process) : Prop :=
  let cmdLine := sysutil.commandString name args in
  exists r,
    result (sysutil.RunCommand h opts name args) t
    = (Some r, Some (timeoutError h opts cmdLine))
    /\ isTimeout (timeoutError h opts cmdLine) = true
    /\ sysutil.TimedOut r = true
    /\ sysutil.Command r = cmdLine
    /\ sysutil.Stdout_ r = stdoutBy p (sysutil.Timeout opts)
    /\ sysutil.Stderr_ r = stderrBy p (sysutil.Timeout opts)
    /\ sysutil.Duration_ r = sysutil.Timeout opts.

End RunnerSpec.

(** ** What a trace shows *)

Fixpoint execs (es : Trace) : list Cmd :=
  match es with
  | [] => []
  | EvExec c :: r => c :: execs r
  | _ :: r => execs r
  end.

Fixpoint fsops (es : Trace) : list FsOp :=
  match es with
  | [] => []
  | EvFs op :: r => op :: fsops r
  | _ :: r => fsops r
  end.

Fixpoint warnings (es : Trace) : list string :=
  match es with
  | [] => []
  | EvStderr text :: r => text :: warnings r
  | _ :: r => warnings r
  end.

(** A computation all of whose events satisfy [P], whatever the history. *)
Definition Emits {A : Type} (P : Event -> Prop) (m : M A) : Prop :=
  forall t, Forall P (events m t).

(** Every process started satisfies [Q]. *)
Definition onExec (Q : Cmd -> Prop) (e : Event) : Prop :=
  match e with EvExec c => Q c | _ => True end.

(** Every file-system operation satisfies [Q]. *)
Definition onFs (Q : FsOp -> Prop) (e : Event) : Prop :=
  match e with EvFs op => Q op | _ => True end.

(** A computation whose result satisfies [Q], whatever the history. *)
Definition Returns {A : Type} (Q : A -> Prop) (m : M A) : Prop :=
  forall t, Q (result m t).

Definition notExec (e : Event) : Prop :=
  match e with EvExec _ => False | _ => True end.

Definition notFs (e : Event) : Prop :=
  match e with EvFs _ => False | _ => True end.

Definition notStderr (e : Event) : Prop :=
  match e with EvStderr _ => False | _ => True end.

Module MachineSpec.

(** The missing-machine signature the specification lists: one of the
    three patterns in the error message, the standard output or the
    standard error (letter case ignored). *)
Definition listedPattern (s : string) : bool :=
  let s := strings.ToLower s in
  (strings.Contains s "no such vm" || strings.Contains s "not found"
   || strings.Contains s "does not exist")%bool.

Definition listedMissing (msg stdout stderr : string) : bool :=
  (listedPattern msg || listedPattern stdout || listedPattern stderr)%bool.

(** The signature the controller recognizes: one of the three patterns in
    the error message, or one of ["does not exist"] and ["no such vm"] in
    the standard output or the standard error (letter case ignored). *)
Definition outputPattern (s : string) : bool :=
  let s := strings.ToLower s in
  (strings.Contains s "does not exist" || strings.Contains s "no such vm")%bool.

Definition recognizedMissing (msg stdout stderr : string) : bool :=
  (listedPattern msg || outputPattern stdout || outputPattern stderr)%bool.

Definition recognized (e : error) (res : option sysutil.RunResult) : bool :=
  match res with
  | Some r => recognizedMissing (Error e) (sysutil.Stdout_ r) (sysutil.Stderr_ r)
  | None => listedPattern (Error e)
  end.

Definition alreadyStopped (e : error) : bool :=
  strings.Contains (strings.ToLower (Error e)) "already stopped".

Definition connectionExists (e : error) : bool :=
  (strings.Contains (strings.ToLower (Error e)) "connection"
   && strings.Contains (strings.ToLower (Error e)) "already exists")%bool.

(** The commands of the controller. *)
Definition inspectCall (h : Host) (baseDir podmanPath : string) (env : list string)
  (logWriter : option File) (logger : sysutil.Logger)
  : M (option sysutil.RunResult * option error) :=
  sysutil.RunCommand h
    (deps.machineOpts deps.machineStartTimeout baseDir env logWriter logger)
    podmanPath ["machine"; "inspect"; deps.podmanMachineName].

Definition initCall (h : Host) (baseDir podmanPath : string) (env : list string)
  (logWriter : option File) (logger : sysutil.Logger)
  : M (option sysutil.RunResult * option error) :=
  sysutil.RunCommand h
    (deps.machineOpts deps.machineInitTimeout baseDir env logWriter logger)
    podmanPath deps.initArgs.

Definition stopCall (h : Host) (baseDir podmanPath machineName : string)
  (env : list string) (logWriter : option File) (logger : sysutil.Logger)
  : M (option sysutil.RunResult * option error) :=
  sysutil.RunCommand h
    (deps.machineOpts deps.machineStartTimeout baseDir env logWriter logger)
    podmanPath
    ["machine"; "stop";
     if String.eqb machineName EmptyString then deps.podmanMachineName
     else machineName].

Fixpoint sameArgs (a b : list string) : bool :=
  match a, b with
  | [], [] => true
  | x :: a', y :: b' => (String.eqb x y && sameArgs a' b')%bool
  | _, _ => false
  end.

Definition isInit (c : Cmd) : bool := sameArgs (cmdArgs c) deps.initArgs.

Definition isStop (c : Cmd) : bool :=
  match cmdArgs c with
  | [a; b; _] => (String.eqb a "machine" && String.eqb b "stop")%bool
  | _ => false
  end.

Definition isConnectionRm (name : string) (c : Cmd) : bool :=
  sameArgs (cmdArgs c) ["system"; "connection"; "rm"; name].

(** [ensureMachineExists] up to its first [machine init], on the path
    taken when the machine is absent. *)
Definition beforeInit (h : Host) (baseDir podmanPath : string) (env : list string)
  (logWriter : option File) (logger : sysutil.Logger) : M unit :=
  inspectCall h baseDir podmanPath env logWriter logger ;;
  sysutil.Printf logger ("initializing podman machine " ^^ deps.podmanMachineName) ;;
  deps.cleanupOrWarn h "warning: failed to clean stale connection: "
    baseDir podmanPath env logWriter logger.

(** The stale-connection cleanup as [ensureMachineExists] runs it. *)
Definition cleanup (h : Host) (baseDir podmanPath : string) (env : list string)
  (logWriter : option File) (logger : sysutil.Logger) : M unit :=
  deps.cleanupOrWarn h "warning: failed to clean stale connection: "
    baseDir podmanPath env logWriter logger.

(** How often [machine init] was started. *)
Definition initCount (es : Trace) : nat := length (filter isInit (execs es)).

(** The removal of the connection [name], as the cleanup starts it. *)
Definition rmCommand (baseDir podmanPath : string) (env : list string)
  (logWriter : option File) (logger : sysutil.Logger) (name : string) : Cmd :=
  RunnerSpec.command (deps.machineOpts (30 * Second) baseDir env logWriter logger)
    podmanPath ["system"; "connection"; "rm"; name].

Definition removesConnection (c : Cmd) : Prop :=
  isConnectionRm deps.podmanMachineName c = true
  \/ isConnectionRm (deps.podmanMachineName ^^ "-root") c = true.

Section Creation.
Variables (h : Host) (baseDir podmanPath : string) (env : list string)
  (logWriter : option File) (logger : sysutil.Logger).

(** The history before the first [machine init], after it, and after the
    cleanup that follows it. *)
Definition atInit (t : Trace) : Trace :=
  t ++ events (beforeInit h baseDir podmanPath env logWriter logger) t.

Definition afterInit (t : Trace) : Trace :=
  atInit t ++ events (initCall h baseDir podmanPath env logWriter logger) (atInit t).

Definition atRetry (t : Trace) : Trace :=
  afterInit t ++ events (cleanup h baseDir podmanPath env logWriter logger) (afterInit t).

(** The first [machine init] ends the call, which returns its error [e1]. *)
Definition FailedAtOnce (t : Trace) (e1 : error) : Prop :=
  let run := deps.ensureMachineExists h baseDir podmanPath env logWriter logger in
  events run t
  = events (beforeInit h baseDir podmanPath env logWriter logger) t
    ++ events (initCall h baseDir podmanPath env logWriter logger) (atInit t)
  /\ initCount (events run t) = 1%nat
  /\ result run t = Some (Wrap "podman machine init: " e1).

End Creation.

(** The stop of the machine, as [StopPodmanMachine] starts it. *)
Definition stopCommand (baseDir podmanPath machineName : string) (env : list string)
  (logWriter : option File) (logger : sysutil.Logger) : Cmd :=
  RunnerSpec.command
    (deps.machineOpts deps.machineStartTimeout baseDir env logWriter logger)
    podmanPath
    ["machine"; "stop";
     if String.eqb machineName EmptyString then deps.podmanMachineName
     else machineName].

End MachineSpec.


Module ArchiveSpec.

(** [path] is the directory [dest] or lies below it, both cleaned. *)
Definition within (dest path : string) : bool :=
  let d := filepath.Clean dest in
  let p := filepath.Clean path in
  (String.eqb p d
   || strings.HasPrefix p
        (if String.eqb d filepath.Separator then d else d ^^ filepath.Separator))%bool.

Definition qemuDir : string := "/srv/base/tools/qemu".

End ArchiveSpec.

Module BuildSpec.

(** [Build] up to the return of [EnsurePodmanMachine]: the log file and
    the three variables when every step so far has succeeded. *)
Definition toMachine (h : Host) (baseDir : string)
  : M (option (File * builder.locals)) :=
  r <- logutil.NewOperationLogger h baseDir builder.buildLogPrefix ;;
  match r with
  | inl _ => ret None
  | inr logFile =>
      let logger : sysutil.Logger := Some logFile in
      output.Printf h ("[*] Logging build output to "
                       ^^ builder.pathRelative h baseDir logFile ^^ deps.lf) ;;
      output.Println h "[*] Checking dependencies..." ;;
      e <- deps.EnsureBaseLayout h baseDir logger ;;
      match e with
      | Some _ => ret None
      | None =>
          e <- deps.EnsureTemplates h baseDir logger ;;
          match e with
          | Some _ => ret None
          | None =>
              '(path, e) <- deps.EnsurePodman h baseDir logger ;;
              match e with
              | Some _ => ret None
              | None =>
                  output.Println h "[*] Podman ready." ;;
                  '(name, env, e) <- deps.EnsurePodmanMachine h baseDir path
                                       (Some logFile) logger ;;
                  match e with
                  | Some _ => ret None
                  | None =>
                      ret (Some (logFile,
                                 {| builder.podmanPath := path;
                                    builder.machineName := name;
                                    builder.podmanEnv := env |}))
                  end
              end
          end
      end
  end.

(** How often [machine stop] was started. *)
Definition stopCount (es : Trace) : nat :=
  length (filter MachineSpec.isStop (execs es)).

(** The image pull of [Build]. *)
Definition pull (h : Host) (baseDir : string) (logFile : File) (v : builder.locals)
  : M (option error) :=
  output.Println h "[*] Pulling Debian image..." ;;
  builder.runPodman h baseDir (builder.podmanPath v) (builder.machineName v)
    (builder.podmanEnv v) ["pull"; builder.imageName] logFile (Some logFile)
    builder.podmanPullTimeout.

Definition stopWarning (e : error) : string :=
  "warning: failed to stop podman machine: " ^^ Error e ^^ deps.lf.

(** What the specification promises once the machine is ready: after the
    steps, whatever they returned, the machine is stopped, once; the error
    of the steps is the error of [Build]; a failed stop leaves a warning
    on the standard error and nothing else. *)
Definition StoppedOnce (h : Host) (baseDir : string) (t : Trace)
  (logFile : File) (v : builder.locals) : Prop :=
  let ready := builder.Build_ready h baseDir logFile (Some logFile) v in
  let t1 := t ++ events (toMachine h baseDir) t in
  let t2 := t1 ++ events ready t1 in
  let stop :=
    deps.StopPodmanMachine h baseDir (builder.podmanPath v) (builder.machineName v)
      (builder.podmanEnv v) (Some logFile) (Some logFile) in
  let run := builder.Build h baseDir in
  execs (events run t)
  = execs (events (toMachine h baseDir) t) ++ execs (events ready t1)
    ++ [MachineSpec.stopCommand baseDir (builder.podmanPath v) (builder.machineName v)
          (builder.podmanEnv v) (Some logFile) (Some logFile)]
  /\ stopCount (events run t) = 1%nat
  /\ result run t = snd (result ready t1)
  /\ (forall e, result (pull h baseDir logFile v) t1 = Some e ->
        result run t = Some (Wrap "podman pull: " e))
  /\ warnings (events run t)
     = match result stop t2 with
       | Some stopErr => [stopWarning stopErr]
       | None => []
       end.

End BuildSpec.

Module VmSpec.

Definition isoPath (baseDir : string) : string :=
  filepath.Join [baseDir; filepath.FromSlash vmtest.isoRelativePath].

Definition qcowPath (baseDir : string) : string :=
  filepath.Join [baseDir; filepath.FromSlash vmtest.qcowRelative].

Definition clonePath (baseDir now : string) : string :=
  filepath.Join [filepath.Join [baseDir; "runtime"; "vm"];
                 "velocloud-" ^^ now ^^ ".qcow2"].

Definition notFound (description path : string) : error :=
  New (description ^^ " not found at " ^^ path).

Definition isDirectory (description path : string) : error :=
  New (description ^^ " points to a directory: " ^^ path).

(** [Run] with a path given by the caller, up to the resolution of that
    path: the log file and the absolute path, when both were obtained. *)
Definition toVmCheck (h : Host) (baseDir vmPath : string)
  : M (option (File * string)) :=
  r <- logutil.NewOperationLogger h baseDir vmtest.testLogPrefix ;;
  match r with
  | inl _ => ret None
  | inr logFile =>
      output.Printf h ("[*] Logging test output to "
                       ^^ vmtest.relPath h baseDir logFile ^^ deps.lf) ;;
      '(absVM, err) <- vmtest.Abs h vmPath ;;
      match err with
      | Some _ => ret None
      | None => ret (Some (logFile, absVM))
      end
  end.

(** [Run] up to the check of the base image: the log file, the VM
    executable and the bundled-mode flag, when the executable was resolved
    and the ISO is there. *)
Definition toBaseCheck (h : Host) (baseDir vmPath : string)
  : M (option (File * string * bool)) :=
  r <- logutil.NewOperationLogger h baseDir vmtest.testLogPrefix ;;
  match r with
  | inl _ => ret None
  | inr logFile =>
      output.Printf h ("[*] Logging test output to "
                       ^^ vmtest.relPath h baseDir logFile ^^ deps.lf) ;;
      if String.eqb vmPath EmptyString then
        output.Println h "[*] Preparing bundled QEMU runtime..." ;;
        '(absVM, err) <- deps.EnsureQEMU h baseDir (Some logFile) ;;
        match err with
        | Some _ => ret None
        | None =>
            e <- vmtest.ensureFileExists h (isoPath baseDir) "cloud-init ISO" ;;
            match e with
            | Some _ => ret None
            | None => ret (Some (logFile, absVM, true))
            end
        end
      else
        '(absVM, err) <- vmtest.Abs h vmPath ;;
        match err with
        | Some _ => ret None
        | None =>
            e <- vmtest.ensureFileExists h absVM "VM executable" ;;
            match e with
            | Some _ => ret None
            | None =>
                e <- vmtest.ensureFileExists h (isoPath baseDir) "cloud-init ISO" ;;
                match e with
                | Some _ => ret None
                | None => ret (Some (logFile, absVM, false))
                end
            end
        end
  end.

(** What is known once the clone is made. *)
Record cloned : Type := {
  logFile : File;
  absVM : string;
  usingBundledQEMU : bool;
  clone : string
}.

(** [Run] from the check of the base image to the clone. *)
Definition cloneSteps (h : Host) (baseDir : string) (lf : File) (vm : string)
  (bundled : bool) : M (option cloned) :=
  e <- vmtest.ensureFileExists h (qcowPath baseDir) "velocloud qcow2 image" ;;
  match e with
  | Some _ => ret None
  | None =>
      e <- fsutil.EnsureDir h (filepath.Join [baseDir; "runtime"; "vm"]) ;;
      match e with
      | Some _ => ret None
      | None =>
          now <- request (host_now h) EvNow ;;
          output.Printf h ("[*] Cloning base qcow2 to "
                           ^^ vmtest.relPath h baseDir (clonePath baseDir now)
                           ^^ deps.lf) ;;
          e <- fsutil.CopyFile h (qcowPath baseDir) (clonePath baseDir now) ;;
          match e with
          | Some _ => ret None
          | None =>
              ret (Some {| logFile := lf; absVM := vm;
                           usingBundledQEMU := bundled;
                           clone := clonePath baseDir now |})
          end
      end
  end.

(** [Run] up to the clone: what is known then, when every step so far
    has succeeded. *)
Definition toClone (h : Host) (baseDir vmPath : string) : M (option cloned) :=
  r <- logutil.NewOperationLogger h baseDir vmtest.testLogPrefix ;;
  match r with
  | inl _ => ret None
  | inr logFile =>
      output.Printf h ("[*] Logging test output to "
                       ^^ vmtest.relPath h baseDir logFile ^^ deps.lf) ;;
      if String.eqb vmPath EmptyString then
        output.Println h "[*] Preparing bundled QEMU runtime..." ;;
        '(absVM, err) <- deps.EnsureQEMU h baseDir (Some logFile) ;;
        match err with
        | Some _ => ret None
        | None =>
            e <- vmtest.ensureFileExists h (isoPath baseDir) "cloud-init ISO" ;;
            match e with
            | Some _ => ret None
            | None => cloneSteps h baseDir logFile absVM true
            end
        end
      else
        '(absVM, err) <- vmtest.Abs h vmPath ;;
        match err with
        | Some _ => ret None
        | None =>
            e <- vmtest.ensureFileExists h absVM "VM executable" ;;
            match e with
            | Some _ => ret None
            | None =>
                e <- vmtest.ensureFileExists h (isoPath baseDir) "cloud-init ISO" ;;
                match e with
                | Some _ => ret None
                | None => cloneSteps h baseDir logFile absVM false
                end
            end
        end
  end.

Definition deleteWarning (clonePath : string) (e : error) : string :=
  "warning: failed to delete temp disk " ^^ clonePath ^^ ": " ^^ Error e ^^ deps.lf.

Definition notRead (op : FsOp) : Prop :=
  match op with OpenRead _ => False | _ => True end.

(** Neither a process nor a read of a file. *)
Definition harmless (e : Event) : Prop := notExec e /\ onFs notRead e.

(** A computation that returns an error and leaves only events in [P]. *)
Definition Fails (P : Event -> Prop) (m : M (option error)) : Prop :=
  forall t, result m t <> None /\ Forall P (events m t).

(** The base image is missing: whenever it is looked up, it is not there. *)
Definition baseImageMissing (h : Host) (baseDir : string) : Prop :=
  forall t, exists e,
    host_stat h t (qcowPath baseDir) = inl e /\ IsNotExist e = true.

(** The run fails without a process started and without a file opened for
    reading: nothing was launched, nothing was cloned. *)
Definition FailsBeforeClone (h : Host) (baseDir vmPath : string) (args : list string)
  (t : Trace) : Prop :=
  result (vmtest.Run h baseDir vmPath args) t <> None
  /\ execs (events (vmtest.Run h baseDir vmPath args) t) = []
  /\ Forall notRead (fsops (events (vmtest.Run h baseDir vmPath args) t)).

(** The run ends at the check of the base image, with the error that
    names it; the log file is closed and nothing else happens. *)
Definition StopsAtBaseImage (h : Host) (baseDir vmPath : string) (args : list string)
  (t : Trace) (lf : File) : Prop :=
  result (vmtest.Run h baseDir vmPath args) t
  = Some (notFound "velocloud qcow2 image" (qcowPath baseDir))
  /\ events (vmtest.Run h baseDir vmPath args) t
     = events (toBaseCheck h baseDir vmPath) t
       ++ [EvStat (qcowPath baseDir); EvFs (Close lf)].

(** What the specification promises once the clone is made: after the
    launch, whatever it returned, the clone is deleted, once; the error of
    the launch is the error of [Run]; a failed deletion leaves a warning on
    the standard error and nothing else; a launch that exits with a
    non-zero status before the deadline gives the process-failed error. *)
Definition CloneDeleted (h : Host) (baseDir vmPath : string) (args : list string)
  (t : Trace) (c : cloned) : Prop :=
  let choose := vmtest.launchArgs h (absVM c) (usingBundledQEMU c)
                  (isoPath baseDir) (clone c) args in
  let launch := vmtest.Run_cloned h baseDir (logFile c) (absVM c)
                  (usingBundledQEMU c) (isoPath baseDir) (clone c) args in
  let t1 := t ++ events (toClone h baseDir vmPath) t in
  let t2 := t1 ++ events launch t1 in
  let run := vmtest.Run h baseDir vmPath args in
  let after := events launch t1
               ++ events (vmtest.deleteClone h baseDir (clone c)) t2
               ++ [EvFs (Close (logFile c))] in
  events run t = events (toClone h baseDir vmPath) t ++ after
  /\ fsops after = [RemoveAll (clone c); Close (logFile c)]
  /\ result run t = result launch t1
  /\ warnings (events run t)
     = match host_fs h t2 (RemoveAll (clone c)) with
       | Some e => if IsNotExist e then [] else [deleteWarning (clone c) e]
       | None => []
       end
  /\ (forall p,
        RunnerSpec.behaviour h (vmtest.vmOpts baseDir (logFile c)) (absVM c)
          (result choose t1) (t1 ++ events choose t1) = Starts p ->
        runtime p < vmtest.vmRunTimeout -> exitStatus p <> 0 ->
        result run t
        = Some (Wrap "vm execution failed: "
                  (RunnerSpec.processFailed (exitStatus p)
                     (sysutil.commandString (absVM c) (result choose t1))))).

(** The check of the VM executable given by the caller: a path that is
    not there or is a directory ends the run at the check, with the error
    that says so; any other path passes, and the run goes on. *)
Definition VmVerified (h : Host) (baseDir vmPath : string) (args : list string)
  (t : Trace) (lf : File) (vm : string) : Prop :=
  let t1 := t ++ events (toVmCheck h baseDir vmPath) t in
  let run := vmtest.Run h baseDir vmPath args in
  let stopped (e : error) :=
    result run t = Some e
    /\ events run t
       = events (toVmCheck h baseDir vmPath) t ++ [EvStat vm; EvFs (Close lf)] in
  match host_stat h t1 vm with
  | inl e =>
      stopped (if IsNotExist e then notFound "VM executable" vm
               else Wrap "stat VM executable: " e)
  | inr mode =>
      if IsDir mode then stopped (isDirectory "VM executable" vm)
      else
        let rest := vmtest.Run_resolved h baseDir lf vm false args in
        let t2 := t1 ++ [EvStat vm] in
        result run t = result rest t2
        /\ events run t
           = events (toVmCheck h baseDir vmPath) t ++ [EvStat vm]
             ++ events rest t2 ++ [EvFs (Close lf)]
  end.

End VmSpec.

(** ** Concrete hosts *)

Module Lab.

(** [Duration.String] on whole seconds. *)
Definition wholeSeconds (d : Duration) : string :=
  let s := d / Second in
  let hours := s / 3600 in
  let minutes := (s / 60) mod 60 in
  let seconds := s mod 60 in
  (if 0 <? hours then strings.Itoa hours ^^ "h" else EmptyString)
  ^^ (if 0 <? s / 60 then strings.Itoa minutes ^^ "m" else EmptyString)
  ^^ strings.Itoa seconds ^^ "s".

(** A process that runs for [d] and has written all of its output after
    one second. *)
Definition proc (d : Duration) (code : Z) (out err : string) : Process :=
  {| runtime := d;
     exitStatus := code;
     stdoutBy := fun e => if e <? Second then EmptyString else out;
     stderrBy := fun e => if e <? Second then EmptyString else err;
     killedStatus := -1 |}.

Definition succeeds : ProcBehaviour := Starts (proc Second 0 EmptyString EmptyString).

Definition fails (code : Z) (err : string) : ProcBehaviour :=
  Starts (proc Second code EmptyString err).

(** [filepath.Rel] on a target below the base; an error otherwise. *)
Definition relBelow (base target : string) : error + string :=
  let pre := base ^^ filepath.Separator in
  if strings.HasPrefix target pre
  then inr (String.substring (String.length pre)
              (String.length target - String.length pre) target)
  else inl (New "Rel: target is not below the base").

(** A host on which every request succeeds: files exist and are regular,
    processes exit with status 0, archives and directories are empty. *)
Definition calm : Host :=
  {| host_exec := fun _ _ => succeeds;
     host_stat := fun _ _ => inr Regular;
     host_fs := fun _ _ => None;
     host_http := fun _ _ =>
       inr {| StatusCode := 200; Status := "200 OK"; ContentLength := 0 |};
     host_zip := fun _ _ => inr [];
     host_walk := fun _ _ => [];
     host_now := fun _ => "20240101-120000";
     host_getwd := fun _ => inr "/home/user";
     host_getenv := fun _ _ => EmptyString;
     fmtDuration := wholeSeconds;
     filepath_Rel := relBelow;
     quiet := false |}.

Definition withExec (f : Trace -> Cmd -> ProcBehaviour) (h : Host) : Host :=
  {| host_exec := f;
     host_stat := host_stat h; host_fs := host_fs h; host_http := host_http h;
     host_zip := host_zip h; host_walk := host_walk h; host_now := host_now h;
     host_getwd := host_getwd h; host_getenv := host_getenv h;
     fmtDuration := fmtDuration h; filepath_Rel := filepath_Rel h;
     quiet := quiet h |}.

Definition withStat (f : Trace -> string -> error + FileType) (h : Host) : Host :=
  {| host_exec := host_exec h;
     host_stat := f; host_fs := host_fs h; host_http := host_http h;
     host_zip := host_zip h; host_walk := host_walk h; host_now := host_now h;
     host_getwd := host_getwd h; host_getenv := host_getenv h;
     fmtDuration := fmtDuration h; filepath_Rel := filepath_Rel h;
     quiet := quiet h |}.

Definition withFs (f : Trace -> FsOp -> option error) (h : Host) : Host :=
  {| host_exec := host_exec h;
     host_stat := host_stat h; host_fs := f; host_http := host_http h;
     host_zip := host_zip h; host_walk := host_walk h; host_now := host_now h;
     host_getwd := host_getwd h; host_getenv := host_getenv h;
     fmtDuration := fmtDuration h; filepath_Rel := filepath_Rel h;
     quiet := quiet h |}.

Definition withZip (f : Trace -> string -> error + list ZipEntry) (h : Host) : Host :=
  {| host_exec := host_exec h;
     host_stat := host_stat h; host_fs := host_fs h; host_http := host_http h;
     host_zip := f; host_walk := host_walk h; host_now := host_now h;
     host_getwd := host_getwd h; host_getenv := host_getenv h;
     fmtDuration := fmtDuration h; filepath_Rel := filepath_Rel h;
     quiet := quiet h |}.

(** The second word of the arguments names the machine subcommand. *)
Definition subcommand (c : Cmd) : string :=
  match cmdArgs c with
  | _ :: verb :: _ => verb
  | _ => EmptyString
  end.

Definition podman : string := "/srv/base/tools/podman/podman.exe".
Definition baseDir : string := "/srv/base".

(** A command that sleeps ten seconds and has printed ["tick"] after one. *)
Definition sleeper : Host :=
  withExec (fun _ _ => Starts (proc (10 * Second) 0 "tick" EmptyString)) calm.

Definition plainOpts (timeout : Duration) : sysutil.RunOptions :=
  {| sysutil.Timeout := timeout; sysutil.Dir := EmptyString; sysutil.Env := [];
     sysutil.Stdout := None; sysutil.Stderr := None; sysutil.Logger_ := None |}.

(** [podman machine stop] on a machine that is not there. *)
Definition noMachine : Host :=
  withExec (fun _ c =>
    if String.eqb (subcommand c) "stop"
    then fails 125 "Error: cloudinit-builder: VM does not exist"
    else succeeds) calm.

(** [podman machine stop] that fails for a reason of its own. *)
Definition stuckMachine : Host :=
  withExec (fun _ c =>
    if String.eqb (subcommand c) "stop"
    then fails 125 "Error: unable to reach the hypervisor"
    else succeeds) calm.

(** [podman machine inspect] that reports the machine as not found, on
    its standard error only. *)
Definition notFoundOnStderr : Host :=
  withExec (fun _ c =>
    if String.eqb (subcommand c) "inspect"
    then fails 125 "Error: machine not found"
    else succeeds) calm.

(** [podman machine inspect] on a machine that is not there; the rest
    succeeds. *)
Definition freshHost : Host :=
  withExec (fun _ c =>
    if String.eqb (subcommand c) "inspect"
    then fails 125 "Error: cloudinit-builder: VM does not exist"
    else succeeds) calm.

(** [podman machine inspect] that fails for a reason of its own. *)
Definition brokenInspect : Host :=
  withExec (fun _ c =>
    if String.eqb (subcommand c) "inspect"
    then fails 125 "Error: unable to reach the hypervisor"
    else succeeds) calm.

(** A base directory whose name happens to hold the words the controller
    looks for in the error of [machine init]. *)
Definition staleBase : string := "/srv/connection already exists".
Definition stalePodman : string :=
  "/srv/connection already exists/tools/podman/podman.exe".

(** No machine yet; the first [machine init] fails, the next succeeds. *)
Definition staleConnection : Host :=
  withExec (fun t c =>
    if String.eqb (subcommand c) "inspect"
    then fails 125 "Error: cloudinit-builder: VM does not exist"
    else if String.eqb (subcommand c) "init"
    then if Nat.eqb (MachineSpec.initCount t) 0
         then fails 125 "Error: connection already exists"
         else succeeds
    else succeeds) calm.

(** No machine yet, and [machine init] fails for a reason of its own. *)
Definition noHypervisor : Host :=
  withExec (fun _ c =>
    if String.eqb (subcommand c) "inspect"
    then fails 125 "Error: cloudinit-builder: VM does not exist"
    else if String.eqb (subcommand c) "init"
    then fails 125 "Error: no virtualization provider"
    else succeeds) calm.

Definition verb (c : Cmd) : string := nth 2 (cmdArgs c) EmptyString.

(** The machine is there; the image pull fails. *)
Definition pullFails : Host :=
  withExec (fun _ c =>
    if String.eqb (verb c) "pull"
    then fails 125 "Error: initializing source: connection refused"
    else succeeds) calm.

(** The machine is there; the image pull fails, and so does the stop. *)
Definition pullAndStopFail : Host :=
  withExec (fun _ c =>
    if String.eqb (verb c) "pull"
    then fails 125 "Error: initializing source: connection refused"
    else if String.eqb (subcommand c) "stop"
    then fails 125 "Error: unable to reach the hypervisor"
    else succeeds) calm.

Definition buildLog : File := "/srv/base/logs/build-20240101-120000.txt".

Definition readyLocals : builder.locals :=
  {| builder.podmanPath := podman;
     builder.machineName := deps.podmanMachineName;
     builder.podmanEnv :=
       ["XDG_CONFIG_HOME=/srv/base/runtime/podman/config";
        "XDG_RUNTIME_DIR=/srv/base/runtime/podman/run";
        "PODMAN_CONFIG=/srv/base/runtime/podman/config/containers.conf";
        "PODMAN_TMPDIR=/srv/base/runtime/podman/tmp";
        "TMPDIR=/srv/base/runtime/podman/tmp";
        "HOME=/srv/base/runtime/podman/home"] |}.

Definition testLog : File := "/srv/base/logs/test-20240101-120000.txt".

(** Everything is in place but the base image. *)
Definition noBaseImage : Host :=
  withStat (fun _ path =>
    if String.eqb path "/srv/base/images/velocloud.qcow2"
    then inl (OsError "stat /srv/base/images/velocloud.qcow2: no such file or directory" true)
    else inr Regular) calm.

Definition customVM : string := "/opt/vm/run-vm".

Definition testClone : VmSpec.cloned :=
  {| VmSpec.logFile := testLog;
     VmSpec.absVM := customVM;
     VmSpec.usingBundledQEMU := false;
     VmSpec.clone := "/srv/base/runtime/vm/velocloud-20240101-120000.qcow2" |}.

(** The VM executable exits with status 1, and the clone cannot be
    removed afterwards. *)
Definition vmFails : Host :=
  withFs (fun _ op =>
    match op with
    | RemoveAll _ => Some (OsError "unlinkat: permission denied" false)
    | _ => None
    end)
  (withExec (fun _ _ => fails 1 "qemu: could not load kernel") calm).

(** The path of the VM executable is a named pipe; starting it fails. *)
Definition pipeVM : Host :=
  withStat (fun _ path =>
    if String.eqb path customVM then inr NamedPipe else inr Regular)
  (withExec (fun _ _ =>
     StartFails (OsError "fork/exec /opt/vm/run-vm: permission denied" false)) calm).

(** The path of the VM executable is not there. *)
Definition noVM : Host :=
  withStat (fun _ path =>
    if String.eqb path customVM
    then inl (OsError "stat /opt/vm/run-vm: no such file or directory" true)
    else inr Regular) calm.

(** The path of the VM executable is a directory. *)
Definition dirVM : Host :=
  withStat (fun _ path =>
    if String.eqb path customVM then inr Directory else inr Regular) calm.

(** An archive with one entry, named to land beside the destination. *)
Definition siblingArchive : Host :=
  withZip (fun _ _ =>
    inr [{| Name := "../qemu-evil/payload.exe"; entryIsDir := false;
            entryOpen := None |}]) calm.

End Lab.

(** ** Vocabulary for files, downloads and archives *)

Module FilesSpec.

(** The directories of the base layout, in the order of [baseDirs]. *)
Definition layout (baseDir : string) : list string :=
  map (fun rel => filepath.Join [baseDir; filepath.FromSlash rel]) deps.baseDirs.

(** The requests for the directories [paths], one after the other. *)
Definition asked (paths : list string) : Trace :=
  map (fun p => EvFs (MkdirAll p)) paths.

(** The host lets every directory of [paths] be created, one after the
    other, from the history [t]. *)
Definition allCreated (h : Host) (t : Trace) (paths : list string) : Prop :=
  forall done p rest,
    paths = done ++ p :: rest ->
    host_fs h (t ++ asked done) (MkdirAll p) = None.

(** What an extraction into [dest] may do to the file system: create
    directories, and create, fill and close files whose cleaned path
    starts with the cleaned [dest]. *)
Definition extracts (dest : string) (op : FsOp) : Prop :=
  match op with
  | MkdirAll _ | Close _ => True
  | OpenWrite p | CopyBytes p _ =>
      strings.HasPrefix (filepath.Clean p) (filepath.Clean dest) = true
  | _ => False
  end.

(** The four requests a download makes to the file system. *)
Definition downloads (url dest : string) (op : FsOp) : Prop :=
  op = OpenWrite (dest ^^ ".tmp") \/ op = CopyBytes (dest ^^ ".tmp") url
  \/ op = Close (dest ^^ ".tmp") \/ op = Rename (dest ^^ ".tmp") dest.

(** An operation that leaves the file at [p] as it is: it does not open it
    for writing, write to it, remove it, or rename it or another file to
    it. *)
Definition spares (p : string) (op : FsOp) : Prop :=
  match op with
  | OpenWrite q | WriteString q _ | CopyBytes q _ | RemoveAll q | Remove q => q <> p
  | Rename a b => a <> p /\ b <> p
  | MkdirAll _ | OpenRead _ | Close _ => True
  end.

(** No request to the network and nothing unpacked or removed. *)
Definition offline (e : Event) : Prop :=
  match e with
  | EvHttpGet _ | EvZipOpen _ | EvFs (RemoveAll _) | EvFs (Rename _ _) => False
  | _ => True
  end.

(** An entry of a directory walk that [findQEMUExecutable] takes for the
    emulator. *)
Definition isEmulator (d : DirEntry) : bool :=
  (negb (IsDir (entryType d)) && IsRegular (entryType d)
   && strings.EqualFold (entryName d) deps.qemuExeName)%bool.

End FilesSpec.

(** ** Vocabulary for the machine lifecycle *)

Module LifecycleSpec.

(** A string that does not begin with white space. *)
Definition trimmedLeft (s : string) : Prop :=
  match s with
  | EmptyString => True
  | String c _ => strings.isSpace c = false
  end.


Section Calls.
Variables (h : Host) (baseDir podmanPath : string) (env : list string)
  (logWriter : option File) (logger : sysutil.Logger).

(** The commands of the controller that [MachineSpec] does not name. *)
Definition stateCall : M (option sysutil.RunResult * option error) :=
  sysutil.RunCommand h (deps.machineOpts (30 * Second) baseDir env logWriter logger)
    podmanPath
    ["machine"; "inspect"; deps.podmanMachineName; "--format"; "{{.State}}"].

Definition startCall : M (option sysutil.RunResult * option error) :=
  sysutil.RunCommand h
    (deps.machineOpts deps.machineStartTimeout baseDir env logWriter logger)
    podmanPath ["machine"; "start"; deps.podmanMachineName].

Definition defaultCall : M (option sysutil.RunResult * option error) :=
  sysutil.RunCommand h (deps.machineOpts (30 * Second) baseDir env logWriter logger)
    podmanPath ["system"; "connection"; "default"; deps.podmanMachineName].

Definition removeCall : M (option sysutil.RunResult * option error) :=
  sysutil.RunCommand h
    (deps.machineOpts deps.machineStartTimeout baseDir env logWriter logger)
    podmanPath ["machine"; "rm"; "-f"; deps.podmanMachineName].

(** The line logged before the machine is started. *)
Definition startNotice : M unit :=
  sysutil.Printf logger ("starting podman machine " ^^ deps.podmanMachineName).

End Calls.

Definition isStart (c : Cmd) : bool :=
  MachineSpec.sameArgs (cmdArgs c) ["machine"; "start"; deps.podmanMachineName].

(** A command that neither creates nor starts the machine. *)
Definition leavesMachine (c : Cmd) : Prop :=
  MachineSpec.isInit c = false /\ isStart c = false.

(** The already-stopped signature (letter case ignored), and a failed
    command that shows it somewhere: in its error message, on its standard
    output or on its standard error. *)
Definition saysStopped (s : string) : bool :=
  strings.Contains (strings.ToLower s) "already stopped".

Definition stoppedAnywhere (e : error) (res : option sysutil.RunResult) : bool :=
  (saysStopped (Error e)
   || match res with
      | Some r => saysStopped (sysutil.Stdout_ r) || saysStopped (sysutil.Stderr_ r)
      | None => false
      end)%bool.

End LifecycleSpec.

(** ** Vocabulary for the smoke-test runner *)

Module RunSpec.

(** The arguments for QEMU, with the accelerator [accel]. *)
Definition qemuTemplate (diskPath isoPath accel : string) : list string :=
  ["-name"; "cloudinit-builder-test,process=cloudinit-builder-test";
   "-m"; "4096";
   "-smp"; "2";
   "-drive"; "if=virtio,format=qcow2,file=" ^^ diskPath;
   "-cdrom"; isoPath;
   "-boot"; "d";
   "-accel"; accel;
   "-netdev"; "user,id=wan,ipv6=off";
   "-device"; "virtio-net-pci,netdev=wan,mac=52:54:00:00:00:01";
   "-vga"; "std";
   "-display"; "sdl";
   "-serial"; "stdio"].

(** The arguments for any other VM executable. *)
Definition plainTemplate (diskPath isoPath : string) : list string :=
  ["--disk"; diskPath; "--cdrom"; isoPath].

(** The run ends in one of the steps before the check of the base image:
    it returns an error and does what these steps did; the log file, when
    it was opened, is closed, and nothing else happens.  When the log file
    could not be opened the error is that of the opening. *)
Definition EndsBeforeBaseCheck (h : Host) (baseDir vmPath : string)
  (args : list string) (t : Trace) : Prop :=
  let run := vmtest.Run h baseDir vmPath args in
  let before := VmSpec.toBaseCheck h baseDir vmPath in
  result run t <> None
  /\ match result (logutil.NewOperationLogger h baseDir vmtest.testLogPrefix) t with
     | inl e => result run t = Some e /\ events run t = events before t
     | inr lf => events run t = events before t ++ [EvFs (Close lf)]
     end.

End RunSpec.

(** ** Vocabulary for the uninstall *)

Module UninstallSpec.

(** The paths given to [os.RemoveAll], in order. *)
Fixpoint removals (es : Trace) : list string :=
  match es with
  | [] => []
  | EvFs (RemoveAll p) :: r => p :: removals r
  | _ :: r => removals r
  end.

Definition keeps (e : Event) : Prop :=
  match e with EvFs (RemoveAll _) => False | _ => True end.

(** What [PerformUninstall] does before it removes the first directory:
    the helper processes are ended and, when the podman client is there,
    the machine is removed. *)
Definition beforeRemoval (h : Host) (baseDir : string) (logger : sysutil.Logger)
  : M unit :=
  sysutil.Printf logger ("starting uninstall from " ^^ baseDir) ;;
  killErr <- uninstall.killProcesses h baseDir logger
               ["podman.exe"; "qemu-system-x86_64.exe"] ;;
  match killErr with
  | Some e =>
      sysutil.Printf logger
        ("warning: failed to terminate some helper processes: " ^^ Error e)
  | None => ret tt
  end ;;
  let podmanExe := filepath.Join [baseDir; "tools"; "podman"; "podman.exe"] in
  '(exists_, _) <- fsutil.PathExists h podmanExe ;;
  if exists_ then
    rmErr <- deps.RemovePodmanMachine h baseDir podmanExe logger ;;
    match rmErr with
    | Some e =>
        sysutil.Printf logger ("warning: failed to remove podman machine: " ^^ Error e)
    | None => ret tt
    end
  else ret tt.

(** What [PerformUninstall] does once the directories are removed. *)
Definition afterRemoval (h : Host) (unixNow : Trace -> Z) (baseDir : string)
  (selfDelete : bool) (binaryPath : string) (logger : sysutil.Logger)
  : M (option error) :=
  if negb selfDelete then ret None
  else if String.eqb binaryPath EmptyString then
    ret (Some (New "cannot self-delete: binary path unknown"))
  else
    now <- request unixNow EvNow ;;
    let scriptPath :=
      filepath.Join [baseDir; "cleanup-" ^^ strings.Itoa now ^^ ".bat"] in
    uninstall.scheduleSelfDelete h scriptPath binaryPath logger.

(** The removals of [paths], one after the other, each followed by its
    line in the log. *)
Definition removed (logger : sysutil.Logger) (paths : list string) : Trace :=
  flat_map (fun p =>
    EvFs (RemoveAll p)
    :: match logger with
       | Some f => [EvLog f ("removed " ^^ p)]
       | None => []
       end) paths.

(** The host lets [path] be removed: the removal succeeds, or the path is
    not there. *)
Definition removable (h : Host) (t : Trace) (path : string) : Prop :=
  match host_fs h t (RemoveAll path) with
  | Some e => IsNotExist e = true
  | None => True
  end.

(** The host lets every directory of [paths] be removed, one after the
    other, from the history [t]. *)
Definition allRemoved (h : Host) (logger : sysutil.Logger) (t : Trace)
  (paths : list string) : Prop :=
  forall done p rest,
    paths = done ++ p :: rest ->
    removable h (t ++ removed logger done) p.

(** The [taskkill] that [killProcesses] starts for a process name. *)
Definition killCommand (baseDir : string) (logger : sysutil.Logger) (name : string)
  : Cmd :=
  RunnerSpec.command (uninstall.killOpts baseDir logger) "taskkill"
    ["/IM"; name; "/T"; "/F"].

Definition killCall (h : Host) (baseDir : string) (logger : sysutil.Logger)
  (name : string) : M (option sysutil.RunResult * option error) :=
  sysutil.RunCommand h (uninstall.killOpts baseDir logger) "taskkill"
    ["/IM"; name; "/T"; "/F"].

(** [taskkill] found no process of that name: it exits with status 128
    before the deadline. *)
Definition notRunning (h : Host) (baseDir : string) (logger : sysutil.Logger) : Prop :=
  forall t name, exists p,
    RunnerSpec.behaviour h (uninstall.killOpts baseDir logger) "taskkill"
      ["/IM"; name; "/T"; "/F"] t = Starts p
    /\ exitStatus p = 128
    /\ runtime p < 5 * Second.

End UninstallSpec.

(** ** More concrete hosts *)

Module Bench.

Definition withWalk (f : Trace -> string -> list DirEntry) (h : Host) : Host :=
  {| host_exec := host_exec h;
     host_stat := host_stat h; host_fs := host_fs h; host_http := host_http h;
     host_zip := host_zip h; host_walk := f; host_now := host_now h;
     host_getwd := host_getwd h; host_getenv := host_getenv h;
     fmtDuration := fmtDuration h; filepath_Rel := filepath_Rel h;
     quiet := quiet h |}.

Definition entry (name : string) : ZipEntry :=
  {| Name := name; entryIsDir := false; entryOpen := None |}.

(** An archive whose second entry points above the destination. *)
Definition mixedArchive : Host :=
  Lab.withZip (fun _ _ => inr [entry "bin/qemu-img.exe"; entry "../../evil.exe";
                               entry "bin/qemu-system-x86_64.exe"]) Lab.calm.

(** The directory [images] cannot be created. *)
Definition readOnlyImages : Host :=
  Lab.withFs (fun _ op =>
    match op with
    | MkdirAll p =>
        if String.eqb p "/srv/base/images"
        then Some (OsError "mkdir /srv/base/images: read-only file system" false)
        else None
    | _ => None
    end) Lab.calm.

Definition file (path name : string) (type : FileType) : DirEntry :=
  {| walkPath := path; entryName := name; entryType := type; walkErr := None |}.

(** A [tools/qemu] that holds the emulator below a directory. *)
Definition unpackedQemu : Host :=
  withWalk (fun _ _ =>
    [file "/srv/base/tools/qemu" "qemu" Directory;
     file "/srv/base/tools/qemu/readme.txt" "readme.txt" Regular;
     file "/srv/base/tools/qemu/bin" "bin" Directory;
     file "/srv/base/tools/qemu/bin/QEMU-System-x86_64.EXE" "QEMU-System-x86_64.EXE" Regular])
    Lab.calm.

(** The machine is there and reports that it is running. *)
Definition runningMachine : Host :=
  Lab.withExec (fun _ c =>
    if String.eqb (nth 3 (cmdArgs c) EmptyString) "--format"
    then Starts (Lab.proc Second 0 ("running" ^^ deps.lf) EmptyString)
    else Lab.succeeds) Lab.calm.

(** The machine is there and reports that it is stopped. *)
Definition stoppedMachine : Host :=
  Lab.withExec (fun _ c =>
    if String.eqb (nth 3 (cmdArgs c) EmptyString) "--format"
    then Starts (Lab.proc Second 0 ("stopped" ^^ deps.lf) EmptyString)
    else Lab.succeeds) Lab.calm.

(** The machine is there, stopped; it starts, but the default connection
    cannot be set. *)
Definition noDefaultConnection : Host :=
  Lab.withExec (fun _ c =>
    if String.eqb (nth 3 (cmdArgs c) EmptyString) "--format"
    then Starts (Lab.proc Second 0 ("stopped" ^^ deps.lf) EmptyString)
    else if String.eqb (Lab.verb c) "default"
    then Lab.fails 125 "Error: cannot write the connection file"
    else Lab.succeeds) Lab.calm.

(** No helper process is running: [taskkill] exits with status 128. *)
Definition idle : Host :=
  Lab.withExec (fun _ c =>
    if String.eqb (cmdPath c) "taskkill"
    then Lab.fails 128 "ERROR: The process was not found."
    else Lab.succeeds) Lab.calm.

(** No podman client can be started. *)
Definition noClient : Host :=
  Lab.withExec (fun _ _ =>
    StartFails (OsError "exec: podman.exe: executable file not found in %PATH%" false))
    Lab.calm.

(** The release server answers 404. *)
Definition notPublished : Host :=
  {| host_exec := host_exec Lab.calm;
     host_stat := host_stat Lab.calm; host_fs := host_fs Lab.calm;
     host_http := fun _ _ =>
       inr {| StatusCode := 404; Status := "404 Not Found"; ContentLength := 9 |};
     host_zip := host_zip Lab.calm; host_walk := host_walk Lab.calm;
     host_now := host_now Lab.calm;
     host_getwd := host_getwd Lab.calm; host_getenv := host_getenv Lab.calm;
     fmtDuration := fmtDuration Lab.calm; filepath_Rel := filepath_Rel Lab.calm;
     quiet := quiet Lab.calm |}.

(** [podman machine stop] that reports the machine as not found, on its
    standard error only. *)
Definition missingOnStop : Host :=
  Lab.withExec (fun _ c =>
    if String.eqb (Lab.subcommand c) "stop"
    then Lab.fails 125 "Error: machine not found"
    else Lab.succeeds) Lab.calm.

(** [podman machine stop] on a machine that is stopped already. *)
Definition stoppedOnStop : Host :=
  Lab.withExec (fun _ c =>
    if String.eqb (Lab.subcommand c) "stop"
    then Lab.fails 125 "Error: cloudinit-builder: VM already stopped"
    else Lab.succeeds) Lab.calm.

(** Neither the cloud-init ISO nor the base image has been built. *)
Definition nothingBuilt : Host :=
  Lab.withStat (fun _ path =>
    if String.eqb path "/srv/base/images/cloud-init.iso"
    then inl (OsError "stat /srv/base/images/cloud-init.iso: no such file or directory" true)
    else if String.eqb path "/srv/base/images/velocloud.qcow2"
    then inl (OsError "stat /srv/base/images/velocloud.qcow2: no such file or directory" true)
    else inr Regular) Lab.calm.

(** The directory [runtime] is in use and cannot be removed. *)
Definition busyRuntime : Host :=
  Lab.withFs (fun _ op =>
    match op with
    | RemoveAll p =>
        if String.eqb p "/srv/base/runtime"
        then Some (OsError "unlinkat /srv/base/runtime: device or resource busy" false)
        else None
    | _ => None
    end) Lab.calm.

End Bench.

(** * Theorems *)

(** ** Strings *)

Lemma length_append (a b : string) :
  String.length (a ^^ b) = (String.length a + String.length b)%nat.
Proof. induction a as [|c a IH]; simpl; congruence. Qed.

Lemma ContainsAny_blank (s : string) :
  strings.ContainsAny s
    (String strings.space (String strings.tab (String strings.dquote EmptyString)))
  = RunnerSpec.hasBlankOrQuote s.
Proof.
  induction s as [|c s IH]; simpl; [reflexivity|].
  rewrite IH. rewrite orb_false_r. now rewrite !orb_assoc.
Qed.

Lemma quoted_longer (s : string) :
  (String.length s < String.length (RunnerSpec.quoted s))%nat.
Proof.
  unfold RunnerSpec.quoted. simpl. rewrite length_append. simpl.
  assert (String.length s <= String.length
            (strings.ReplaceAll s strings.dquote
               (String strings.backslash (String strings.dquote EmptyString))))%nat.
  { induction s as [|c s IH]; simpl; [lia|].
    destruct (Ascii.eqb c strings.dquote); simpl; lia. }
  lia.
Qed.

Lemma quoted_differs (s : string) : RunnerSpec.quoted s <> s.
Proof.
  intro E. pose proof (quoted_longer s) as L. rewrite E in L. lia.
Qed.

Lemma shellQuote_cases (s : string) :
  sysutil.shellQuote s =
  if String.eqb s EmptyString then RunnerSpec.emptyToken
  else if RunnerSpec.hasBlankOrQuote s then RunnerSpec.quoted s else s.
Proof.
  unfold sysutil.shellQuote. rewrite ContainsAny_blank. reflexivity.
Qed.

(** ** The monad *)

Lemma run_bind {A B : Type} (m : M A) (f : A -> M B) (t : Trace) :
  bind m f t =
  (result (f (result m t)) (t ++ events m t),
   events m t ++ events (f (result m t)) (t ++ events m t)).
Proof.
  unfold bind, result, events. destruct (m t) as [a es]. simpl.
  destruct (f a (t ++ es)) as [b es']. reflexivity.
Qed.

Lemma events_bind {A B : Type} (m : M A) (f : A -> M B) (t : Trace) :
  events (bind m f) t
  = events m t ++ events (f (result m t)) (t ++ events m t).
Proof. unfold events at 1. now rewrite run_bind. Qed.

Lemma result_bind {A B : Type} (m : M A) (f : A -> M B) (t : Trace) :
  result (bind m f) t = result (f (result m t)) (t ++ events m t).
Proof. unfold result at 1. now rewrite run_bind. Qed.

Lemma run_split {A : Type} (m : M A) (t : Trace) :
  m t = (result m t, events m t).
Proof. unfold result, events. now destruct (m t). Qed.

Lemma result_ret {A : Type} (a : A) (t : Trace) : result (ret a) t = a.
Proof. reflexivity. Qed.

Lemma events_ret {A : Type} (a : A) (t : Trace) : events (ret a) t = [].
Proof. reflexivity. Qed.

Lemma events_emit (e : Event) (t : Trace) : events (emit e) t = [e].
Proof. reflexivity. Qed.

Lemma result_request {A : Type} (f : Trace -> A) (e : Event) (t : Trace) :
  result (request f e) t = f t.
Proof. reflexivity. Qed.

Lemma events_request {A : Type} (f : Trace -> A) (e : Event) (t : Trace) :
  events (request f e) t = [e].
Proof. reflexivity. Qed.

Lemma execs_app (a b : Trace) : execs (a ++ b) = execs a ++ execs b.
Proof.
  induction a as [|e a IH]; simpl; [reflexivity|].
  destruct e; simpl; congruence.
Qed.

Lemma fsops_app (a b : Trace) : fsops (a ++ b) = fsops a ++ fsops b.
Proof.
  induction a as [|e a IH]; simpl; [reflexivity|].
  destruct e; simpl; congruence.
Qed.

Lemma warnings_app (a b : Trace) : warnings (a ++ b) = warnings a ++ warnings b.
Proof.
  induction a as [|e a IH]; simpl; [reflexivity|].
  destruct e; simpl; congruence.
Qed.

Lemma execs_none (es : Trace) : Forall notExec es -> execs es = [].
Proof.
  induction 1 as [|e es He _ IH]; simpl; [reflexivity|].
  destruct e; simpl in *; tauto.
Qed.

Lemma fsops_none (es : Trace) : Forall notFs es -> fsops es = [].
Proof.
  induction 1 as [|e es He _ IH]; simpl; [reflexivity|].
  destruct e; simpl in *; tauto.
Qed.

Lemma warnings_none (es : Trace) : Forall notStderr es -> warnings es = [].
Proof.
  induction 1 as [|e es He _ IH]; simpl; [reflexivity|].
  destruct e; simpl in *; tauto.
Qed.

(** *** Rules for [Emits] *)

Section EmitsRules.
Context (P : Event -> Prop).

Lemma Emits_ret {A : Type} (a : A) : Emits P (ret a).
Proof. intro t. constructor. Qed.

Lemma Emits_bind {A B : Type} (m : M A) (f : A -> M B) :
  Emits P m -> (forall a, Emits P (f a)) -> Emits P (bind m f).
Proof.
  intros Hm Hf t. rewrite events_bind. apply Forall_app. split.
  - apply Hm.
  - apply Hf.
Qed.

Lemma Emits_emit (e : Event) : P e -> Emits P (emit e).
Proof. intros He t. rewrite events_emit. now repeat constructor. Qed.

Lemma Emits_request {A : Type} (f : Trace -> A) (e : Event) :
  P e -> Emits P (request f e).
Proof. intros He t. rewrite events_request. now repeat constructor. Qed.

Lemma Emits_check (step : M (option error)) (wrap : error -> error)
  (k : M (option error)) :
  Emits P step -> Emits P k -> Emits P (check step wrap k).
Proof.
  intros Hs Hk. unfold check. apply Emits_bind; [exact Hs|].
  intros [e|]; [apply Emits_ret | exact Hk].
Qed.

Lemma Emits_forEach {A : Type} (xs : list A) (body : A -> M (option error)) :
  (forall x, Emits P (body x)) -> Emits P (deps.forEach xs body).
Proof.
  intros Hb. induction xs as [|x xs IH]; simpl.
  - apply Emits_ret.
  - apply Emits_check; [apply Hb | exact IH].
Qed.

End EmitsRules.

(** *** Deciding [Emits] by the shape of the program *)

Lemma execs_Forall (Q : Cmd -> Prop) (es : Trace) :
  Forall (onExec Q) es -> Forall Q (execs es).
Proof.
  induction 1 as [|e es He _ IH]; simpl; [constructor|].
  destruct e; simpl in *; auto.
Qed.

Lemma fsops_Forall (Q : FsOp -> Prop) (es : Trace) :
  Forall (onFs Q) es -> Forall Q (fsops es).
Proof.
  induction 1 as [|e es He _ IH]; simpl; [constructor|].
  destruct e; simpl in *; auto.
Qed.

Create HintDb model discriminated.

#[local] Hint Unfold
  sysutil.Printf sysutil.tee sysutil.RunCommand
  output.Println output.Printf
  fsutil.fsop fsutil.Stat fsutil.EnsureDir fsutil.PathExists fsutil.RemoveIfExists
  fsutil.CopyStream fsutil.CopyFile
  logutil.NewOperationLogger
  deps.podmanEnv deps.cleanupMachineConnection deps.cleanupOrWarn
  deps.ensureMachineExists deps.machineState deps.ensureMachineRunning
  deps.ensureDefaultConnection deps.EnsurePodmanMachine deps.StopPodmanMachine
  deps.RemovePodmanMachine
  deps.EnsureBaseLayout deps.ensureFileWithContent deps.EnsureTemplates
  deps.downloadFile deps.extractEntry deps.extractZip deps.copyBinaryIfNeeded
  deps.placePodmanExecutable deps.copySupportBinaries deps.EnsurePodman
  deps.findQEMUExecutable deps.EnsureQEMU
  builder.runPodman builder.runPodmanRun
  vmtest.ensureFileExists vmtest.defaultAccel vmtest.defaultQEMUArgs vmtest.Abs
  MachineSpec.inspectCall MachineSpec.initCall MachineSpec.stopCall
  MachineSpec.beforeInit MachineSpec.cleanup
  : model.

Ltac emits_step :=
  first
    [ apply Emits_ret
    | apply Emits_emit; simpl; try tauto; try reflexivity
    | apply Emits_request; simpl; try tauto; try reflexivity
    | apply Emits_check
    | apply Emits_forEach; intros
    | apply Emits_bind; [|intros]
    | match goal with
      | |- Emits _ (match ?x with _ => _ end) => destruct x
      end
    | progress autounfold with model ].

Ltac emits := repeat emits_step.

Lemma EnsurePodman_no_exec (h : Host) (baseDir : string) (logger : sysutil.Logger) :
  Emits notExec (deps.EnsurePodman h baseDir logger).
Proof. emits. Qed.

Lemma EnsureQEMU_no_exec (h : Host) (baseDir : string) (logger : sysutil.Logger) :
  Emits notExec (deps.EnsureQEMU h baseDir logger).
Proof. emits. Qed.

Lemma EnsurePodmanMachine_no_stop (h : Host) (baseDir podmanPath : string)
  (logWriter : option File) (logger : sysutil.Logger) :
  Emits (onExec (fun c => MachineSpec.isStop c = false))
    (deps.EnsurePodmanMachine h baseDir podmanPath logWriter logger).
Proof. emits. Qed.

(** *** Rules for [Returns] *)

Lemma Returns_ret {A : Type} (Q : A -> Prop) (a : A) : Q a -> Returns Q (ret a).
Proof. intros H t. exact H. Qed.

Lemma Returns_bind {A B : Type} (P : A -> Prop) (Q : B -> Prop)
  (m : M A) (f : A -> M B) :
  Returns P m -> (forall a, P a -> Returns Q (f a)) -> Returns Q (bind m f).
Proof.
  intros Hm Hf t. unfold result. rewrite run_bind. cbn [fst]. apply Hf, Hm.
Qed.

Lemma Returns_any {A : Type} (m : M A) : Returns (fun _ => True) m.
Proof. intros t. exact I. Qed.

Lemma Returns_bind_any {A B : Type} (Q : B -> Prop) (m : M A) (f : A -> M B) :
  (forall a, Returns Q (f a)) -> Returns Q (bind m f).
Proof.
  intros Hf. apply Returns_bind with (P := fun _ => True); [apply Returns_any|].
  intros a _. apply Hf.
Qed.

Ltac returns_step :=
  first
    [ apply Returns_ret
    | apply Returns_bind_any; intros
    | match goal with
      | |- Returns _ (match ?x with _ => _ end) => destruct x
      end ].

(** ** Paths *)

Lemma Clean_nonempty (path : string) : filepath.Clean path <> EmptyString.
Proof.
  unfold filepath.Clean. destruct (filepath.IsAbs path).
  - discriminate.
  - destruct (String.eqb_spec
                (strings.Join
                   (rev (fold_left (filepath.cleanStep false) (filepath.split path) []))
                   filepath.Separator) EmptyString) as [E|E];
      [discriminate | exact E].
Qed.

Lemma Join_cons_nonempty (e : string) (rest : list string) :
  e <> EmptyString -> filepath.Join (e :: rest) <> EmptyString.
Proof.
  intros N. cbn [filepath.Join].
  destruct (String.eqb_spec e EmptyString); [contradiction|]. apply Clean_nonempty.
Qed.

Lemma Join_under_nonempty (base : string) (e : string) (rest : list string) :
  String.eqb e EmptyString = false ->
  filepath.Join (base :: e :: rest) <> EmptyString.
Proof.
  intros N. cbn [filepath.Join].
  destruct (String.eqb base EmptyString).
  - rewrite N. apply Clean_nonempty.
  - apply Clean_nonempty.
Qed.

(** ** The process runner *)

(** C8, as the specification words it, fails: an argument that holds a
    newline holds white space, and is passed through unquoted. *)
Lemma shellQuote_newline_unquoted :
  let arg := String "a" (String strings.newline (String "b" EmptyString)) in
  RunnerSpec.hasSpaceOrQuote arg = true
  /\ sysutil.shellQuote arg = arg
  /\ sysutil.shellQuote arg <> RunnerSpec.quoted arg
  /\ sysutil.commandString "echo" [arg] = "echo " ^^ arg.
Proof.
  repeat split; try reflexivity. intro E. vm_compute in E. discriminate E.
Qed.

(** C8 (amended): the normalized command string is the name and the
    arguments, each rendered and joined by single spaces; a non-empty
    argument is rendered between double quotes, its double quotes escaped,
    if and only if it contains a space, a tab or a double quote, and is
    otherwise left as it is; an empty argument is rendered as the token of
    two double quotes. *)
Theorem commandString_quoting (name : string) (args : list string) :
  sysutil.commandString name args
  = strings.Join (map sysutil.shellQuote (name :: args)) " "
  /\ sysutil.shellQuote EmptyString = RunnerSpec.emptyToken
  /\ forall (c : ascii) (r : string),
       let a := String c r in
       (sysutil.shellQuote a = RunnerSpec.quoted a
        <-> RunnerSpec.hasBlankOrQuote a = true)
       /\ (sysutil.shellQuote a = a <-> RunnerSpec.hasBlankOrQuote a = false).
Proof.
  split; [reflexivity|]. split; [reflexivity|].
  intros c r a. rewrite shellQuote_cases.
  change (String.eqb a EmptyString) with false. cbv iota.
  destruct (RunnerSpec.hasBlankOrQuote a) eqn:B; split; split; intro E;
    try reflexivity; try discriminate.
  - now apply quoted_differs in E.
  - symmetry in E. now apply quoted_differs in E.
Qed.

Lemma Printf_Emits (P : Event -> Prop) (logger : sysutil.Logger) (line : string) :
  (forall f, P (EvLog f line)) -> Emits P (sysutil.Printf logger line).
Proof.
  intros HP. destruct logger as [f|]; simpl.
  - apply Emits_emit, HP.
  - apply Emits_ret.
Qed.

Lemma tee_Emits (P : Event -> Prop) (sink : option File) (data : string) :
  (forall f, P (EvTee f data)) -> Emits P (sysutil.tee sink data).
Proof.
  intros HP. destruct sink as [f|]; simpl.
  - apply Emits_emit, HP.
  - apply Emits_ret.
Qed.

Lemma RunCommand_result (h : Host) (opts : sysutil.RunOptions) (name : string)
  (args : list string) (t : Trace) :
  name <> EmptyString ->
  result (sysutil.RunCommand h opts name args) t
  = RunnerSpec.conclude h opts (sysutil.commandString name args)
      (sysutil.cmdRun
         (if 0 <? sysutil.Timeout opts
          then sysutil.WithTimeout (sysutil.Timeout opts) else sysutil.Background)
         (RunnerSpec.behaviour h opts name args t)).
Proof.
  intros En. unfold sysutil.RunCommand.
  destruct (String.eqb_spec name EmptyString) as [E|_]; [contradiction|].
  rewrite result_bind, result_bind. rewrite result_request.
  fold (RunnerSpec.command opts name args).
  fold (RunnerSpec.asked opts name args t).
  fold (RunnerSpec.behaviour h opts name args t).
  rewrite !result_bind. unfold RunnerSpec.conclude.
  destruct (sysutil.ctxErr _ _) as [[]|]; [reflexivity|].
  destruct (sysutil.runErr _) as [[c|cause]|]; reflexivity.
Qed.

Lemma isTimeout_timeoutError (h : Host) (opts : sysutil.RunOptions) (c : string) :
  RunnerSpec.isTimeout (RunnerSpec.timeoutError h opts c) = true.
Proof.
  unfold RunnerSpec.isTimeout, RunnerSpec.timeoutError, strings.HasPrefix.
  cbn [Error]. generalize (fmtDuration h (sysutil.Timeout opts) ^^ ": " ^^ c).
  intros s. simpl. now destruct s.
Qed.

(** C1: with a zero timeout no deadline is enforced: the call never
    reports a timeout (the result is not marked timed out, the error is no
    timeout error) and a process that starts runs to its end, however long
    that takes; and when a command that was started runs longer than a
    positive timeout, the result is returned with [TimedOut] set and the
    output captured up to the deadline, together with the timeout error. *)
Theorem RunCommand_timeout (h : Host) (opts : sysutil.RunOptions) (name : string)
  (args : list string) (t : Trace) :
  (sysutil.Timeout opts = 0 -> RunnerSpec.Unbounded h opts name args t)
  /\ (forall p, 0 < sysutil.Timeout opts -> name <> EmptyString ->
        RunnerSpec.behaviour h opts name args t = Starts p ->
        sysutil.Timeout opts < runtime p ->
        RunnerSpec.Expired h opts name args t p).
Proof.
  unfold RunnerSpec.Unbounded, RunnerSpec.Expired.
  set (cmdLine := sysutil.commandString name args).
  destruct (String.eqb_spec name EmptyString) as [En|En].
  - unfold sysutil.RunCommand. rewrite En. cbn. split.
    + intros _. split; [|split].
      * intros r E. discriminate E.
      * intros e E. injection E as <-. reflexivity.
      * intros p N. now elim N.
    + intros p _ N. now elim N.
  - rewrite (RunCommand_result h opts name args t En). fold cmdLine. split.
    + intros T0. rewrite T0. change (0 <? 0) with false. cbv iota.
      unfold RunnerSpec.conclude. rewrite T0. change (0 <? 0) with false.
      cbv iota. cbn [sysutil.ctxErr].
      split; [|split].
      * intros r. destruct (sysutil.runErr _) as [[c|cause]|]; cbn;
          intros E; injection E as <-; reflexivity.
      * intros e. destruct (sysutil.runErr _) as [[c|cause]|]; cbn;
          intros E; try discriminate E; injection E as <-; reflexivity.
      * intros p _ B. rewrite B. cbn [sysutil.cmdRun].
        destruct (sysutil.runErr _) as [[c|cause]|]; cbn;
          eexists; repeat split; reflexivity.
    + intros p Tpos _ B Tlt. rewrite B.
      assert (Hpos : (0 <? sysutil.Timeout opts) = true) by (apply Z.ltb_lt; lia).
      assert (Hle : (sysutil.Timeout opts <=? runtime p) = true) by (apply Z.leb_le; lia).
      unfold RunnerSpec.conclude. rewrite Hpos. cbn [sysutil.cmdRun]. rewrite Hle.
      cbn. rewrite Z.leb_refl.
      eexists; repeat split; try reflexivity. apply isTimeout_timeoutError.
Qed.

Lemma RunCommand_timeout_witness :
  (sysutil.Timeout (Lab.plainOpts 0) = 0
   /\ RunnerSpec.Unbounded Lab.sleeper (Lab.plainOpts 0) "sleep" ["10"] [])
  /\ (0 < sysutil.Timeout (Lab.plainOpts (5 * Second))
      /\ "sleep" <> EmptyString
      /\ RunnerSpec.behaviour Lab.sleeper (Lab.plainOpts (5 * Second)) "sleep" ["10"] []
         = Starts (Lab.proc (10 * Second) 0 "tick" EmptyString)
      /\ sysutil.Timeout (Lab.plainOpts (5 * Second))
         < runtime (Lab.proc (10 * Second) 0 "tick" EmptyString)
      /\ RunnerSpec.Expired Lab.sleeper (Lab.plainOpts (5 * Second)) "sleep" ["10"] []
           (Lab.proc (10 * Second) 0 "tick" EmptyString)).
Proof.
  split.
  - split; [reflexivity|].
    apply (proj1 (RunCommand_timeout Lab.sleeper (Lab.plainOpts 0) "sleep" ["10"] [])).
    reflexivity.
  - split; [reflexivity|]. split; [discriminate|]. split; [reflexivity|].
    split; [reflexivity|].
    apply (proj2 (RunCommand_timeout Lab.sleeper (Lab.plainOpts (5 * Second))
                    "sleep" ["10"] [])); try reflexivity. discriminate.
Defined.

(** *** What [RunCommand] leaves in the trace *)

Lemma events_Printf_execs (logger : sysutil.Logger) (line : string) (t : Trace) :
  execs (events (sysutil.Printf logger line) t) = [].
Proof. now destruct logger. Qed.

Lemma events_tee_execs (sink : option File) (data : string) (t : Trace) :
  execs (events (sysutil.tee sink data) t) = [].
Proof. now destruct sink. Qed.

Lemma RunCommand_execs (h : Host) (opts : sysutil.RunOptions) (name : string)
  (args : list string) (t : Trace) :
  execs (events (sysutil.RunCommand h opts name args) t)
  = if String.eqb name EmptyString then [] else [RunnerSpec.command opts name args].
Proof.
  unfold sysutil.RunCommand. destruct (String.eqb name EmptyString); [reflexivity|].
  rewrite !events_bind, !execs_app, !events_Printf_execs, !events_tee_execs.
  rewrite events_request. simpl.
  destruct (sysutil.ctxErr _ _) as [[]|]; [reflexivity|].
  destruct (sysutil.runErr _) as [[c|cause]|]; reflexivity.
Qed.


(** ** The machine lifecycle controller *)

Lemma machineMissing_recognized (e : error) (res : option sysutil.RunResult) :
  deps.machineMissing (Some e) res = MachineSpec.recognized e res.
Proof.
  unfold deps.machineMissing, MachineSpec.recognized, MachineSpec.recognizedMissing,
    MachineSpec.listedPattern, MachineSpec.outputPattern.
  destruct res as [r|]; cbv zeta.
  - destruct (strings.Contains (strings.ToLower (Error e)) "no such vm"
              || strings.Contains (strings.ToLower (Error e)) "not found"
              || strings.Contains (strings.ToLower (Error e)) "does not exist")%bool;
      [reflexivity|].
    cbn [orb].
    destruct (strings.Contains (strings.ToLower (sysutil.Stdout_ r)) "does not exist"),
      (strings.Contains (strings.ToLower (sysutil.Stderr_ r)) "does not exist"),
      (strings.Contains (strings.ToLower (sysutil.Stdout_ r)) "no such vm"),
      (strings.Contains (strings.ToLower (sysutil.Stderr_ r)) "no such vm");
      reflexivity.
  - destruct (strings.Contains (strings.ToLower (Error e)) "no such vm"
              || strings.Contains (strings.ToLower (Error e)) "not found"
              || strings.Contains (strings.ToLower (Error e)) "does not exist")%bool;
      reflexivity.
Qed.

Lemma StopPodmanMachine_events (h : Host) (baseDir podmanPath machineName : string)
  (env : list string) (logWriter : option File) (logger : sysutil.Logger) (t : Trace) :
  events (deps.StopPodmanMachine h baseDir podmanPath machineName env logWriter logger) t
  = events (MachineSpec.stopCall h baseDir podmanPath machineName env logWriter logger) t.
Proof.
  unfold deps.StopPodmanMachine.
  fold (MachineSpec.stopCall h baseDir podmanPath machineName env logWriter logger).
  rewrite events_bind.
  destruct (result _ t) as [res [e|]]; [|now rewrite events_ret, app_nil_r].
  destruct (_ || _)%bool; now rewrite events_ret, app_nil_r.
Qed.

(** *** [ensureMachineExists], path by path *)

Section EnsureMachineExists.
Variables (h : Host) (baseDir podmanPath : string) (env : list string)
  (logWriter : option File) (logger : sysutil.Logger).

Let inspect := MachineSpec.inspectCall h baseDir podmanPath env logWriter logger.
Let init := MachineSpec.initCall h baseDir podmanPath env logWriter logger.
Let before := MachineSpec.beforeInit h baseDir podmanPath env logWriter logger.
Let cleanup := MachineSpec.cleanup h baseDir podmanPath env logWriter logger.
Let run := deps.ensureMachineExists h baseDir podmanPath env logWriter logger.

Lemma ensureMachineExists_present (t : Trace) :
  snd (result inspect t) = None ->
  run t = (None, events inspect t).
Proof.
  intros E. rewrite (run_split run t). subst run. unfold deps.ensureMachineExists.
  fold (MachineSpec.inspectCall h baseDir podmanPath env logWriter logger). fold inspect.
  rewrite result_bind, events_bind.
  destruct (result inspect t) as [res err]. cbn [snd] in E. subst err.
  rewrite result_ret, events_ret, app_nil_r. reflexivity.
Qed.

Lemma ensureMachineExists_hard (t : Trace) (e : error) :
  snd (result inspect t) = Some e ->
  deps.machineMissing (Some e) (fst (result inspect t)) = false ->
  run t = (Some (Wrap "check podman machine: " e), events inspect t).
Proof.
  intros E Hm. rewrite (run_split run t). subst run. unfold deps.ensureMachineExists.
  fold (MachineSpec.inspectCall h baseDir podmanPath env logWriter logger). fold inspect.
  rewrite result_bind, events_bind.
  destruct (result inspect t) as [res err]. cbn [fst snd] in E, Hm. subst err.
  rewrite Hm. cbn [negb].
  rewrite result_ret, events_ret, app_nil_r. reflexivity.
Qed.

Lemma ensureMachineExists_absent (t : Trace) (e : error) :
  snd (result inspect t) = Some e ->
  deps.machineMissing (Some e) (fst (result inspect t)) = true ->
  let t1 := t ++ events before t in
  let t2 := t1 ++ events init t1 in
  let t3 := t2 ++ events cleanup t2 in
  run t =
  match snd (result init t1) with
  | None => (None, events before t ++ events init t1)
  | Some e1 =>
      if MachineSpec.connectionExists e1 then
        (match snd (result init t3) with
         | Some re => Some (Wrap "podman machine init after cleanup: " re)
         | None => None
         end,
         events before t ++ events init t1 ++ events cleanup t2 ++ events init t3)
      else (Some (Wrap "podman machine init: " e1), events before t ++ events init t1)
  end.
Proof.
  intros E Hm t1 t2 t3. rewrite (run_split run t).
  subst t3 t2 t1 run before. unfold deps.ensureMachineExists, MachineSpec.beforeInit.
  fold (MachineSpec.inspectCall h baseDir podmanPath env logWriter logger). fold inspect.
  fold (MachineSpec.initCall h baseDir podmanPath env logWriter logger). fold init.
  fold (MachineSpec.cleanup h baseDir podmanPath env logWriter logger). fold cleanup.
  rewrite !result_bind, !events_bind.
  destruct (result inspect t) as [res err]. cbn [fst snd] in E, Hm. subst err.
  rewrite Hm. cbn [negb].
  rewrite !result_bind, !events_bind. rewrite <- !app_assoc.
  match goal with
  | |- _ = match snd (result init ?x) with _ => _ end =>
      destruct (result init x) as [res1 [e1|]]
  end; cbn [snd].
  - unfold MachineSpec.connectionExists.
    destruct (strings.Contains (strings.ToLower (Error e1)) "connection"
              && strings.Contains (strings.ToLower (Error e1)) "already exists")%bool.
    + rewrite !result_bind, !events_bind. rewrite <- !app_assoc.
      match goal with
      | |- _ = (match snd (result init ?x) with _ => _ end, _) =>
          destruct (result init x) as [res2 [e2|]]
      end; cbn [snd]; rewrite result_ret, events_ret, app_nil_r; reflexivity.
    + rewrite result_ret, events_ret, app_nil_r. reflexivity.
  - rewrite result_ret, events_ret, app_nil_r. reflexivity.
Qed.

End EnsureMachineExists.

Lemma initCount_app (a b : Trace) :
  MachineSpec.initCount (a ++ b)
  = (MachineSpec.initCount a + MachineSpec.initCount b)%nat.
Proof.
  unfold MachineSpec.initCount. now rewrite execs_app, filter_app, length_app.
Qed.

Lemma initCount_none (es : Trace) :
  Forall (onExec (fun c => MachineSpec.isInit c = false)) es ->
  MachineSpec.initCount es = 0%nat.
Proof.
  intros H. apply execs_Forall in H. unfold MachineSpec.initCount.
  induction H as [|c cs Hc _ IH]; simpl; [reflexivity|]. now rewrite Hc.
Qed.

Section Creation.
Variables (h : Host) (baseDir podmanPath : string) (env : list string)
  (logWriter : option File) (logger : sysutil.Logger).

Let inspect := MachineSpec.inspectCall h baseDir podmanPath env logWriter logger.
Let init := MachineSpec.initCall h baseDir podmanPath env logWriter logger.
Let before := MachineSpec.beforeInit h baseDir podmanPath env logWriter logger.
Let cleanup := MachineSpec.cleanup h baseDir podmanPath env logWriter logger.
Let run := deps.ensureMachineExists h baseDir podmanPath env logWriter logger.

Lemma absent_named (t : Trace) (e : error) :
  snd (result inspect t) = Some e ->
  deps.machineMissing (Some e) (fst (result inspect t)) = true ->
  podmanPath <> EmptyString.
Proof.
  intros E Hm N. subst inspect. unfold MachineSpec.inspectCall in E, Hm.
  rewrite N in E, Hm. cbn in E, Hm. injection E as <-. discriminate Hm.
Qed.

Lemma before_no_init (t : Trace) : MachineSpec.initCount (events before t) = 0%nat.
Proof.
  apply initCount_none. revert t.
  change (Emits (onExec (fun c => MachineSpec.isInit c = false)) before).
  subst before. emits.
Qed.

Lemma cleanup_no_init (t : Trace) : MachineSpec.initCount (events cleanup t) = 0%nat.
Proof.
  apply initCount_none. revert t.
  change (Emits (onExec (fun c => MachineSpec.isInit c = false)) cleanup).
  subst cleanup. emits.
Qed.

Lemma init_once (t : Trace) :
  podmanPath <> EmptyString -> MachineSpec.initCount (events init t) = 1%nat.
Proof.
  intros N. unfold MachineSpec.initCount. subst init. unfold MachineSpec.initCall.
  rewrite RunCommand_execs.
  destruct (String.eqb_spec podmanPath EmptyString); [contradiction|]. reflexivity.
Qed.

Lemma cleanup_removes (t : Trace) :
  Forall MachineSpec.removesConnection (execs (events cleanup t)).
Proof.
  apply execs_Forall. revert t.
  change (Emits (onExec MachineSpec.removesConnection) cleanup).
  subst cleanup. unfold MachineSpec.cleanup, deps.cleanupOrWarn,
    deps.cleanupMachineConnection. cbn [deps.forEach].
  unfold MachineSpec.removesConnection. emits.
Qed.

Lemma cleanup_starts (t : Trace) :
  podmanPath <> EmptyString ->
  hd_error (execs (events cleanup t))
  = Some (MachineSpec.rmCommand baseDir podmanPath env logWriter logger
            deps.podmanMachineName).
Proof.
  intros N. subst cleanup. unfold MachineSpec.cleanup, deps.cleanupOrWarn,
    deps.cleanupMachineConnection. cbn [deps.forEach]. unfold check.
  rewrite !events_bind, !execs_app. rewrite RunCommand_execs.
  destruct (String.eqb_spec podmanPath EmptyString); [contradiction|]. reflexivity.
Qed.

End Creation.

Section Inspection.
Variables (h : Host) (baseDir podmanPath : string) (env : list string)
  (logWriter : option File) (logger : sysutil.Logger).

Let inspect := MachineSpec.inspectCall h baseDir podmanPath env logWriter logger.
Let run := deps.ensureMachineExists h baseDir podmanPath env logWriter logger.

Lemma inspect_no_init (t : Trace) : MachineSpec.initCount (events inspect t) = 0%nat.
Proof.
  apply initCount_none. revert t.
  change (Emits (onExec (fun c => MachineSpec.isInit c = false)) inspect).
  subst inspect. emits.
Qed.

(** C5 (amended): a failed inspection makes the controller treat the
    machine as absent, and go on to create it, if and only if the message
    of the error contains "no such vm", "not found" or "does not exist",
    or the standard output or standard error of the command contains
    "does not exist" or "no such vm" (letter case ignored); every other
    failed inspection is returned as an error, wrapped, and nothing is
    run after the inspection. *)
Theorem ensureMachineExists_absent_iff (t : Trace) (e : error) :
  snd (result inspect t) = Some e ->
  let missing := MachineSpec.recognized e (fst (result inspect t)) in
  (missing = true <-> (0 < MachineSpec.initCount (events run t))%nat)
  /\ (missing = false ->
      result run t = Some (Wrap "check podman machine: " e)
      /\ events run t = events inspect t).
Proof.
  intros E missing. subst missing. rewrite <- machineMissing_recognized.
  destruct (deps.machineMissing (Some e) (fst (result inspect t))) eqn:Hm.
  - split; [|discriminate]. split; [intros _|reflexivity].
    pose proof (absent_named h baseDir podmanPath env logWriter logger t e E Hm) as N.
    pose proof (ensureMachineExists_absent h baseDir podmanPath env logWriter logger
                  t e E Hm) as R.
    cbv zeta in R. fold run in R. unfold events at 1. rewrite R.
    match goal with
    | |- context [match ?x with Some _ => _ | None => _ end] =>
        destruct x as [e1|]; [destruct (MachineSpec.connectionExists e1)|]
    end; cbn [snd]; rewrite !initCount_app, !init_once by exact N; lia.
  - pose proof (ensureMachineExists_hard h baseDir podmanPath env logWriter logger
                  t e E Hm) as R.
    fold run inspect in R. split.
    + split; [discriminate|]. unfold events. rewrite R. cbn [snd].
      fold (events inspect t). rewrite inspect_no_init. lia.
    + intros _. unfold result, events. rewrite R. split; reflexivity.
Qed.

End Inspection.

Lemma ensureMachineExists_absent_iff_witness :
  let failed :=
    RunnerSpec.processFailed 125
      (sysutil.commandString Lab.podman ["machine"; "inspect"; deps.podmanMachineName]) in
  (snd (result (MachineSpec.inspectCall Lab.freshHost Lab.baseDir Lab.podman
                  [] None None) []) = Some failed
   /\ (0 < MachineSpec.initCount
             (events (deps.ensureMachineExists Lab.freshHost Lab.baseDir Lab.podman
                        [] None None) []))%nat)
  /\ (snd (result (MachineSpec.inspectCall Lab.brokenInspect Lab.baseDir Lab.podman
                     [] None None) []) = Some failed
      /\ result (deps.ensureMachineExists Lab.brokenInspect Lab.baseDir Lab.podman
                   [] None None) []
         = Some (Wrap "check podman machine: " failed)).
Proof.
  intros failed. split.
  - split; [reflexivity|].
    apply (proj1 (ensureMachineExists_absent_iff Lab.freshHost Lab.baseDir Lab.podman
                    [] None None [] failed eq_refl)).
    reflexivity.
  - split; [reflexivity|].
    apply (proj2 (ensureMachineExists_absent_iff Lab.brokenInspect Lab.baseDir Lab.podman
                    [] None None [] failed eq_refl)).
    reflexivity.
Defined.

(** C5, as the specification words it, fails: an inspection that reports
    "not found" on its standard error matches a listed pattern, and is
    returned as an error all the same; no creation is attempted. *)
Lemma inspect_not_found_on_stderr_is_fatal :
  let inspect :=
    MachineSpec.inspectCall Lab.notFoundOnStderr Lab.baseDir Lab.podman [] None None in
  let run :=
    deps.ensureMachineExists Lab.notFoundOnStderr Lab.baseDir Lab.podman [] None None in
  exists r e,
    result inspect [] = (Some r, Some e)
    /\ sysutil.Stderr_ r = "Error: machine not found"
    /\ MachineSpec.listedMissing (Error e) (sysutil.Stdout_ r) (sysutil.Stderr_ r) = true
    /\ result run [] = Some (Wrap "check podman machine: " e)
    /\ MachineSpec.initCount (events run []) = 0%nat.
Proof.
  intros inspect run. eexists. eexists. split; [reflexivity|].
  repeat split; reflexivity.
Qed.

(** ** The build orchestrator *)

Lemma EnsurePodman_path (h : Host) (baseDir : string) (logger : sysutil.Logger) :
  Returns (fun r => snd r = None -> fst r <> EmptyString)
    (deps.EnsurePodman h baseDir logger).
Proof.
  unfold deps.EnsurePodman.
  repeat returns_step; cbn [fst snd]; intros E; try discriminate E;
    apply Join_under_nonempty; reflexivity.
Qed.

Lemma podmanEnv_six (h : Host) (baseDir : string) :
  Returns (fun r => snd r = None -> length (fst r) = 6%nat) (deps.podmanEnv h baseDir).
Proof.
  unfold deps.podmanEnv.
  repeat returns_step; cbn [fst snd]; intros E; try discriminate E; reflexivity.
Qed.

Lemma EnsurePodmanMachine_ready (h : Host) (baseDir podmanPath : string)
  (logWriter : option File) (logger : sysutil.Logger) :
  Returns (fun r => snd r = None ->
                    fst (fst r) = deps.podmanMachineName
                    /\ length (snd (fst r)) = 6%nat)
    (deps.EnsurePodmanMachine h baseDir podmanPath logWriter logger).
Proof.
  unfold deps.EnsurePodmanMachine.
  eapply Returns_bind; [apply podmanEnv_six|].
  intros [env [e|]] Henv; cbn [fst snd] in Henv.
  - apply Returns_ret. cbn. discriminate.
  - specialize (Henv eq_refl).
    repeat returns_step; cbn [fst snd]; intros E; try discriminate E.
    split; [reflexivity | exact Henv].
Qed.

Lemma Build_ready_keeps (h : Host) (baseDir : string) (logFile : File)
  (logger : sysutil.Logger) (v : builder.locals) :
  Returns (fun r => fst r = v) (builder.Build_ready h baseDir logFile logger v).
Proof.
  unfold builder.Build_ready. repeat returns_step; reflexivity.
Qed.

Lemma toMachine_ready (h : Host) (baseDir : string) :
  Returns (fun r => forall logFile v, r = Some (logFile, v) ->
                    builder.podmanPath v <> EmptyString
                    /\ builder.machineName v = deps.podmanMachineName
                    /\ length (builder.podmanEnv v) = 6%nat)
    (BuildSpec.toMachine h baseDir).
Proof.
  unfold BuildSpec.toMachine.
  apply Returns_bind_any. intros [e|logFile]; [apply Returns_ret; discriminate|].
  apply Returns_bind_any. intros _. apply Returns_bind_any. intros _.
  apply Returns_bind_any. intros [e|]; [apply Returns_ret; discriminate|].
  apply Returns_bind_any. intros [e|]; [apply Returns_ret; discriminate|].
  eapply Returns_bind; [apply EnsurePodman_path|].
  intros [path [e|]] Hp; [apply Returns_ret; discriminate|].
  cbn [fst snd] in Hp. specialize (Hp eq_refl).
  apply Returns_bind_any. intros _.
  eapply Returns_bind; [apply EnsurePodmanMachine_ready|].
  intros [[name env] [e|]] Hm; [apply Returns_ret; discriminate|].
  cbn [fst snd] in Hm. destruct (Hm eq_refl) as [Hn He].
  apply Returns_ret. intros lf v E. injection E as <- <-. cbn. auto.
Qed.

(** *** Running a program next to one of its prefixes *)

(** One step of a run: the next call whose result is scrutinized is named,
    with the events it adds. *)
Ltac mrun_step :=
  match goal with
  | |- context [match ?m ?t with pair _ _ => _ end] =>
      lazymatch m with
      | match _ with _ => _ end => fail
      | _ => idtac
      end;
      let a := fresh "a" in
      let es := fresh "es" in
      let E := fresh "E" in
      destruct (m t) as [a es] eqn:E
  end.

Ltac mrun :=
  repeat (first [ match goal with
                  | |- context [match ?x with _ => _ end] => is_var x; destruct x
                  end
                | mrun_step ];
          cbv beta iota;
          try (let X := fresh "X" in intros X; discriminate X)).

Ltac mflat :=
  repeat (progress (rewrite ?app_nil_r in *; rewrite <- ?app_assoc in * )).

Lemma Build_after_machine (h : Host) (baseDir : string) (t : Trace)
  (logFile : File) (v : builder.locals) :
  result (BuildSpec.toMachine h baseDir) t = Some (logFile, v) ->
  let ready := builder.Build_ready h baseDir logFile (Some logFile) v in
  let t1 := t ++ events (BuildSpec.toMachine h baseDir) t in
  let t2 := t1 ++ events ready t1 in
  builder.Build h baseDir t
  = (snd (result ready t1),
     events (BuildSpec.toMachine h baseDir) t ++ events ready t1
     ++ events (builder.stopOnExit h baseDir logFile (Some logFile) v
                  (snd (result ready t1))) t2
     ++ [EvFs (Close logFile)]).
Proof.
  intros E ready t1 t2. subst t2 t1 ready.
  unfold result, events in *.
  destruct (BuildSpec.toMachine h baseDir t) as [r pre] eqn:Epre.
  cbn [fst snd] in *. subst r. revert Epre.
  unfold builder.Build, BuildSpec.toMachine, builder.Build_steps, check, bind, ret.
  mrun. intros X. injection X as <- <- <-. mflat.
  pose proof (Build_ready_keeps h baseDir f (Some f)
                {| builder.podmanPath := s; builder.machineName := s0;
                   builder.podmanEnv := l |}
                (t ++ es ++ es0 ++ es1 ++ es2 ++ es3 ++ es4 ++ es5 ++ es6)) as K.
  unfold result in K. rewrite E7 in *. cbn [fst snd] in *. subst l0.
  rewrite E8. cbn [snd]. unfold fsutil.fsop, request in E9. injection E9 as _ <-.
  reflexivity.
Qed.

Lemma stopCount_none (es : Trace) :
  Forall (onExec (fun c => MachineSpec.isStop c = false)) es ->
  BuildSpec.stopCount es = 0%nat.
Proof.
  intros H. apply execs_Forall in H. unfold BuildSpec.stopCount.
  induction H as [|c cs Hc _ IH]; simpl; [reflexivity|]. now rewrite Hc.
Qed.

Lemma toMachine_no_stop (h : Host) (baseDir : string) :
  Emits (onExec (fun c => MachineSpec.isStop c = false)) (BuildSpec.toMachine h baseDir).
Proof. unfold BuildSpec.toMachine. emits. Qed.

Lemma toMachine_no_warning (h : Host) (baseDir : string) :
  Emits notStderr (BuildSpec.toMachine h baseDir).
Proof. unfold BuildSpec.toMachine. emits. Qed.

Lemma Build_ready_no_stop (h : Host) (baseDir : string) (logFile : File)
  (logger : sysutil.Logger) (v : builder.locals) :
  Emits (onExec (fun c => MachineSpec.isStop c = false))
    (builder.Build_ready h baseDir logFile logger v).
Proof. unfold builder.Build_ready. emits. Qed.

Lemma Build_ready_no_warning (h : Host) (baseDir : string) (logFile : File)
  (logger : sysutil.Logger) (v : builder.locals) :
  Emits notStderr (builder.Build_ready h baseDir logFile logger v).
Proof. unfold builder.Build_ready. emits. Qed.

Lemma StopPodmanMachine_no_warning (h : Host) (baseDir podmanPath machineName : string)
  (env : list string) (logWriter : option File) (logger : sysutil.Logger) :
  Emits notStderr
    (deps.StopPodmanMachine h baseDir podmanPath machineName env logWriter logger).
Proof. emits. Qed.

Lemma StopPodmanMachine_execs (h : Host) (baseDir podmanPath machineName : string)
  (env : list string) (logWriter : option File) (logger : sysutil.Logger) (t : Trace) :
  podmanPath <> EmptyString ->
  execs (events (deps.StopPodmanMachine h baseDir podmanPath machineName env
                   logWriter logger) t)
  = [MachineSpec.stopCommand baseDir podmanPath machineName env logWriter logger].
Proof.
  intros N. rewrite StopPodmanMachine_events. unfold MachineSpec.stopCall.
  rewrite RunCommand_execs.
  destruct (String.eqb_spec podmanPath EmptyString); [contradiction|]. reflexivity.
Qed.

(** The deferred stop, when the three variables are set. *)
Lemma stopOnExit_events (h : Host) (baseDir : string) (logFile : File)
  (logger : sysutil.Logger) (v : builder.locals) (err : option error) (t : Trace) :
  builder.podmanPath v <> EmptyString ->
  builder.machineName v <> EmptyString ->
  builder.podmanEnv v <> [] ->
  let stop :=
    deps.StopPodmanMachine h baseDir (builder.podmanPath v) (builder.machineName v)
      (builder.podmanEnv v) (Some logFile) logger in
  events (builder.stopOnExit h baseDir logFile logger v err) t
  = events stop t
    ++ match result stop t with
       | Some stopErr => [EvStderr (BuildSpec.stopWarning stopErr)]
       | None =>
           match err with
           | None => events (output.Println h "[*] Podman machine stopped.")
                       (t ++ events stop t)
           | Some _ => []
           end
       end.
Proof.
  intros Np Nm Ne stop. unfold builder.stopOnExit.
  destruct (String.eqb_spec (builder.podmanPath v) EmptyString); [contradiction|].
  destruct (String.eqb_spec (builder.machineName v) EmptyString); [contradiction|].
  destruct (Nat.eqb_spec (length (builder.podmanEnv v)) 0) as [Z|_];
    [apply length_zero_iff_nil in Z; contradiction|].
  cbn [orb]. fold stop.
  rewrite events_bind. f_equal.
  destruct (result stop t) as [se|]; [reflexivity|].
  destruct err; reflexivity.
Qed.

Lemma Println_quiet (h : Host) (msg : string) (t : Trace) :
  execs (events (output.Println h msg) t) = []
  /\ warnings (events (output.Println h msg) t) = [].
Proof. unfold output.Println. destruct (quiet h); split; reflexivity. Qed.

(** C2: in every execution of [Build] in which the machine was made ready
    (every step up to [EnsurePodmanMachine] succeeded, so that the path,
    the machine name and the environment are set), the machine is stopped
    exactly once, after the steps, whether they succeeded or failed, and
    in particular when the image pull fails; the error [Build] returns is
    the error of the failing step, never that of the stop, and a failed
    stop leaves a warning on the standard error. *)
Theorem Build_stops_machine_once (h : Host) (baseDir : string) (t : Trace)
  (logFile : File) (v : builder.locals) :
  result (BuildSpec.toMachine h baseDir) t = Some (logFile, v) ->
  BuildSpec.StoppedOnce h baseDir t logFile v.
Proof.
  intros E.
  destruct (toMachine_ready h baseDir t logFile v E) as (Np & Nm & Ne).
  pose proof (Build_after_machine h baseDir t logFile v E) as R. cbv zeta in R.
  unfold BuildSpec.StoppedOnce. cbv zeta.
  set (ready := builder.Build_ready h baseDir logFile (Some logFile) v) in *.
  set (t1 := t ++ events (BuildSpec.toMachine h baseDir) t) in *.
  set (t2 := t1 ++ events ready t1) in *.
  set (stop := deps.StopPodmanMachine h baseDir (builder.podmanPath v)
                 (builder.machineName v) (builder.podmanEnv v) (Some logFile)
                 (Some logFile)).
  assert (Nm' : builder.machineName v <> EmptyString) by (rewrite Nm; discriminate).
  assert (Ne' : builder.podmanEnv v <> [])
    by (intros Z; rewrite Z in Ne; discriminate Ne).
  pose proof (stopOnExit_events h baseDir logFile (Some logFile) v
                (snd (result ready t1)) t2 Np Nm' Ne') as S.
  cbv zeta in S. fold stop in S.
  assert (Xs : execs (events (builder.stopOnExit h baseDir logFile (Some logFile) v
                                (snd (result ready t1))) t2)
               = [MachineSpec.stopCommand baseDir (builder.podmanPath v)
                    (builder.machineName v) (builder.podmanEnv v)
                    (Some logFile) (Some logFile)]).
  { rewrite S, execs_app. unfold stop. rewrite StopPodmanMachine_execs by exact Np.
    destruct (result _ t2); [reflexivity|].
    destruct (snd (result ready t1)); [reflexivity|].
    now rewrite (proj1 (Println_quiet h _ _)). }
  assert (Ev : events (builder.Build h baseDir) t
               = events (BuildSpec.toMachine h baseDir) t ++ events ready t1
                 ++ events (builder.stopOnExit h baseDir logFile (Some logFile) v
                              (snd (result ready t1))) t2
                 ++ [EvFs (Close logFile)])
    by (unfold events at 1; now rewrite R).
  assert (Xe : execs (events (builder.Build h baseDir) t)
               = execs (events (BuildSpec.toMachine h baseDir) t)
                 ++ execs (events ready t1)
                 ++ [MachineSpec.stopCommand baseDir (builder.podmanPath v)
                       (builder.machineName v) (builder.podmanEnv v)
                       (Some logFile) (Some logFile)]).
  { rewrite Ev, !execs_app, Xs. cbn [execs]. now rewrite app_nil_r. }
  assert (Res : result (builder.Build h baseDir) t = snd (result ready t1))
    by (unfold result at 1; now rewrite R).
  split; [exact Xe|]. split; [|split; [exact Res|split]].
  - unfold BuildSpec.stopCount. rewrite Xe, !filter_app, !length_app.
    fold (BuildSpec.stopCount (events (BuildSpec.toMachine h baseDir) t)).
    fold (BuildSpec.stopCount (events ready t1)).
    rewrite (stopCount_none _ (toMachine_no_stop h baseDir t)).
    pose proof (stopCount_none _ (Build_ready_no_stop h baseDir logFile
                                     (Some logFile) v t1)) as Z.
    fold ready in Z. rewrite Z.
    unfold MachineSpec.stopCommand. cbn. reflexivity.
  - intros e Ep. rewrite Res. subst ready. unfold builder.Build_ready.
    unfold BuildSpec.pull in Ep. rewrite result_bind in Ep.
    rewrite !result_bind. rewrite Ep. reflexivity.
  - rewrite Ev, !warnings_app.
    rewrite (warnings_none _ (toMachine_no_warning h baseDir t)).
    pose proof (warnings_none _ (Build_ready_no_warning h baseDir logFile
                                   (Some logFile) v t1)) as Z.
    fold ready in Z. rewrite Z.
    rewrite S, warnings_app.
    pose proof (warnings_none _ (StopPodmanMachine_no_warning h baseDir
                  (builder.podmanPath v) (builder.machineName v)
                  (builder.podmanEnv v) (Some logFile) (Some logFile) t2)) as Z2.
    fold stop in Z2. rewrite Z2. cbn [app warnings].
    destruct (result stop t2); [reflexivity|].
    destruct (snd (result ready t1)); [reflexivity|].
    now rewrite (proj2 (Println_quiet h _ _)).
Qed.

Lemma Build_stops_machine_once_witness :
  result (BuildSpec.toMachine Lab.pullAndStopFail Lab.baseDir) []
  = Some (Lab.buildLog, Lab.readyLocals)
  /\ BuildSpec.StoppedOnce Lab.pullAndStopFail Lab.baseDir [] Lab.buildLog Lab.readyLocals.
Proof.
  split; [reflexivity|].
  apply (Build_stops_machine_once Lab.pullAndStopFail Lab.baseDir [] Lab.buildLog
           Lab.readyLocals).
  reflexivity.
Defined.

(** ** The smoke-test runner *)

Lemma pair_some_inv {A B : Type} (a a' : A) (b b' : B) :
  (Some a, b) = (Some a', b') -> a = a' /\ b = b'.
Proof. intros H. injection H. auto. Qed.

Lemma pair_inv {A B : Type} (a a' : A) (b b' : B) :
  (a, b) = (a', b') -> a = a' /\ b = b'.
Proof. intros H. injection H. auto. Qed.

(** The equations left by a run are used on the other side. *)
Ltac mclose :=
  let X := fresh "X" in
  intros X; apply pair_some_inv in X; destruct X;
  repeat match goal with
         | H : (_, _) = (_, _) |- _ => apply pair_inv in H; destruct H
         end;
  subst; mflat;
  cbn [VmSpec.logFile VmSpec.absVM VmSpec.usingBundledQEMU VmSpec.clone];
  repeat match goal with
         | E : fsutil.fsop _ (Close _) _ = (_, _) |- _ =>
             unfold fsutil.fsop, request in E; injection E; intros; subst; clear E
         end;
  repeat match goal with
         | E : ?m ?t = (_, _) |- context [?m ?t] => rewrite E; cbn [fst snd]
         end;
  mflat; try reflexivity.

Lemma Run_at_base_check (h : Host) (baseDir vmPath : string) (args : list string)
  (t : Trace) (logFile : File) (absVM : string) (bundled : bool) :
  result (VmSpec.toBaseCheck h baseDir vmPath) t = Some (logFile, absVM, bundled) ->
  let rest := vmtest.Run_checked h baseDir logFile absVM bundled
                (VmSpec.isoPath baseDir) args in
  let t1 := t ++ events (VmSpec.toBaseCheck h baseDir vmPath) t in
  vmtest.Run h baseDir vmPath args t
  = (result rest t1,
     events (VmSpec.toBaseCheck h baseDir vmPath) t ++ events rest t1
     ++ [EvFs (Close logFile)]).
Proof.
  intros E rest t1. subst t1 rest.
  unfold result, events in *.
  destruct (VmSpec.toBaseCheck h baseDir vmPath t) as [r pre] eqn:Epre.
  cbn [fst snd] in *. subst r. revert Epre.
  unfold vmtest.Run, VmSpec.toBaseCheck, vmtest.Run_resolved, check, bind, ret.
  fold (VmSpec.isoPath baseDir).
  destruct (String.eqb vmPath EmptyString); mrun; mclose.
Qed.

Lemma Run_at_clone (h : Host) (baseDir vmPath : string) (args : list string)
  (t : Trace) (c : VmSpec.cloned) :
  result (VmSpec.toClone h baseDir vmPath) t = Some c ->
  let launch := vmtest.Run_cloned h baseDir (VmSpec.logFile c) (VmSpec.absVM c)
                  (VmSpec.usingBundledQEMU c) (VmSpec.isoPath baseDir)
                  (VmSpec.clone c) args in
  let t1 := t ++ events (VmSpec.toClone h baseDir vmPath) t in
  let t2 := t1 ++ events launch t1 in
  vmtest.Run h baseDir vmPath args t
  = (result launch t1,
     events (VmSpec.toClone h baseDir vmPath) t ++ events launch t1
     ++ events (vmtest.deleteClone h baseDir (VmSpec.clone c)) t2
     ++ [EvFs (Close (VmSpec.logFile c))]).
Proof.
  intros E launch t1 t2. subst t2 t1 launch.
  unfold result, events in *.
  destruct (VmSpec.toClone h baseDir vmPath t) as [r pre] eqn:Epre.
  cbn [fst snd] in *. subst r. revert Epre.
  unfold vmtest.Run, VmSpec.toClone, VmSpec.cloneSteps, vmtest.Run_resolved,
    vmtest.Run_checked, check, bind, ret.
  unfold VmSpec.clonePath, VmSpec.isoPath, VmSpec.qcowPath. cbv zeta.
  destruct (String.eqb vmPath EmptyString); mrun; mclose.
Qed.

Lemma Run_at_vm_check (h : Host) (baseDir vmPath : string) (args : list string)
  (t : Trace) (logFile : File) (absVM : string) :
  vmPath <> EmptyString ->
  result (VmSpec.toVmCheck h baseDir vmPath) t = Some (logFile, absVM) ->
  let verify := vmtest.ensureFileExists h absVM "VM executable" in
  let rest := vmtest.Run_resolved h baseDir logFile absVM false args in
  let t1 := t ++ events (VmSpec.toVmCheck h baseDir vmPath) t in
  let t2 := t1 ++ events verify t1 in
  vmtest.Run h baseDir vmPath args t
  = match result verify t1 with
    | Some e =>
        (Some e,
         events (VmSpec.toVmCheck h baseDir vmPath) t ++ events verify t1
         ++ [EvFs (Close logFile)])
    | None =>
        (result rest t2,
         events (VmSpec.toVmCheck h baseDir vmPath) t ++ events verify t1
         ++ events rest t2 ++ [EvFs (Close logFile)])
    end.
Proof.
  intros N E verify rest t1 t2. subst t2 t1 rest verify.
  unfold result, events in *.
  destruct (VmSpec.toVmCheck h baseDir vmPath t) as [r pre] eqn:Epre.
  cbn [fst snd] in *. subst r. revert Epre.
  unfold vmtest.Run, VmSpec.toVmCheck, check, bind, ret.
  destruct (String.eqb_spec vmPath EmptyString); [contradiction|].
  mrun; mclose.
Qed.

Lemma Run_checked_missing (h : Host) (baseDir : string) (logFile : File)
  (absVM : string) (bundled : bool) (iso : string) (args : list string)
  (t : Trace) (e : error) :
  host_stat h t (VmSpec.qcowPath baseDir) = inl e -> IsNotExist e = true ->
  vmtest.Run_checked h baseDir logFile absVM bundled iso args t
  = (Some (VmSpec.notFound "velocloud qcow2 image" (VmSpec.qcowPath baseDir)),
     [EvStat (VmSpec.qcowPath baseDir)]).
Proof.
  intros Hs Hn.
  unfold vmtest.Run_checked, check, vmtest.ensureFileExists, fsutil.Stat, bind,
    request, ret.
  cbv beta zeta. fold (VmSpec.qcowPath baseDir). rewrite Hs. cbv beta iota.
  rewrite Hn. reflexivity.
Qed.

Section FailsRules.
Context (P : Event -> Prop).

Lemma Fails_ret (e : error) : VmSpec.Fails P (ret (Some e)).
Proof. intros t. split; [discriminate | constructor]. Qed.

Lemma Fails_bind {A : Type} (m : M A) (f : A -> M (option error)) :
  Emits P m -> (forall a, VmSpec.Fails P (f a)) -> VmSpec.Fails P (bind m f).
Proof.
  intros Hm Hf t. rewrite result_bind, events_bind.
  destruct (Hf (result m t) (t ++ events m t)) as [Hr He]. split; [exact Hr|].
  apply Forall_app. split; [apply Hm | exact He].
Qed.

Lemma Fails_check (step : M (option error)) (wrap : error -> error)
  (k : M (option error)) :
  Emits P step -> VmSpec.Fails P k -> VmSpec.Fails P (check step wrap k).
Proof.
  intros Hs Hk. unfold check. apply Fails_bind; [exact Hs|].
  intros [e|]; [apply Fails_ret | exact Hk].
Qed.

Lemma Fails_then {A : Type} (m : M (option error)) (after : M A) :
  VmSpec.Fails P m -> Emits P after ->
  VmSpec.Fails P (err <- m ;; after ;; ret err).
Proof.
  intros Hm Ha t. destruct (Hm t) as [Hr He].
  rewrite result_bind, events_bind, result_bind, events_bind.
  rewrite result_ret, events_ret, app_nil_r. split; [exact Hr|].
  apply Forall_app. split; [exact He | apply Ha].
Qed.

End FailsRules.

Lemma Run_checked_Fails (h : Host) (baseDir : string) (logFile : File)
  (absVM : string) (bundled : bool) (iso : string) (args : list string) :
  VmSpec.baseImageMissing h baseDir ->
  VmSpec.Fails VmSpec.harmless
    (vmtest.Run_checked h baseDir logFile absVM bundled iso args).
Proof.
  intros Hq t. destruct (Hq t) as (e & Hs & Hn).
  unfold result, events.
  rewrite (Run_checked_missing h baseDir logFile absVM bundled iso args t e Hs Hn).
  cbn [fst snd]. split; [discriminate|].
  repeat constructor.
Qed.

Lemma Run_Fails (h : Host) (baseDir vmPath : string) (args : list string) :
  VmSpec.baseImageMissing h baseDir ->
  VmSpec.Fails VmSpec.harmless (vmtest.Run h baseDir vmPath args).
Proof.
  intros Hq. unfold vmtest.Run.
  apply Fails_bind; [unfold VmSpec.harmless; emits|].
  intros [e|logFile]; [apply Fails_ret|].
  apply Fails_then; [|unfold VmSpec.harmless; emits].
  apply Fails_bind; [unfold VmSpec.harmless; emits|]. intros _.
  destruct (String.eqb vmPath EmptyString).
  - apply Fails_bind; [unfold VmSpec.harmless; emits|]. intros _.
    apply Fails_bind; [unfold VmSpec.harmless; emits|].
    intros [absVM [e|]]; [apply Fails_ret|].
    unfold vmtest.Run_resolved.
    apply Fails_check; [unfold VmSpec.harmless; emits|].
    apply Run_checked_Fails, Hq.
  - apply Fails_bind; [unfold VmSpec.harmless; emits|].
    intros [absVM [e|]]; [apply Fails_ret|].
    apply Fails_check; [unfold VmSpec.harmless; emits|].
    unfold vmtest.Run_resolved.
    apply Fails_check; [unfold VmSpec.harmless; emits|].
    apply Run_checked_Fails, Hq.
Qed.

Lemma findQEMUExecutable_found (h : Host) (root : string) :
  Returns (fun r => snd r = None -> fst r <> EmptyString)
    (deps.findQEMUExecutable h root).
Proof.
  unfold deps.findQEMUExecutable. apply Returns_bind_any. intros entries.
  destruct (deps.walkFind true deps.qemuExeName entries) as [found [e|]].
  - apply Returns_ret. discriminate.
  - destruct (String.eqb_spec found EmptyString) as [Z|Z]; apply Returns_ret.
    + discriminate.
    + intros _. exact Z.
Qed.

Lemma EnsureQEMU_found (h : Host) (baseDir : string) (logger : sysutil.Logger) :
  Returns (fun r => snd r = None -> fst r <> EmptyString)
    (deps.EnsureQEMU h baseDir logger).
Proof.
  unfold deps.EnsureQEMU. cbv zeta.
  apply Returns_bind_any. intros [e|]; [apply Returns_ret; discriminate|].
  eapply Returns_bind; [apply findQEMUExecutable_found|].
  intros [exe [e|]] Hf; cbn [fst snd] in Hf.
  - apply Returns_bind_any. intros _. apply Returns_bind_any.
    intros [e'|]; [apply Returns_ret; discriminate|].
    eapply Returns_bind; [apply findQEMUExecutable_found|].
    intros [exe' [e'|]] Hf'; cbn [fst snd] in Hf'; [apply Returns_ret; discriminate|].
    apply Returns_bind_any. intros _. apply Returns_ret. exact Hf'.
  - apply Returns_bind_any. intros _. apply Returns_ret. exact Hf.
Qed.

Lemma Abs_nonempty (h : Host) (path : string) :
  path <> EmptyString ->
  Returns (fun r => snd r = None -> fst r <> EmptyString) (vmtest.Abs h path).
Proof.
  intros N. unfold vmtest.Abs. destruct (filepath.IsAbs path).
  - apply Returns_ret. intros _. apply Clean_nonempty.
  - apply Returns_bind_any. intros [e|dir]; apply Returns_ret; [discriminate|].
    intros _. cbn [fst filepath.Join].
    destruct (String.eqb dir EmptyString).
    + destruct (String.eqb_spec path EmptyString); [contradiction|].
      apply Clean_nonempty.
    + apply Clean_nonempty.
Qed.

Lemma clonePath_nonempty (baseDir now : string) :
  VmSpec.clonePath baseDir now <> EmptyString.
Proof.
  unfold VmSpec.clonePath. apply Join_cons_nonempty.
  apply Join_under_nonempty. reflexivity.
Qed.

Lemma cloneSteps_named (h : Host) (baseDir : string) (lf : File) (vm : string)
  (bundled : bool) :
  Returns (fun r => forall c, r = Some c ->
                    VmSpec.clone c <> EmptyString /\ VmSpec.absVM c = vm)
    (VmSpec.cloneSteps h baseDir lf vm bundled).
Proof.
  unfold VmSpec.cloneSteps.
  repeat returns_step; intros c E; try discriminate E.
  injection E as <-. cbn. split; [apply clonePath_nonempty | reflexivity].
Qed.

Lemma toClone_named (h : Host) (baseDir vmPath : string) :
  Returns (fun r => forall c, r = Some c ->
                    VmSpec.clone c <> EmptyString /\ VmSpec.absVM c <> EmptyString)
    (VmSpec.toClone h baseDir vmPath).
Proof.
  unfold VmSpec.toClone.
  apply Returns_bind_any. intros [e|logFile]; [apply Returns_ret; discriminate|].
  apply Returns_bind_any. intros _.
  destruct (String.eqb_spec vmPath EmptyString) as [Z|Z].
  - apply Returns_bind_any. intros _.
    eapply Returns_bind; [apply EnsureQEMU_found|].
    intros [absVM [e|]] Hv; cbn [fst snd] in Hv; [apply Returns_ret; discriminate|].
    apply Returns_bind_any. intros [e|]; [apply Returns_ret; discriminate|].
    intros t c E. destruct (cloneSteps_named h baseDir logFile absVM true t c E) as [A B].
    split; [exact A|]. rewrite B. now apply Hv.
  - eapply Returns_bind; [apply Abs_nonempty, Z|].
    intros [absVM [e|]] Hv; cbn [fst snd] in Hv; [apply Returns_ret; discriminate|].
    apply Returns_bind_any. intros [e|]; [apply Returns_ret; discriminate|].
    apply Returns_bind_any. intros [e|]; [apply Returns_ret; discriminate|].
    intros t c E. destruct (cloneSteps_named h baseDir logFile absVM false t c E) as [A B].
    split; [exact A|]. rewrite B. now apply Hv.
Qed.

Lemma toClone_no_warning (h : Host) (baseDir vmPath : string) :
  Emits notStderr (VmSpec.toClone h baseDir vmPath).
Proof. unfold VmSpec.toClone, VmSpec.cloneSteps. emits. Qed.

Lemma Run_cloned_quiet (h : Host) (baseDir : string) (logFile : File) (absVM : string)
  (bundled : bool) (iso clone : string) (args : list string) :
  Emits (fun e => notFs e /\ notStderr e)
    (vmtest.Run_cloned h baseDir logFile absVM bundled iso clone args).
Proof. unfold vmtest.Run_cloned, vmtest.launchArgs. emits. Qed.

(** The deferred deletion: one removal, then a warning or a console line. *)
Lemma deleteClone_events (h : Host) (baseDir clone : string) (t : Trace) :
  clone <> EmptyString ->
  fsops (events (vmtest.deleteClone h baseDir clone) t) = [RemoveAll clone]
  /\ warnings (events (vmtest.deleteClone h baseDir clone) t)
     = match host_fs h t (RemoveAll clone) with
       | Some e => if IsNotExist e then [] else [VmSpec.deleteWarning clone e]
       | None => []
       end.
Proof.
  intros N. unfold vmtest.deleteClone, fsutil.RemoveIfExists.
  destruct (String.eqb_spec clone EmptyString); [contradiction|].
  rewrite !events_bind, !result_bind. unfold fsutil.fsop.
  rewrite result_request, events_request.
  destruct (host_fs h t (RemoveAll clone)) as [e|].
  - destruct (IsNotExist e); rewrite result_ret, events_ret; cbn [app].
    + unfold output.Printf. destruct (quiet h); split; reflexivity.
    + split; reflexivity.
  - rewrite result_ret, events_ret; cbn [app].
    unfold output.Printf. destruct (quiet h); split; reflexivity.
Qed.

Lemma Run_cloned_process_failed (h : Host) (baseDir : string) (logFile : File)
  (absVM : string) (bundled : bool) (iso clone : string) (args : list string)
  (t : Trace) (p : Process) :
  let choose := vmtest.launchArgs h absVM bundled iso clone args in
  absVM <> EmptyString ->
  RunnerSpec.behaviour h (vmtest.vmOpts baseDir logFile) absVM
    (result choose t) (t ++ events choose t) = Starts p ->
  runtime p < vmtest.vmRunTimeout -> exitStatus p <> 0 ->
  result (vmtest.Run_cloned h baseDir logFile absVM bundled iso clone args) t
  = Some (Wrap "vm execution failed: "
            (RunnerSpec.processFailed (exitStatus p)
               (sysutil.commandString absVM (result choose t)))).
Proof.
  intros choose N B Hlt Hne. unfold vmtest.Run_cloned. fold choose.
  rewrite !result_bind. rewrite (RunCommand_result h _ absVM _ _ N). rewrite B.
  unfold RunnerSpec.conclude. cbn [sysutil.Timeout vmtest.vmOpts].
  change (0 <? vmtest.vmRunTimeout) with true. cbv iota.
  cbn [sysutil.cmdRun].
  assert (Hle : (vmtest.vmRunTimeout <=? runtime p) = false) by (apply Z.leb_gt; lia).
  rewrite Hle. cbn [sysutil.exited sysutil.elapsed sysutil.ctxErr sysutil.runErr].
  rewrite Hle.
  assert (Hz : (exitStatus p =? 0) = false) by (apply Z.eqb_neq; exact Hne).
  rewrite Hz. reflexivity.
Qed.

(** C6: in every run of the smoke test in which the clone was made, the
    clone is deleted exactly once, after the launch, whether the launch
    succeeded or failed; [Run] returns what the launch returned, for a
    launch that exits with a non-zero status the process-failed error; and
    a deletion that fails leaves a warning on the standard error, never an
    error of [Run]. *)
Theorem Run_deletes_clone (h : Host) (baseDir vmPath : string) (args : list string)
  (t : Trace) (c : VmSpec.cloned) :
  result (VmSpec.toClone h baseDir vmPath) t = Some c ->
  VmSpec.CloneDeleted h baseDir vmPath args t c.
Proof.
  intros E.
  destruct (toClone_named h baseDir vmPath t c E) as [Nc Nv].
  pose proof (Run_at_clone h baseDir vmPath args t c E) as R. cbv zeta in R.
  unfold VmSpec.CloneDeleted. cbv zeta.
  set (launch := vmtest.Run_cloned h baseDir (VmSpec.logFile c) (VmSpec.absVM c)
                   (VmSpec.usingBundledQEMU c) (VmSpec.isoPath baseDir)
                   (VmSpec.clone c) args) in *.
  set (t1 := t ++ events (VmSpec.toClone h baseDir vmPath) t) in *.
  set (t2 := t1 ++ events launch t1) in *.
  destruct (deleteClone_events h baseDir (VmSpec.clone c) t2 Nc) as [Df Dw].
  pose proof (Run_cloned_quiet h baseDir (VmSpec.logFile c) (VmSpec.absVM c)
                (VmSpec.usingBundledQEMU c) (VmSpec.isoPath baseDir)
                (VmSpec.clone c) args t1) as Q.
  fold launch in Q.
  assert (Qf : fsops (events launch t1) = []).
  { apply fsops_none. eapply Forall_impl; [|exact Q]. intros e [H _]. exact H. }
  assert (Qw : warnings (events launch t1) = []).
  { apply warnings_none. eapply Forall_impl; [|exact Q]. intros e [_ H]. exact H. }
  assert (Ev : events (vmtest.Run h baseDir vmPath args) t
               = events (VmSpec.toClone h baseDir vmPath) t ++ events launch t1
                 ++ events (vmtest.deleteClone h baseDir (VmSpec.clone c)) t2
                 ++ [EvFs (Close (VmSpec.logFile c))])
    by (unfold events at 1; now rewrite R).
  assert (Res : result (vmtest.Run h baseDir vmPath args) t = result launch t1)
    by (unfold result at 1; now rewrite R).
  split; [exact Ev|]. split; [|split; [exact Res|split]].
  - rewrite !fsops_app, Qf, Df. reflexivity.
  - rewrite Ev, !warnings_app, Qw, Dw.
    rewrite (warnings_none _ (toClone_no_warning h baseDir vmPath t)).
    cbn [app warnings]. now rewrite app_nil_r.
  - intros p B Hlt Hne. rewrite Res. subst launch.
    apply Run_cloned_process_failed; assumption.
Qed.

Lemma Run_deletes_clone_witness :
  result (VmSpec.toClone Lab.vmFails Lab.baseDir Lab.customVM) [] = Some Lab.testClone
  /\ VmSpec.CloneDeleted Lab.vmFails Lab.baseDir Lab.customVM [] [] Lab.testClone.
Proof.
  split; [reflexivity|].
  apply (Run_deletes_clone Lab.vmFails Lab.baseDir Lab.customVM [] [] Lab.testClone).
  reflexivity.
Defined.

(** C9, as the specification words it, fails: a path that is there and is
    no regular file (here a named pipe) passes the check; the run goes on,
    clones the disk, and fails only when the launch does. *)
Lemma non_regular_vm_path_passes :
  let run := vmtest.Run Lab.pipeVM Lab.baseDir Lab.customVM [] in
  host_stat Lab.pipeVM [] Lab.customVM = inr NamedPipe
  /\ IsRegular NamedPipe = false
  /\ result (vmtest.ensureFileExists Lab.pipeVM Lab.customVM "VM executable") [] = None
  /\ In (OpenWrite (VmSpec.clone Lab.testClone)) (fsops (events run []))
  /\ result run []
     = Some (Wrap "vm execution failed: "
               (RunnerSpec.launchFailed
                  (OsError "fork/exec /opt/vm/run-vm: permission denied" false))).
Proof.
  intros run. split; [reflexivity|]. split; [reflexivity|]. split; [reflexivity|].
  split; [|reflexivity].
  vm_compute. tauto.
Qed.

(** C9 (amended): in every run with a non-empty path given by the caller,
    once the log file is open and the path is resolved to an absolute
    path, that path is looked up before any further step: when it is not
    there, or is a directory, or cannot be looked up, the run ends there
    with the error that says so (not found, points to a directory, or the
    error of the lookup); every other path, a regular file or not, passes,
    and the run goes on with the check of the ISO. *)
Theorem Run_verifies_vm_path (h : Host) (baseDir vmPath : string) (args : list string)
  (t : Trace) (logFile : File) (absVM : string) :
  vmPath <> EmptyString ->
  result (VmSpec.toVmCheck h baseDir vmPath) t = Some (logFile, absVM) ->
  VmSpec.VmVerified h baseDir vmPath args t logFile absVM.
Proof.
  intros N E.
  pose proof (Run_at_vm_check h baseDir vmPath args t logFile absVM N E) as R.
  cbv zeta in R. unfold VmSpec.VmVerified. cbv zeta.
  set (t1 := t ++ events (VmSpec.toVmCheck h baseDir vmPath) t) in *.
  assert (V : vmtest.ensureFileExists h absVM "VM executable" t1
              = (match host_stat h t1 absVM with
                 | inl e =>
                     Some (if IsNotExist e then VmSpec.notFound "VM executable" absVM
                           else Wrap "stat VM executable: " e)
                 | inr mode =>
                     if IsDir mode then Some (VmSpec.isDirectory "VM executable" absVM)
                     else None
                 end, [EvStat absVM])).
  { unfold vmtest.ensureFileExists, fsutil.Stat, bind, request, ret. cbv beta.
    destruct (host_stat h t1 absVM) as [e|mode]; cbv beta iota.
    - destruct (IsNotExist e); reflexivity.
    - destruct (IsDir mode); reflexivity. }
  assert (Vr := f_equal fst V). assert (Ve := f_equal snd V). cbn [fst snd] in Vr, Ve.
  fold (result (vmtest.ensureFileExists h absVM "VM executable") t1) in Vr.
  fold (events (vmtest.ensureFileExists h absVM "VM executable") t1) in Ve.
  rewrite Vr, Ve in R.
  destruct (host_stat h t1 absVM) as [e|mode].
  - unfold result at 1, events at 1. rewrite R. split; reflexivity.
  - destruct (IsDir mode).
    + unfold result at 1, events at 1. rewrite R. split; reflexivity.
    + unfold result at 1, events at 1. rewrite R. split; reflexivity.
Qed.

Lemma Run_verifies_vm_path_witness :
  (Lab.customVM <> EmptyString
   /\ result (VmSpec.toVmCheck Lab.noVM Lab.baseDir Lab.customVM) []
      = Some (Lab.testLog, Lab.customVM)
   /\ VmSpec.VmVerified Lab.noVM Lab.baseDir Lab.customVM [] [] Lab.testLog Lab.customVM
   /\ result (vmtest.Run Lab.noVM Lab.baseDir Lab.customVM []) []
      = Some (VmSpec.notFound "VM executable" Lab.customVM))
  /\ (VmSpec.VmVerified Lab.dirVM Lab.baseDir Lab.customVM [] [] Lab.testLog Lab.customVM
      /\ result (vmtest.Run Lab.dirVM Lab.baseDir Lab.customVM []) []
         = Some (VmSpec.isDirectory "VM executable" Lab.customVM)).
Proof.
  assert (N : Lab.customVM <> EmptyString) by discriminate.
  split.
  - split; [exact N|]. split; [reflexivity|]. split; [|reflexivity].
    exact (Run_verifies_vm_path Lab.noVM Lab.baseDir Lab.customVM [] []
             Lab.testLog Lab.customVM N eq_refl).
  - split; [|reflexivity].
    exact (Run_verifies_vm_path Lab.dirVM Lab.baseDir Lab.customVM [] []
             Lab.testLog Lab.customVM N eq_refl).
Defined.

(** ** The archive extractor *)

(** C10 fails on the code: the containment check of [extractZip] compares
    the cleaned paths as strings, so an entry that climbs out of the
    destination into a sibling directory whose name begins with the name
    of the destination passes it: the extraction succeeds and the file is
    written outside the destination; an entry that climbs out elsewhere
    is refused. *)
Theorem extractZip_writes_beside_destination :
  let run := deps.extractZip Lab.siblingArchive "/srv/base/cache/qemu.zip"
               ArchiveSpec.qemuDir in
  let target := "/srv/base/tools/qemu-evil/payload.exe" in
  filepath.Join [ArchiveSpec.qemuDir; "../qemu-evil/payload.exe"] = target
  /\ ArchiveSpec.within ArchiveSpec.qemuDir target = false
  /\ strings.HasPrefix (filepath.Clean target) (filepath.Clean ArchiveSpec.qemuDir) = true
  /\ result run [] = None
  /\ fsops (events run [])
     = [MkdirAll "/srv/base/tools/qemu-evil"; OpenWrite target;
        CopyBytes target "../qemu-evil/payload.exe"; Close target]
  /\ result (deps.extractEntry Lab.calm ArchiveSpec.qemuDir
               {| Name := "../../etc/payload.exe"; entryIsDir := false;
                  entryOpen := None |}) []
     = Some (New "unsafe path in archive: ../../etc/payload.exe").
Proof. repeat split; reflexivity. Qed.

(** ** More of the process runner *)

Lemma ReplaceAll_no_leading_quote (s r : string) :
  strings.ReplaceAll s strings.dquote
    (String strings.backslash (String strings.dquote EmptyString))
  <> String strings.dquote r.
Proof.
  destruct s as [|c s]; simpl; [discriminate|].
  destruct (Ascii.eqb_spec c strings.dquote) as [->|N]; simpl.
  - discriminate.
  - intros E. injection E as E _. contradiction.
Qed.

Lemma ReplaceAll_injective (a b : string) :
  strings.ReplaceAll a strings.dquote
    (String strings.backslash (String strings.dquote EmptyString))
  = strings.ReplaceAll b strings.dquote
      (String strings.backslash (String strings.dquote EmptyString)) ->
  a = b.
Proof.
  revert b. induction a as [|c a IH]; intros [|d b]; simpl.
  - reflexivity.
  - destruct (Ascii.eqb d strings.dquote); discriminate.
  - destruct (Ascii.eqb c strings.dquote); discriminate.
  - destruct (Ascii.eqb_spec c strings.dquote) as [->|Nc],
      (Ascii.eqb_spec d strings.dquote) as [->|Nd]; simpl; intros E.
    + injection E as E. f_equal. now apply IH.
    + injection E as E1 E2. symmetry in E2.
      now apply ReplaceAll_no_leading_quote in E2.
    + injection E as E1 E2. now apply ReplaceAll_no_leading_quote in E2.
    + injection E as -> E. f_equal. now apply IH.
Qed.

Lemma append_cancel_r (a b c : string) : a ^^ c = b ^^ c -> a = b.
Proof.
  revert b. induction a as [|x a IH]; intros [|y b]; simpl; intros E.
  - reflexivity.
  - exfalso. apply (f_equal String.length) in E. simpl in E.
    rewrite length_append in E. lia.
  - exfalso. apply (f_equal String.length) in E. simpl in E.
    rewrite length_append in E. lia.
  - injection E as -> E. f_equal. now apply IH.
Qed.

Lemma hasBlankOrQuote_head (r : string) :
  RunnerSpec.hasBlankOrQuote (String strings.dquote r) = true.
Proof. reflexivity. Qed.

Lemma shellQuote_inj (a b : string) :
  sysutil.shellQuote a = sysutil.shellQuote b -> a = b.
Proof.
  rewrite !shellQuote_cases. unfold RunnerSpec.emptyToken, RunnerSpec.quoted.
  destruct (String.eqb_spec a EmptyString) as [->|Na],
    (String.eqb_spec b EmptyString) as [->|Nb]; [reflexivity| | |].
  - destruct (RunnerSpec.hasBlankOrQuote b) eqn:Hb; intros E.
    + injection E as E. destruct b as [|d b]; [contradiction|]. exfalso.
      simpl in E. destruct (Ascii.eqb d strings.dquote); simpl in E.
      * injection E as E _. discriminate E.
      * injection E as _ E. destruct (strings.ReplaceAll b _ _); discriminate E.
    + subst b. discriminate Hb.
  - destruct (RunnerSpec.hasBlankOrQuote a) eqn:Ha; intros E.
    + injection E as E. destruct a as [|c a]; [contradiction|]. exfalso.
      simpl in E. destruct (Ascii.eqb c strings.dquote); simpl in E.
      * injection E as E _. discriminate E.
      * injection E as _ E. destruct (strings.ReplaceAll a _ _); discriminate E.
    + subst a. discriminate Ha.
  - destruct (RunnerSpec.hasBlankOrQuote a) eqn:Ha,
      (RunnerSpec.hasBlankOrQuote b) eqn:Hb; intros E.
    + injection E as E. apply append_cancel_r in E. now apply ReplaceAll_injective.
    + subst b. rewrite hasBlankOrQuote_head in Hb. discriminate Hb.
    + subst a. rewrite hasBlankOrQuote_head in Ha. discriminate Ha.
    + exact E.
Qed.

(** X1: the rendering of one word of a command line can be read back:
    two different words never render the same. *)
Theorem shellQuote_distinct (a b : string) :
  a <> b -> sysutil.shellQuote a <> sysutil.shellQuote b.
Proof. intros N E. apply N. now apply shellQuote_inj. Qed.

Lemma shellQuote_distinct_witness :
  "a b" <> "a" /\ sysutil.shellQuote "a b" <> sysutil.shellQuote "a".
Proof.
  split; [discriminate|]. apply (shellQuote_distinct "a b" "a"). discriminate.
Defined.

(** X2: [RunCommand] with a command name always returns a result that
    carries the rendered command line.  A command that cannot be started
    gives the launch-failed error around the cause, with exit code 0 and
    no output in the result.  A command that ends before its deadline, or
    has none, gives no error when its exit status is 0, and otherwise the
    process-failed error that names the status; the result holds the
    status, the run time and the whole output. *)
Theorem RunCommand_outcome (h : Host) (opts : sysutil.RunOptions) (name : string)
  (args : list string) (t : Trace) :
  name <> EmptyString ->
  let out := result (sysutil.RunCommand h opts name args) t in
  let cmdLine := sysutil.commandString name args in
  exists r,
    fst out = Some r
    /\ sysutil.Command r = cmdLine
    /\ match RunnerSpec.behaviour h opts name args t with
       | StartFails cause =>
           snd out = Some (RunnerSpec.launchFailed cause)
           /\ sysutil.ExitCode r = 0
           /\ sysutil.Stdout_ r = EmptyString
           /\ sysutil.Stderr_ r = EmptyString
           /\ sysutil.TimedOut r = false
       | Starts p =>
           sysutil.Timeout opts <= 0 \/ runtime p < sysutil.Timeout opts ->
           snd out
           = (if exitStatus p =? 0 then None
              else Some (RunnerSpec.processFailed (exitStatus p) cmdLine))
           /\ sysutil.ExitCode r = exitStatus p
           /\ sysutil.Duration_ r = runtime p
           /\ sysutil.Stdout_ r = stdoutBy p (runtime p)
           /\ sysutil.Stderr_ r = stderrBy p (runtime p)
           /\ sysutil.TimedOut r = false
       end.
Proof.
  intros N out cmdLine. subst out.
  rewrite (RunCommand_result h opts name args t N). fold cmdLine.
  destruct (RunnerSpec.behaviour h opts name args t) as [cause|p].
  - unfold RunnerSpec.conclude. cbn [sysutil.cmdRun sysutil.elapsed sysutil.runErr
      sysutil.ProcessState sysutil.outBytes sysutil.errBytes].
    destruct (0 <? sysutil.Timeout opts) eqn:T; cbn [sysutil.ctxErr].
    + apply Z.ltb_lt in T.
      destruct (sysutil.Timeout opts <=? 0) eqn:L; [apply Z.leb_le in L; lia|].
      eexists. cbn. repeat split; reflexivity.
    + eexists. cbn. repeat split; reflexivity.
  - unfold RunnerSpec.conclude.
    destruct (0 <? sysutil.Timeout opts) eqn:T; cbn [sysutil.cmdRun sysutil.ctxErr].
    + destruct (sysutil.Timeout opts <=? runtime p) eqn:L.
      * cbn. rewrite Z.leb_refl. eexists. split; [reflexivity|]. split; [reflexivity|].
        intros [B|B]; apply Z.leb_le in L; apply Z.ltb_lt in T; lia.
      * cbn. rewrite L.
        destruct (exitStatus p =? 0); eexists; cbn; repeat split; reflexivity.
    + cbn. destruct (exitStatus p =? 0); eexists; cbn; repeat split; reflexivity.
Qed.

Lemma RunCommand_outcome_witness :
  "podman" <> EmptyString
  /\ exists r,
       fst (result (sysutil.RunCommand Lab.stuckMachine (Lab.plainOpts (5 * Second))
                      "podman" ["machine"; "stop"; "vm"]) []) = Some r
       /\ snd (result (sysutil.RunCommand Lab.stuckMachine (Lab.plainOpts (5 * Second))
                         "podman" ["machine"; "stop"; "vm"]) [])
          = Some (RunnerSpec.processFailed 125 "podman machine stop vm")
       /\ sysutil.ExitCode r = 125.
Proof.
  split; [discriminate|].
  destruct (RunCommand_outcome Lab.stuckMachine (Lab.plainOpts (5 * Second))
              "podman" ["machine"; "stop"; "vm"] []) as [r [E [_ K]]];
    [discriminate|].
  exists r. split; [exact E|].
  cbn in K. destruct K as [K1 [K2 _]]; [right; reflexivity|]. split; assumption.
Defined.

(** ** Loops that stop at the first error *)

Lemma forEach_cons {A : Type} (x : A) (xs : list A) (body : A -> M (option error))
  (t : Trace) :
  result (deps.forEach (x :: xs) body) t
  = match result (body x) t with
    | Some e => Some e
    | None => result (deps.forEach xs body) (t ++ events (body x) t)
    end
  /\ events (deps.forEach (x :: xs) body) t
     = events (body x) t
       ++ match result (body x) t with
          | Some _ => []
          | None => events (deps.forEach xs body) (t ++ events (body x) t)
          end.
Proof.
  cbn [deps.forEach]. unfold check. rewrite result_bind, events_bind.
  destruct (result (body x) t) as [e|]; split; reflexivity.
Qed.

Lemma forEach_app {A : Type} (xs ys : list A) (body : A -> M (option error))
  (t : Trace) :
  result (deps.forEach (xs ++ ys) body) t
  = match result (deps.forEach xs body) t with
    | Some e => Some e
    | None => result (deps.forEach ys body) (t ++ events (deps.forEach xs body) t)
    end
  /\ events (deps.forEach (xs ++ ys) body) t
     = events (deps.forEach xs body) t
       ++ match result (deps.forEach xs body) t with
          | Some _ => []
          | None => events (deps.forEach ys body) (t ++ events (deps.forEach xs body) t)
          end.
Proof.
  revert t. induction xs as [|x xs IH]; intros t.
  - cbn [app]. change (result (deps.forEach [] body) t) with (@None error).
    change (events (deps.forEach [] body) t) with (@nil Event).
    rewrite app_nil_r. split; reflexivity.
  - cbn [app].
    destruct (forEach_cons x (xs ++ ys) body t) as [R E]. rewrite R, E.
    destruct (forEach_cons x xs body t) as [R' E']. rewrite R', E'.
    destruct (result (body x) t) as [e|].
    + rewrite !app_nil_r. split; reflexivity.
    + destruct (IH (t ++ events (body x) t)) as [RI EI]. rewrite RI, EI.
      destruct (result (deps.forEach xs body) (t ++ events (body x) t)) as [e|].
      * rewrite !app_nil_r. split; reflexivity.
      * rewrite <- !app_assoc. split; reflexivity.
Qed.

(** The loop over [xs ++ x :: ys] when [xs] passes and [x] fails. *)
Lemma forEach_stops {A : Type} (xs ys : list A) (x : A) (body : A -> M (option error))
  (t : Trace) (e : error) :
  result (deps.forEach xs body) t = None ->
  result (body x) (t ++ events (deps.forEach xs body) t) = Some e ->
  result (deps.forEach (xs ++ x :: ys) body) t = Some e
  /\ events (deps.forEach (xs ++ x :: ys) body) t
     = events (deps.forEach xs body) t
       ++ events (body x) (t ++ events (deps.forEach xs body) t).
Proof.
  intros Hx He. destruct (forEach_app xs (x :: ys) body t) as [R E].
  rewrite R, E, Hx.
  destruct (forEach_cons x ys body (t ++ events (deps.forEach xs body) t)) as [R' E'].
  rewrite R', E', He, app_nil_r. split; reflexivity.
Qed.

(** ** Archives *)

Lemma extractEntry_extracts (h : Host) (dest : string) (file : ZipEntry) :
  Emits (onFs (FilesSpec.extracts dest)) (deps.extractEntry h dest file).
Proof.
  unfold deps.extractEntry.
  destruct (strings.HasPrefix _ _) eqn:P; cbn [negb]; [|apply Emits_ret].
  emits; exact P.
Qed.

(** X3: whatever the archive holds, [extractZip] creates and fills only
    files whose cleaned path starts with the cleaned destination, and it
    never removes or renames anything. *)
Theorem extractZip_extracts (h : Host) (zipPath dest : string) :
  Emits (onFs (FilesSpec.extracts dest)) (deps.extractZip h zipPath dest).
Proof.
  unfold deps.extractZip. apply Emits_bind.
  - apply Emits_request. exact I.
  - intros [e|files]; [apply Emits_ret|].
    apply Emits_forEach. intros file. apply extractEntry_extracts.
Qed.

(** X4: [extractZip] stops at the first entry that fails, with the error
    of that entry: what the entries before it created stays in place, and
    the entries after it are not looked at. *)
Theorem extractZip_stops_at_first_failure (h : Host) (zipPath dest : string)
  (t : Trace) (before after : list ZipEntry) (bad : ZipEntry) (e : error) :
  let t1 := t ++ [EvZipOpen zipPath] in
  let done := deps.forEach before (deps.extractEntry h dest) in
  host_zip h t zipPath = inr (before ++ bad :: after) ->
  result done t1 = None ->
  result (deps.extractEntry h dest bad) (t1 ++ events done t1) = Some e ->
  result (deps.extractZip h zipPath dest) t = Some e
  /\ events (deps.extractZip h zipPath dest) t
     = [EvZipOpen zipPath] ++ events done t1
       ++ events (deps.extractEntry h dest bad) (t1 ++ events done t1).
Proof.
  intros t1 done Hz Hd He. unfold deps.extractZip.
  rewrite result_bind, events_bind, result_request, events_request, Hz.
  fold t1.
  destruct (forEach_stops before after bad (deps.extractEntry h dest) t1 e Hd He)
    as [R E].
  rewrite R, E. split; reflexivity.
Qed.

Lemma extractZip_stops_at_first_failure_witness :
  let dest := ArchiveSpec.qemuDir in
  events (deps.extractZip Bench.mixedArchive "/srv/base/cache/qemu.zip" dest) []
  = [EvZipOpen "/srv/base/cache/qemu.zip";
     EvFs (MkdirAll "/srv/base/tools/qemu/bin");
     EvFs (OpenWrite "/srv/base/tools/qemu/bin/qemu-img.exe");
     EvFs (CopyBytes "/srv/base/tools/qemu/bin/qemu-img.exe" "bin/qemu-img.exe");
     EvFs (Close "/srv/base/tools/qemu/bin/qemu-img.exe")]
  /\ result (deps.extractZip Bench.mixedArchive "/srv/base/cache/qemu.zip" dest) []
     = Some (New "unsafe path in archive: ../../evil.exe").
Proof.
  intros dest.
  destruct (extractZip_stops_at_first_failure Bench.mixedArchive
              "/srv/base/cache/qemu.zip" dest []
              [Bench.entry "bin/qemu-img.exe"] [Bench.entry "bin/qemu-system-x86_64.exe"]
              (Bench.entry "../../evil.exe")
              (New "unsafe path in archive: ../../evil.exe")) as [R E];
    [reflexivity | reflexivity | reflexivity |].
  split; [rewrite E; reflexivity | exact R].
Defined.

(** ** The base layout *)

Lemma EnsureDir_run (h : Host) (path : string) (t : Trace) :
  path <> EmptyString ->
  result (fsutil.EnsureDir h path) t = host_fs h t (MkdirAll path)
  /\ events (fsutil.EnsureDir h path) t = [EvFs (MkdirAll path)].
Proof.
  intros N. unfold fsutil.EnsureDir.
  destruct (String.eqb_spec path EmptyString); [contradiction|]. split; reflexivity.
Qed.

Lemma forEach_EnsureDir {A : Type} (h : Host) (f : A -> string) (xs : list A)
  (t : Trace) :
  Forall (fun x => f x <> EmptyString) xs ->
  let run := deps.forEach xs (fun x => fsutil.EnsureDir h (f x)) in
  exists n,
    (n <= length xs)%nat
    /\ fsops (events run t) = map MkdirAll (firstn n (map f xs))
    /\ (result run t = None -> n = length xs).
Proof.
  intros Hne. cbv zeta. revert t.
  induction Hne as [|x xs Hx _ IH]; intros t.
  - exists 0%nat. repeat split; auto.
  - destruct (forEach_cons x xs (fun x => fsutil.EnsureDir h (f x)) t) as [R E].
    rewrite R, E. destruct (EnsureDir_run h (f x) t Hx) as [Rx Ex]. rewrite Rx, Ex.
    destruct (host_fs h t (MkdirAll (f x))) as [e|].
    + exists 1%nat. cbn. repeat split; [lia | discriminate].
    + destruct (IH (t ++ [EvFs (MkdirAll (f x))])) as [n [Hn [Ho Hr]]].
      exists (S n). cbn [length firstn map]. rewrite fsops_app, Ho.
      repeat split; [lia|]. intros K. now rewrite (Hr K).
Qed.

Lemma layout_nonempty (baseDir : string) :
  Forall (fun rel => filepath.Join [baseDir; filepath.FromSlash rel] <> EmptyString)
    deps.baseDirs.
Proof.
  unfold deps.baseDirs.
  repeat (constructor; [apply Join_under_nonempty; reflexivity|]). constructor.
Qed.

Lemma allCreated_tail (h : Host) (t : Trace) (p : string) (paths : list string) :
  FilesSpec.allCreated h t (p :: paths) ->
  host_fs h t (MkdirAll p) = None
  /\ FilesSpec.allCreated h (t ++ [EvFs (MkdirAll p)]) paths.
Proof.
  intros H. split.
  - specialize (H [] p paths eq_refl). cbn in H. now rewrite app_nil_r in H.
  - intros done q rest ->. specialize (H (p :: done) q rest eq_refl).
    cbn in H. now rewrite <- app_assoc.
Qed.

Lemma allCreated_always (h : Host) (t : Trace) (paths : list string) :
  (forall t' p, In p paths -> host_fs h t' (MkdirAll p) = None) ->
  FilesSpec.allCreated h t paths.
Proof.
  intros H done p rest ->. apply H, in_elt.
Qed.

(** The loop over directories that can all be created. *)
Lemma forEach_EnsureDir_all {A : Type} (h : Host) (f : A -> string) (xs : list A)
  (t : Trace) :
  Forall (fun x => f x <> EmptyString) xs ->
  FilesSpec.allCreated h t (map f xs) ->
  let run := deps.forEach xs (fun x => fsutil.EnsureDir h (f x)) in
  result run t = None /\ events run t = FilesSpec.asked (map f xs).
Proof.
  intros Hne. cbv zeta. revert t.
  induction Hne as [|x xs Hx _ IH]; intros t Hall.
  - split; reflexivity.
  - cbn [map] in Hall. apply allCreated_tail in Hall. destruct Hall as [H0 Hall].
    destruct (forEach_cons x xs (fun x => fsutil.EnsureDir h (f x)) t) as [R E].
    rewrite R, E. destruct (EnsureDir_run h (f x) t Hx) as [Rx Ex].
    rewrite Rx, Ex, H0.
    destruct (IH _ Hall) as [RI EI]. rewrite RI, EI. split; reflexivity.
Qed.

(** The loop over directories of which the first that cannot be created
    is [x]. *)
Lemma forEach_EnsureDir_stops {A : Type} (h : Host) (f : A -> string)
  (xs ys : list A) (x : A) (t : Trace) (e : error) :
  Forall (fun x => f x <> EmptyString) xs -> f x <> EmptyString ->
  FilesSpec.allCreated h t (map f xs) ->
  host_fs h (t ++ FilesSpec.asked (map f xs)) (MkdirAll (f x)) = Some e ->
  let run := deps.forEach (xs ++ x :: ys) (fun x => fsutil.EnsureDir h (f x)) in
  result run t = Some e /\ events run t = FilesSpec.asked (map f (xs ++ [x])).
Proof.
  intros Hne Hx Hall Hbad. cbv zeta.
  destruct (forEach_EnsureDir_all h f xs t Hne Hall) as [R E].
  destruct (EnsureDir_run h (f x) (t ++ FilesSpec.asked (map f xs)) Hx) as [Rx Ex].
  rewrite Hbad in Rx. rewrite <- E in Rx, Ex.
  destruct (forEach_stops xs ys x (fun x => fsutil.EnsureDir h (f x)) t e R Rx)
    as [R' E'].
  rewrite R', E', Ex, E. split; [reflexivity|].
  unfold FilesSpec.asked. rewrite !map_app. reflexivity.
Qed.

(** X5: [EnsureBaseLayout] asks for the thirteen directories of the
    layout in the order of the list and changes nothing else: the
    requests are always the first ones of the layout, all thirteen when no
    error is returned.  It stops at the first directory that cannot be
    created: when the host lets the directories before [bad] be created
    and answers the request for [bad] with an error, that error is
    returned and the requests are those up to [bad], none after it.  When
    the host lets every directory be created, all thirteen are asked for,
    the line is written to the log, and no error is returned. *)
Theorem EnsureBaseLayout_creates (h : Host) (baseDir : string)
  (logger : sysutil.Logger) (t : Trace) :
  let run := deps.EnsureBaseLayout h baseDir logger in
  (exists n,
     (n <= 13)%nat
     /\ fsops (events run t) = map MkdirAll (firstn n (FilesSpec.layout baseDir))
     /\ (result run t = None -> n = 13%nat))
  /\ (forall before bad after e,
        FilesSpec.layout baseDir = before ++ bad :: after ->
        FilesSpec.allCreated h t before ->
        host_fs h (t ++ FilesSpec.asked before) (MkdirAll bad) = Some e ->
        result run t = Some e
        /\ events run t = FilesSpec.asked (before ++ [bad]))
  /\ (FilesSpec.allCreated h t (FilesSpec.layout baseDir) ->
      result run t = None
      /\ events run t
         = FilesSpec.asked (FilesSpec.layout baseDir)
           ++ match logger with
              | Some f => [EvLog f ("base layout verified at " ^^ baseDir)]
              | None => []
              end).
Proof.
  cbv zeta. unfold deps.EnsureBaseLayout, check.
  rewrite events_bind, result_bind.
  set (f := fun rel => filepath.Join [baseDir; filepath.FromSlash rel]).
  change (deps.forEach deps.baseDirs _)
    with (deps.forEach deps.baseDirs (fun x => fsutil.EnsureDir h (f x))).
  split; [|split].
  - destruct (forEach_EnsureDir h f deps.baseDirs t (layout_nonempty baseDir))
      as [n [Hn [Ho Hr]]].
    exists n. split; [exact Hn|].
    rewrite fsops_app, Ho. fold (FilesSpec.layout baseDir).
    destruct (result _ t) as [e|].
    + rewrite events_ret, result_ret, app_nil_r. split; [reflexivity | discriminate].
    + split.
      * rewrite events_bind, fsops_app, events_ret.
        destruct logger; cbn; now rewrite app_nil_r.
      * intros _. now apply Hr.
  - intros before bad after e L Hall Hbad.
    unfold FilesSpec.layout in L. fold f in L.
    apply map_eq_app in L. destruct L as (xs & rest & Hxs & <- & Hrest).
    apply map_eq_cons in Hrest. destruct Hrest as (x & ys & -> & <- & _).
    pose proof (layout_nonempty baseDir) as Hne. fold f in Hne.
    rewrite Hxs in Hne. apply Forall_app in Hne. destruct Hne as [Hne Hx].
    apply Forall_cons_iff in Hx. destruct Hx as [Hx _].
    destruct (forEach_EnsureDir_stops h f xs ys x t e Hne Hx Hall Hbad) as [R E].
    cbv zeta in R, E. rewrite Hxs, R, E, result_ret, events_ret, app_nil_r.
    rewrite map_app. split; reflexivity.
  - intros Hall.
    destruct (forEach_EnsureDir_all h f deps.baseDirs t (layout_nonempty baseDir) Hall)
      as [R E].
    cbv zeta in R, E. rewrite R, E. fold (FilesSpec.layout baseDir).
    rewrite result_bind, events_bind, result_ret, events_ret, app_nil_r.
    split; [reflexivity|]. destruct logger; reflexivity.
Qed.

Lemma EnsureBaseLayout_creates_witness :
  let run := deps.EnsureBaseLayout Bench.readOnlyImages "/srv/base" None in
  (FilesSpec.allCreated Bench.readOnlyImages []
     ["/srv/base/tools"; "/srv/base/tools/podman"; "/srv/base/tools/qemu";
      "/srv/base/templates"]
   /\ host_fs Bench.readOnlyImages
        (FilesSpec.asked ["/srv/base/tools"; "/srv/base/tools/podman";
                          "/srv/base/tools/qemu"; "/srv/base/templates"])
        (MkdirAll "/srv/base/images")
      = Some (OsError "mkdir /srv/base/images: read-only file system" false)
   /\ result run []
      = Some (OsError "mkdir /srv/base/images: read-only file system" false)
   /\ events run []
      = FilesSpec.asked ["/srv/base/tools"; "/srv/base/tools/podman";
                         "/srv/base/tools/qemu"; "/srv/base/templates";
                         "/srv/base/images"])
  /\ (FilesSpec.allCreated Lab.calm [] (FilesSpec.layout "/srv/base")
      /\ result (deps.EnsureBaseLayout Lab.calm "/srv/base" None) [] = None
      /\ events (deps.EnsureBaseLayout Lab.calm "/srv/base" None) []
         = FilesSpec.asked (FilesSpec.layout "/srv/base")).
Proof.
  intros run.
  assert (Hall : FilesSpec.allCreated Bench.readOnlyImages []
                   ["/srv/base/tools"; "/srv/base/tools/podman";
                    "/srv/base/tools/qemu"; "/srv/base/templates"]).
  { apply allCreated_always. intros t' p [<-|[<-|[<-|[<-|[]]]]]; reflexivity. }
  assert (Hcalm : FilesSpec.allCreated Lab.calm [] (FilesSpec.layout "/srv/base")).
  { apply allCreated_always. reflexivity. }
  split.
  - split; [exact Hall|]. split; [reflexivity|].
    exact (proj1 (proj2 (EnsureBaseLayout_creates Bench.readOnlyImages "/srv/base"
                           None []))
             ["/srv/base/tools"; "/srv/base/tools/podman"; "/srv/base/tools/qemu";
              "/srv/base/templates"]
             "/srv/base/images"
             ["/srv/base/runtime"; "/srv/base/runtime/podman";
              "/srv/base/runtime/podman/tmp"; "/srv/base/runtime/podman/config";
              "/srv/base/runtime/podman/run"; "/srv/base/runtime/podman/home";
              "/srv/base/cache"; "/srv/base/logs"]
             (OsError "mkdir /srv/base/images: read-only file system" false)
             eq_refl Hall eq_refl).
  - split; [exact Hcalm|].
    destruct (proj2 (proj2 (EnsureBaseLayout_creates Lab.calm "/srv/base" None []))
                Hcalm) as [R E].
    split; [exact R|]. rewrite E. apply app_nil_r.
Defined.

(** ** The bundled emulator *)

Lemma walkFind_emulator (entries : list DirEntry) (path : string) :
  deps.walkFind true deps.qemuExeName entries = (path, None) ->
  path <> EmptyString ->
  exists before d after,
    entries = before ++ d :: after
    /\ walkPath d = path
    /\ walkErr d = None
    /\ FilesSpec.isEmulator d = true
    /\ Forall (fun d' => walkErr d' = None /\ FilesSpec.isEmulator d' = false) before.
Proof.
  intros E N. induction entries as [|d rest IH]; cbn [deps.walkFind] in E.
  - injection E as <-. contradiction.
  - destruct (walkErr d) as [e|] eqn:We; [discriminate E|].
    assert (Step : deps.walkFind true deps.qemuExeName rest = (path, None) ->
                   FilesSpec.isEmulator d = false ->
                   exists before d0 after,
                     d :: rest = before ++ d0 :: after
                     /\ walkPath d0 = path /\ walkErr d0 = None
                     /\ FilesSpec.isEmulator d0 = true
                     /\ Forall (fun d' => walkErr d' = None
                                          /\ FilesSpec.isEmulator d' = false) before).
    { intros E' Hd. destruct (IH E') as [before [d0 [after [-> [P [W [Q F]]]]]]].
      exists (d :: before), d0, after. repeat split; auto. }
    destruct (FilesSpec.isEmulator d) eqn:Q.
    + exists [], d, rest. pose proof Q as Q0. unfold FilesSpec.isEmulator in Q.
      destruct (IsDir (entryType d)); [discriminate Q|].
      destruct (IsRegular (entryType d)); [|discriminate Q].
      cbn [negb andb] in *. rewrite Q in E. injection E as <-.
      repeat split; auto.
    + apply Step; [|reflexivity]. unfold FilesSpec.isEmulator in Q.
      destruct (IsDir (entryType d)); [exact E|].
      destruct (IsRegular (entryType d)); [|exact E].
      cbn [negb andb] in *. now rewrite Q in E.
Qed.

Lemma walkFind_first (before after : list DirEntry) (d : DirEntry) :
  Forall (fun d' => walkErr d' = None /\ FilesSpec.isEmulator d' = false) before ->
  walkErr d = None ->
  FilesSpec.isEmulator d = true ->
  deps.walkFind true deps.qemuExeName (before ++ d :: after) = (walkPath d, None).
Proof.
  intros F W Q. induction F as [|d' before [W' Q'] _ IH]; cbn [app deps.walkFind].
  - rewrite W. unfold FilesSpec.isEmulator in Q.
    destruct (IsDir (entryType d)); [discriminate Q|]. cbn [negb andb] in *.
    destruct (IsRegular (entryType d)); [|discriminate Q]. cbn [negb andb] in *.
    now rewrite Q.
  - rewrite W'. unfold FilesSpec.isEmulator in Q'.
    destruct (IsDir (entryType d')); [exact IH|]. cbn [negb andb] in *.
    destruct (IsRegular (entryType d')); [|exact IH]. cbn [negb andb] in *.
    now rewrite Q'.
Qed.

(** X6: the path [findQEMUExecutable] returns is the path of the first
    entry of the walk that is a regular file named
    [qemu-system-x86_64.exe], letter case ignored; no entry before it
    carried an error, and the path is not empty. *)
Theorem findQEMUExecutable_first_match (h : Host) (root : string) (t : Trace)
  (exe : string) :
  result (deps.findQEMUExecutable h root) t = (exe, None) ->
  exe <> EmptyString
  /\ exists before d after,
       host_walk h t root = before ++ d :: after
       /\ walkPath d = exe
       /\ walkErr d = None
       /\ FilesSpec.isEmulator d = true
       /\ Forall (fun d' => walkErr d' = None /\ FilesSpec.isEmulator d' = false) before.
Proof.
  unfold deps.findQEMUExecutable. rewrite result_bind, result_request.
  destruct (deps.walkFind true deps.qemuExeName (host_walk h t root))
    as [found [e|]] eqn:W; [discriminate|].
  destruct (String.eqb_spec found EmptyString) as [->|N]; [discriminate|].
  rewrite result_ret. intros E. injection E as <-. split; [exact N|].
  now apply walkFind_emulator.
Qed.

Lemma findQEMUExecutable_first_match_witness :
  result (deps.findQEMUExecutable Bench.unpackedQemu ArchiveSpec.qemuDir) []
  = ("/srv/base/tools/qemu/bin/QEMU-System-x86_64.EXE", None)
  /\ "/srv/base/tools/qemu/bin/QEMU-System-x86_64.EXE" <> EmptyString.
Proof.
  split; [reflexivity|].
  apply (findQEMUExecutable_first_match Bench.unpackedQemu ArchiveSpec.qemuDir []).
  reflexivity.
Defined.

Lemma Join3_nonempty (baseDir a b : string) :
  String.eqb a EmptyString = false ->
  filepath.Join [baseDir; a; b] <> EmptyString.
Proof. intros N. now apply Join_under_nonempty. Qed.

Lemma findQEMUExecutable_events (h : Host) (root : string) (t : Trace) :
  events (deps.findQEMUExecutable h root) t = [EvWalk root].
Proof.
  unfold deps.findQEMUExecutable. rewrite events_bind, events_request.
  destruct (deps.walkFind _ _ _) as [found [e|]]; [reflexivity|].
  destruct (String.eqb found EmptyString); reflexivity.
Qed.

Lemma findQEMUExecutable_meets (h : Host) (root : string) (t : Trace)
  (before after : list DirEntry) (d : DirEntry) :
  host_walk h t root = before ++ d :: after ->
  Forall (fun d' => walkErr d' = None /\ FilesSpec.isEmulator d' = false) before ->
  walkErr d = None ->
  FilesSpec.isEmulator d = true ->
  walkPath d <> EmptyString ->
  result (deps.findQEMUExecutable h root) t = (walkPath d, None).
Proof.
  intros Hw Hb We Hd Hp. unfold deps.findQEMUExecutable.
  rewrite result_bind, result_request, Hw, (walkFind_first before after d Hb We Hd).
  destruct (String.eqb_spec (walkPath d) EmptyString) as [Z|_]; [contradiction|].
  reflexivity.
Qed.

(** X7: when [tools/qemu] can be created and the walk over it meets the
    emulator, [EnsureQEMU] returns the path of that file without asking
    the network, unpacking or removing anything. *)
Theorem EnsureQEMU_cached (h : Host) (baseDir : string) (logger : sysutil.Logger)
  (t : Trace) (before after : list DirEntry) (d : DirEntry) :
  let qemuDir := filepath.Join [baseDir; "tools"; "qemu"] in
  host_fs h t (MkdirAll qemuDir) = None ->
  host_walk h (t ++ [EvFs (MkdirAll qemuDir)]) qemuDir = before ++ d :: after ->
  Forall (fun d' => walkErr d' = None /\ FilesSpec.isEmulator d' = false) before ->
  walkErr d = None ->
  FilesSpec.isEmulator d = true ->
  walkPath d <> EmptyString ->
  result (deps.EnsureQEMU h baseDir logger) t = (walkPath d, None)
  /\ Forall FilesSpec.offline (events (deps.EnsureQEMU h baseDir logger) t).
Proof.
  intros qemuDir Hmk Hw Hb We Hd Hp.
  assert (Nq : qemuDir <> EmptyString) by (apply Join3_nonempty; reflexivity).
  destruct (EnsureDir_run h qemuDir t Nq) as [Rd Ed].
  unfold deps.EnsureQEMU. fold qemuDir.
  rewrite result_bind, events_bind, Rd, Ed, Hmk.
  rewrite result_bind, events_bind, findQEMUExecutable_events.
  rewrite (findQEMUExecutable_meets h qemuDir _ before after d Hw Hb We Hd Hp).
  split.
  - now rewrite result_bind, result_ret.
  - rewrite events_bind, events_ret. destruct logger; cbn; repeat constructor.
Qed.

Lemma EnsureQEMU_cached_witness :
  result (deps.EnsureQEMU Bench.unpackedQemu Lab.baseDir None) []
  = ("/srv/base/tools/qemu/bin/QEMU-System-x86_64.EXE", None)
  /\ Forall FilesSpec.offline (events (deps.EnsureQEMU Bench.unpackedQemu Lab.baseDir None) []).
Proof.
  apply (EnsureQEMU_cached Bench.unpackedQemu Lab.baseDir None []
           [Bench.file "/srv/base/tools/qemu" "qemu" Directory;
            Bench.file "/srv/base/tools/qemu/readme.txt" "readme.txt" Regular;
            Bench.file "/srv/base/tools/qemu/bin" "bin" Directory]
           []
           (Bench.file "/srv/base/tools/qemu/bin/QEMU-System-x86_64.EXE"
              "QEMU-System-x86_64.EXE" Regular)).
  - reflexivity.
  - reflexivity.
  - repeat constructor.
  - reflexivity.
  - reflexivity.
  - discriminate.
Defined.

(** ** Templates *)

Lemma PathExists_run (h : Host) (path : string) (t : Trace) :
  path <> EmptyString ->
  result (fsutil.PathExists h path) t
  = match host_stat h t path with
    | inr _ => (true, None)
    | inl err => if IsNotExist err then (false, None) else (false, Some err)
    end
  /\ events (fsutil.PathExists h path) t = [EvStat path].
Proof.
  intros N. unfold fsutil.PathExists.
  destruct (String.eqb_spec path EmptyString); [contradiction|].
  unfold fsutil.Stat. rewrite result_bind, events_bind, result_request, events_request.
  destruct (host_stat h t path) as [err|ft]; [destruct (IsNotExist err)|];
    split; reflexivity.
Qed.

Lemma ensureFileWithContent_present (h : Host) (path content : string)
  (logger : sysutil.Logger) (t : Trace) (ft : FileType) :
  path <> EmptyString ->
  host_stat h t path = inr ft ->
  result (deps.ensureFileWithContent h path content logger) t = (false, None)
  /\ events (deps.ensureFileWithContent h path content logger) t = [EvStat path].
Proof.
  intros N S. unfold deps.ensureFileWithContent.
  destruct (PathExists_run h path t N) as [R E].
  rewrite result_bind, events_bind, R, E, S. split; reflexivity.
Qed.

(** X8: templates that are there are left alone: when the look-ups of the
    two template files find them, [EnsureTemplates] returns no error and
    does nothing but the two look-ups. *)
Theorem EnsureTemplates_keeps_existing (h : Host) (baseDir : string)
  (logger : sysutil.Logger) (t : Trace) (ft1 ft2 : FileType) :
  let templateDir := filepath.Join [baseDir; "templates"] in
  let userData := filepath.Join [templateDir; "user-data.txt"] in
  let metaData := filepath.Join [templateDir; "meta-data.txt"] in
  host_stat h t userData = inr ft1 ->
  host_stat h (t ++ [EvStat userData]) metaData = inr ft2 ->
  result (deps.EnsureTemplates h baseDir logger) t = None
  /\ events (deps.EnsureTemplates h baseDir logger) t
     = [EvStat userData; EvStat metaData].
Proof.
  intros templateDir userData metaData S1 S2.
  assert (N1 : userData <> EmptyString) by (apply Join_under_nonempty; reflexivity).
  assert (N2 : metaData <> EmptyString) by (apply Join_under_nonempty; reflexivity).
  destruct (ensureFileWithContent_present h userData deps.defaultUserData logger
              t ft1 N1 S1) as [R1 E1].
  destruct (ensureFileWithContent_present h metaData deps.defaultMetaData logger
              (t ++ [EvStat userData]) ft2 N2 S2) as [R2 E2].
  unfold deps.EnsureTemplates. fold templateDir. fold userData. fold metaData.
  rewrite result_bind, events_bind, R1, E1. cbv beta iota.
  rewrite result_bind, events_bind, events_ret, app_nil_r.
  rewrite result_bind, events_bind, R2, E2. cbv beta iota.
  rewrite result_bind, events_bind, events_ret.
  split; reflexivity.
Qed.

Lemma EnsureTemplates_keeps_existing_witness :
  result (deps.EnsureTemplates Lab.calm Lab.baseDir None) [] = None
  /\ events (deps.EnsureTemplates Lab.calm Lab.baseDir None) []
     = [EvStat "/srv/base/templates/user-data.txt";
        EvStat "/srv/base/templates/meta-data.txt"].
Proof.
  apply (EnsureTemplates_keeps_existing Lab.calm Lab.baseDir None [] Regular Regular);
    reflexivity.
Defined.

(** A rule for [Emits] that keeps what the first step returned. *)
Lemma Emits_bind_result {A B : Type} (P : Event -> Prop) (m : M A) (f : A -> M B) :
  Emits P m ->
  (forall a, (exists t, result m t = a) -> Emits P (f a)) ->
  Emits P (bind m f).
Proof.
  intros Hm Hf t. rewrite events_bind. apply Forall_app. split.
  - apply Hm.
  - apply Hf. now exists t.
Qed.

Lemma PathExists_missing (h : Host) (path : string) (t : Trace) :
  result (fsutil.PathExists h path) t = (false, None) ->
  exists e, host_stat h t path = inl e /\ IsNotExist e = true.
Proof.
  unfold fsutil.PathExists. destruct (String.eqb path EmptyString); [discriminate|].
  unfold fsutil.Stat. rewrite result_bind, result_request.
  destruct (host_stat h t path) as [e|ft]; [|discriminate].
  destruct (IsNotExist e) eqn:Ne; [|discriminate]. intros _. now exists e.
Qed.

Lemma ensureFileWithContent_spares (h : Host) (path content : string)
  (logger : sysutil.Logger) (p : string) :
  (forall t e, host_stat h t p = inl e -> IsNotExist e = false) ->
  Emits (onFs (FilesSpec.spares p)) (deps.ensureFileWithContent h path content logger).
Proof.
  intros Hp. unfold deps.ensureFileWithContent.
  apply Emits_bind_result; [emits|].
  intros [exists_ [e|]] [t R]; [apply Emits_ret|].
  destruct exists_; [apply Emits_ret|].
  apply PathExists_missing in R. destruct R as [e [S Ne]].
  assert (N : path <> p).
  { intros ->. rewrite (Hp t e S) in Ne. discriminate Ne. }
  emits; exact N.
Qed.

(** X9: [EnsureTemplates] never overwrites a file that is there: a path
    whose look-up never answers that it does not exist is never opened
    for writing, written, removed or renamed. *)
Theorem EnsureTemplates_never_overwrites (h : Host) (baseDir : string)
  (logger : sysutil.Logger) (p : string) :
  (forall t e, host_stat h t p = inl e -> IsNotExist e = false) ->
  Emits (onFs (FilesSpec.spares p)) (deps.EnsureTemplates h baseDir logger).
Proof.
  intros Hp. unfold deps.EnsureTemplates.
  apply Emits_bind; [now apply ensureFileWithContent_spares|].
  intros [created [e|]]; [apply Emits_ret|].
  apply Emits_bind; [destruct created; emits|]. intros _.
  apply Emits_bind; [now apply ensureFileWithContent_spares|].
  intros [created' [e|]]; [apply Emits_ret|].
  apply Emits_bind; [destruct created'; emits|]. intros _. apply Emits_ret.
Qed.

Lemma EnsureTemplates_never_overwrites_witness :
  Emits (onFs (FilesSpec.spares "/srv/base/templates/user-data.txt"))
    (deps.EnsureTemplates Lab.calm Lab.baseDir None).
Proof.
  apply (EnsureTemplates_never_overwrites Lab.calm Lab.baseDir None
           "/srv/base/templates/user-data.txt").
  intros t e S. discriminate S.
Defined.

(** ** Downloads *)

Lemma tmp_differs (dest : string) : dest ^^ ".tmp" <> dest.
Proof.
  intros E. apply (f_equal String.length) in E. rewrite length_append in E.
  simpl in E. lia.
Qed.

Lemma Printf_no_fsops (logger : sysutil.Logger) (line : string) (t : Trace) :
  fsops (events (sysutil.Printf logger line) t) = [].
Proof. now destruct logger. Qed.

Ltac download_done :=
  cbn; unfold FilesSpec.downloads; repeat split; auto 7; try discriminate;
  try (intros _; eexists; split; [reflexivity | assumption]);
  try (intros; cbn in *; intuition (try discriminate; try congruence); fail);
  try (repeat (apply Forall_cons; [auto 7|]); apply Forall_nil).

(** X10: [downloadFile] writes the body to [dest ^^ ".tmp"], a path that
    is not [dest], and touches [dest] only by renaming that file to it,
    after the body was copied and the file closed without error.  Without
    a response, or with a status other than 200, it touches no file; when
    it returns no error, it has created, filled, closed and renamed the
    temporary file, in this order. *)
Theorem downloadFile_through_temporary (h : Host) (url dest : string)
  (logger : sysutil.Logger) (t : Trace) :
  let run := deps.downloadFile h url dest logger in
  let tmp := dest ^^ ".tmp" in
  let ops := fsops (events run t) in
  let written := [EvHttpGet url; EvFs (OpenWrite tmp); EvFs (CopyBytes tmp url)] in
  tmp <> dest
  /\ Forall (FilesSpec.downloads url dest) ops
  /\ (In (Rename tmp dest) ops ->
      host_fs h (t ++ [EvHttpGet url; EvFs (OpenWrite tmp)]) (CopyBytes tmp url) = None
      /\ host_fs h (t ++ written) (Close tmp) = None)
  /\ (ops <> [] ->
      exists resp, host_http h t url = inr resp /\ StatusCode resp = 200)
  /\ (result run t = None ->
      ops = [OpenWrite tmp; CopyBytes tmp url; Close tmp; Rename tmp dest; Close tmp]).
Proof.
  cbv zeta. split; [apply tmp_differs|].
  unfold events, result, deps.downloadFile, check, fsutil.fsop, bind, request, ret.
  destruct (host_http h t url) as [err|resp]; [download_done|].
  destruct (StatusCode resp =? 200) eqn:St; cbn [negb]; [|download_done].
  apply Z.eqb_eq in St.
  destruct logger as [f|]; unfold sysutil.Printf, emit, ret;
    repeat (rewrite <- ?app_assoc; cbn [app fst snd];
            match goal with
            | |- context [host_fs h ?x ?op] => destruct (host_fs h x op)
            end);
    download_done.
Qed.

(** ** The podman client *)

Lemma copySupportBinaries_offline (h : Host) (podmanDir : string) :
  Emits FilesSpec.offline (deps.copySupportBinaries h podmanDir).
Proof. emits. Qed.

(** X11: when the look-up of [tools/podman/podman.exe] finds it,
    [EnsurePodman] asks nothing of the network and unpacks, removes and
    renames nothing; it only looks for the two support binaries, and when
    it returns no error, it returns the path of that file. *)
Theorem EnsurePodman_cached (h : Host) (baseDir : string) (logger : sysutil.Logger)
  (t : Trace) (ft : FileType) :
  let podmanExe :=
    filepath.Join [filepath.Join [baseDir; "tools"; "podman"]; "podman.exe"] in
  let run := deps.EnsurePodman h baseDir logger in
  host_stat h t podmanExe = inr ft ->
  Forall FilesSpec.offline (events run t)
  /\ (snd (result run t) = None -> fst (result run t) = podmanExe)
  /\ (forall e, snd (result run t) = Some e -> fst (result run t) = EmptyString).
Proof.
  intros podmanExe run S. subst run.
  assert (N : podmanExe <> EmptyString) by (apply Join_under_nonempty; reflexivity).
  destruct (PathExists_run h podmanExe t N) as [R E].
  unfold deps.EnsurePodman. fold podmanExe.
  rewrite result_bind, events_bind, R, E, S. cbv beta iota.
  rewrite result_bind, events_bind.
  pose proof (copySupportBinaries_offline h
                (filepath.Join [baseDir; "tools"; "podman"]) (t ++ [EvStat podmanExe]))
    as Off.
  destruct (result (deps.copySupportBinaries h _) _) as [e|]; split; [|split| |split].
  - constructor; [exact I|]. apply Forall_app. split; [exact Off | constructor].
  - discriminate.
  - reflexivity.
  - constructor; [exact I|]. apply Forall_app. split; [exact Off|].
    rewrite events_bind, events_ret, app_nil_r. destruct logger; repeat constructor.
  - intros _. now rewrite result_bind, result_ret.
  - intros e. rewrite result_bind, result_ret. discriminate.
Qed.

Lemma EnsurePodman_cached_witness :
  Forall FilesSpec.offline (events (deps.EnsurePodman Lab.calm Lab.baseDir None) [])
  /\ result (deps.EnsurePodman Lab.calm Lab.baseDir None) [] = (Lab.podman, None).
Proof.
  split; [|reflexivity].
  apply (EnsurePodman_cached Lab.calm Lab.baseDir None [] Regular). reflexivity.
Defined.

(** ** Copies *)

(** X12: [CopyFile] looks at the source before it touches the
    destination: when the source cannot be looked up, or is not a regular
    file, the call fails after the look-up alone; no directory is made and
    no file is opened, created or truncated. *)
Theorem CopyFile_checks_source_first (h : Host) (src dest : string) (t : Trace) :
  src <> EmptyString ->
  dest <> EmptyString ->
  match host_stat h t src with
  | inr Regular => False
  | _ => True
  end ->
  events (fsutil.CopyFile h src dest) t = [EvStat src]
  /\ result (fsutil.CopyFile h src dest) t
     = Some (match host_stat h t src with
             | inl err => Wrap "fsutil: stat source: " err
             | inr _ => New ("fsutil: source is not a regular file: " ^^ src)
             end).
Proof.
  intros Ns Nd Hs. unfold fsutil.CopyFile, fsutil.Stat.
  destruct (String.eqb_spec src EmptyString); [contradiction|].
  destruct (String.eqb_spec dest EmptyString); [contradiction|].
  cbn [orb]. rewrite result_bind, events_bind, result_request, events_request.
  destruct (host_stat h t src) as [err|[]]; try contradiction; split; reflexivity.
Qed.

Lemma CopyFile_checks_source_first_witness :
  events (fsutil.CopyFile Lab.dirVM Lab.customVM "/tmp/copy") [] = [EvStat Lab.customVM]
  /\ result (fsutil.CopyFile Lab.dirVM Lab.customVM "/tmp/copy") []
     = Some (New "fsutil: source is not a regular file: /opt/vm/run-vm").
Proof.
  apply (CopyFile_checks_source_first Lab.dirVM Lab.customVM "/tmp/copy" []);
    [discriminate | discriminate | exact I].
Defined.

(** ** White space *)

Lemma append_empty_r (s : string) : s ^^ EmptyString = s.
Proof. induction s as [|c s IH]; simpl; congruence. Qed.

Lemma append_assoc' (a b c : string) : (a ^^ b) ^^ c = a ^^ b ^^ c.
Proof. induction a as [|x a IH]; simpl; congruence. Qed.

Lemma rev_string_acc (s acc : string) :
  strings.rev_string s acc = strings.rev_string s EmptyString ^^ acc.
Proof.
  revert acc. induction s as [|c s IH]; intros acc; simpl; [reflexivity|].
  rewrite (IH (String c acc)), (IH (String c EmptyString)), append_assoc'.
  reflexivity.
Qed.

Lemma rev_string_append (a b : string) :
  strings.rev_string (a ^^ b) EmptyString
  = strings.rev_string b EmptyString ^^ strings.rev_string a EmptyString.
Proof.
  induction a as [|c a IH]; simpl.
  - now rewrite append_empty_r.
  - rewrite (rev_string_acc (a ^^ b) (String c EmptyString)), IH,
      (rev_string_acc a (String c EmptyString)), append_assoc'.
    reflexivity.
Qed.

Lemma rev_string_involutive (s : string) :
  strings.rev_string (strings.rev_string s EmptyString) EmptyString = s.
Proof.
  induction s as [|c s IH]; simpl; [reflexivity|].
  rewrite (rev_string_acc s (String c EmptyString)), rev_string_append, IH.
  reflexivity.
Qed.

Lemma TrimLeft_trimmed (s : string) : LifecycleSpec.trimmedLeft (strings.TrimLeft s).
Proof.
  induction s as [|c s IH]; simpl; [exact I|].
  destruct (strings.isSpace c) eqn:Sp; [exact IH | exact Sp].
Qed.

Lemma TrimLeft_fixed (s : string) : LifecycleSpec.trimmedLeft s -> strings.TrimLeft s = s.
Proof. destruct s as [|c s]; simpl; [reflexivity|]. now intros ->. Qed.

Lemma TrimLeft_suffix (s : string) :
  exists blanks, s = blanks ^^ strings.TrimLeft s.
Proof.
  induction s as [|c s [b IH]]; simpl.
  - now exists EmptyString.
  - destruct (strings.isSpace c).
    + exists (String c b). simpl. now rewrite <- IH.
    + now exists EmptyString.
Qed.

Lemma trimmedLeft_prefix (a b : string) :
  a <> EmptyString -> LifecycleSpec.trimmedLeft (a ^^ b) -> LifecycleSpec.trimmedLeft a.
Proof. destruct a as [|c a]; [contradiction|]. intros _ H. exact H. Qed.

Lemma rev_string_empty (s : string) :
  strings.rev_string s EmptyString = EmptyString -> s = EmptyString.
Proof.
  intros E. apply (f_equal (fun x => strings.rev_string x EmptyString)) in E.
  now rewrite rev_string_involutive in E.
Qed.

Lemma TrimSpace_idempotent (s : string) :
  strings.TrimSpace (strings.TrimSpace s) = strings.TrimSpace s.
Proof.
  unfold strings.TrimSpace.
  set (u := strings.TrimLeft s).
  set (w := strings.TrimLeft (strings.rev_string u EmptyString)).
  assert (Hu : LifecycleSpec.trimmedLeft u) by apply TrimLeft_trimmed.
  assert (Hw : LifecycleSpec.trimmedLeft w) by apply TrimLeft_trimmed.
  assert (Hv : LifecycleSpec.trimmedLeft (strings.rev_string w EmptyString)).
  { destruct (TrimLeft_suffix (strings.rev_string u EmptyString)) as [b Hb].
    fold w in Hb.
    apply (f_equal (fun x => strings.rev_string x EmptyString)) in Hb.
    rewrite rev_string_involutive, rev_string_append in Hb.
    destruct (strings.rev_string w EmptyString) as [|c v] eqn:Ev; [exact I|].
    rewrite Hb in Hu. exact Hu. }
  rewrite (TrimLeft_fixed _ Hv), rev_string_involutive, (TrimLeft_fixed _ Hw).
  reflexivity.
Qed.

(** ** More of the machine lifecycle *)

Section Lifecycle.
Variables (h : Host) (baseDir podmanPath : string) (env : list string)
  (logWriter : option File) (logger : sysutil.Logger).

Let state := LifecycleSpec.stateCall h baseDir podmanPath env logWriter logger.
Let start := LifecycleSpec.startCall h baseDir podmanPath env logWriter logger.
Let notice := LifecycleSpec.startNotice logger.
Let running := deps.ensureMachineRunning h baseDir podmanPath env logWriter logger.

Lemma machineState_run (t : Trace) (r : sysutil.RunResult) :
  result state t = (Some r, None) ->
  result (deps.machineState h baseDir podmanPath env logWriter logger) t
  = (strings.TrimSpace (sysutil.Stdout_ r), None)
  /\ events (deps.machineState h baseDir podmanPath env logWriter logger) t
     = events state t.
Proof.
  intros E. unfold deps.machineState.
  fold (LifecycleSpec.stateCall h baseDir podmanPath env logWriter logger). fold state.
  rewrite result_bind, events_bind, E. cbv beta iota.
  now rewrite result_ret, events_ret, app_nil_r.
Qed.

Lemma ensureMachineRunning_cases (t : Trace) (r : sysutil.RunResult) :
  result state t = (Some r, None) ->
  let t1 := (t ++ events state t) ++ events notice (t ++ events state t) in
  if String.eqb (strings.TrimSpace (sysutil.Stdout_ r)) "running"
  then running t = (None, events state t)
  else
    events running t
    = events state t ++ events notice (t ++ events state t) ++ events start t1
    /\ result running t
       = match snd (result start t1) with
         | Some e => Some (Wrap "podman machine start: " e)
         | None => None
         end.
Proof.
  intros E t1. subst running. unfold deps.ensureMachineRunning.
  destruct (machineState_run t r E) as [R Ev].
  rewrite (run_split (bind _ _) t), result_bind, events_bind, R, Ev. cbv beta iota.
  rewrite TrimSpace_idempotent.
  destruct (String.eqb (strings.TrimSpace (sysutil.Stdout_ r)) "running").
  - now rewrite result_ret, events_ret, app_nil_r.
  - cbn [fst snd]. subst t1 notice. unfold LifecycleSpec.startNotice.
    fold (LifecycleSpec.startCall h baseDir podmanPath env logWriter logger).
    fold start.
    rewrite result_bind, events_bind, result_bind, events_bind.
    destruct (result start _) as [res [e|]]; cbn [snd];
      rewrite ?result_ret, ?events_ret, ?app_nil_r; split; reflexivity.
Qed.

(** X13: once the state of the machine was read, [ensureMachineRunning]
    starts the machine if and only if the state printed, white space
    around it removed, is not [running] (in lower case): a running machine
    is left alone and the call returns no error; otherwise
    [machine start] is run once, and its failure is the error returned. *)
Theorem ensureMachineRunning_starts_unless_running (t : Trace) (r : sysutil.RunResult) :
  result state t = (Some r, None) ->
  let t1 := (t ++ events state t) ++ events notice (t ++ events state t) in
  if String.eqb (strings.TrimSpace (sysutil.Stdout_ r)) "running"
  then running t = (None, events state t)
  else
    events running t
    = events state t ++ events notice (t ++ events state t) ++ events start t1
    /\ result running t
       = match snd (result start t1) with
         | Some e => Some (Wrap "podman machine start: " e)
         | None => None
         end.
Proof. exact (ensureMachineRunning_cases t r). Qed.

End Lifecycle.

Lemma ensureMachineRunning_starts_unless_running_witness :
  let r := {| sysutil.Command :=
                sysutil.commandString Lab.podman
                  ["machine"; "inspect"; deps.podmanMachineName; "--format"; "{{.State}}"];
              sysutil.Stdout_ := "stopped" ^^ deps.lf;
              sysutil.Stderr_ := EmptyString;
              sysutil.ExitCode := 0;
              sysutil.Duration_ := Second;
              sysutil.TimedOut := false |} in
  result (LifecycleSpec.stateCall Bench.stoppedMachine Lab.baseDir Lab.podman [] None None) []
  = (Some r, None)
  /\ execs (events (deps.ensureMachineRunning Bench.stoppedMachine Lab.baseDir Lab.podman
                      [] None None) [])
     = [RunnerSpec.command (deps.machineOpts (30 * Second) Lab.baseDir [] None None)
          Lab.podman
          ["machine"; "inspect"; deps.podmanMachineName; "--format"; "{{.State}}"];
        RunnerSpec.command (deps.machineOpts deps.machineStartTimeout Lab.baseDir [] None None)
          Lab.podman ["machine"; "start"; deps.podmanMachineName]].
Proof.
  intros r. split; [reflexivity|].
  pose proof (ensureMachineRunning_starts_unless_running Bench.stoppedMachine
                Lab.baseDir Lab.podman [] None None [] r eq_refl) as K.
  cbn zeta in K. change (String.eqb _ "running") with false in K. cbv iota in K.
  destruct K as [K _]. rewrite K. reflexivity.
Defined.

Lemma Contains_append_r (a b sub : string) :
  strings.Contains b sub = true -> strings.Contains (a ^^ b) sub = true.
Proof.
  intros H. induction a as [|c a IH]; [exact H|].
  cbn [String.append strings.Contains]. rewrite IH. apply orb_true_r.
Qed.

Lemma ToLower_append (a b : string) :
  strings.ToLower (a ^^ b) = strings.ToLower a ^^ strings.ToLower b.
Proof. induction a as [|c a IH]; simpl; congruence. Qed.

Lemma launchFailed_not_found (cause : error) (res : option sysutil.RunResult) :
  strings.Contains (strings.ToLower (Error cause)) "not found" = true ->
  deps.machineMissing (Some (RunnerSpec.launchFailed cause)) res = true.
Proof.
  intros H. unfold deps.machineMissing, RunnerSpec.launchFailed. cbn [Error].
  rewrite ToLower_append.
  rewrite (Contains_append_r _ _ "not found" H).
  now rewrite orb_true_r.
Qed.

(** X14: a podman client that cannot be started because it is not found
    is taken for a machine that is not there: when the stop command fails
    to start and the cause says [not found] (letter case ignored),
    [StopPodmanMachine] returns no error. *)
Theorem StopPodmanMachine_client_not_found (h : Host)
  (baseDir podmanPath machineName : string) (env : list string)
  (logWriter : option File) (logger : sysutil.Logger) (t : Trace) (cause : error) :
  podmanPath <> EmptyString ->
  RunnerSpec.behaviour h
    (deps.machineOpts deps.machineStartTimeout baseDir env logWriter logger)
    podmanPath
    ["machine"; "stop";
     if String.eqb machineName EmptyString then deps.podmanMachineName else machineName]
    t = StartFails cause ->
  strings.Contains (strings.ToLower (Error cause)) "not found" = true ->
  result (deps.StopPodmanMachine h baseDir podmanPath machineName env logWriter logger) t
  = None.
Proof.
  intros N B C. unfold deps.StopPodmanMachine.
  rewrite result_bind, (RunCommand_result h _ podmanPath _ t N), B.
  unfold RunnerSpec.conclude. cbn [sysutil.cmdRun sysutil.elapsed sysutil.runErr].
  assert (T : sysutil.ctxErr
                (if 0 <? sysutil.Timeout
                           (deps.machineOpts deps.machineStartTimeout baseDir env
                              logWriter logger)
                 then sysutil.WithTimeout
                        (sysutil.Timeout
                           (deps.machineOpts deps.machineStartTimeout baseDir env
                              logWriter logger))
                 else sysutil.Background) 0 = None) by reflexivity.
  rewrite T. cbv beta iota.
  rewrite (launchFailed_not_found cause _ C). reflexivity.
Qed.

Lemma StopPodmanMachine_client_not_found_witness :
  result (deps.StopPodmanMachine Bench.noClient Lab.baseDir Lab.podman EmptyString
            [] None None) [] = None.
Proof.
  apply (StopPodmanMachine_client_not_found Bench.noClient Lab.baseDir Lab.podman
           EmptyString [] None None []
           (OsError "exec: podman.exe: executable file not found in %PATH%" false));
    [discriminate | reflexivity | reflexivity].
Defined.

Lemma RunCommand_leaves (h : Host) (opts : sysutil.RunOptions) (name : string)
  (args : list string) (P : Cmd -> Prop) :
  P (RunnerSpec.command opts name args) ->
  Emits (onExec P) (sysutil.RunCommand h opts name args).
Proof.
  intros HP. unfold RunnerSpec.command in HP. emits; exact HP.
Qed.

Lemma podmanEnv_no_exec (h : Host) (baseDir : string) :
  Emits notExec (deps.podmanEnv h baseDir).
Proof. emits. Qed.

(** X15: making ready a machine that is there and running changes
    nothing: after the directories of the environment, [EnsurePodmanMachine]
    runs the inspection, the state query and the choice of the default
    connection, and neither [machine init] nor [machine start]; when the
    last command succeeds, it returns the machine name and the
    environment. *)
Theorem EnsurePodmanMachine_running_machine (h : Host) (baseDir podmanPath : string)
  (logWriter : option File) (logger : sysutil.Logger) (t : Trace)
  (env : list string) (r : sysutil.RunResult) :
  let prepare := deps.podmanEnv h baseDir in
  let inspect := MachineSpec.inspectCall h baseDir podmanPath env logWriter logger in
  let state := LifecycleSpec.stateCall h baseDir podmanPath env logWriter logger in
  let default := LifecycleSpec.defaultCall h baseDir podmanPath env logWriter logger in
  let run := deps.EnsurePodmanMachine h baseDir podmanPath logWriter logger in
  let t1 := t ++ events prepare t in
  let t2 := t1 ++ events inspect t1 in
  let t3 := t2 ++ events state t2 in
  result prepare t = (env, None) ->
  snd (result inspect t1) = None ->
  result state t2 = (Some r, None) ->
  strings.TrimSpace (sysutil.Stdout_ r) = "running" ->
  events run t
  = events prepare t ++ events inspect t1 ++ events state t2 ++ events default t3
  /\ Forall (onExec LifecycleSpec.leavesMachine) (events run t)
  /\ (snd (result default t3) = None ->
      result run t = (deps.podmanMachineName, env, None)).
Proof.
  intros prepare inspect state default run t1 t2 t3 Hp Hi Hs Hr.
  assert (Ev : events run t
               = events prepare t ++ events inspect t1 ++ events state t2
                 ++ events default t3
               /\ (snd (result default t3) = None ->
                   result run t = (deps.podmanMachineName, env, None))).
  { subst run. unfold deps.EnsurePodmanMachine. fold prepare.
    rewrite result_bind, events_bind, Hp. cbv beta iota. fold t1.
    rewrite result_bind, events_bind.
    pose proof (ensureMachineExists_present h baseDir podmanPath env logWriter logger
                  t1 Hi) as Ex.
    rewrite (run_split _ t1) in Ex. injection Ex as Rx Ex.
    fold inspect in Ex. rewrite Rx, Ex. fold t2.
    rewrite result_bind, events_bind.
    pose proof (ensureMachineRunning_cases h baseDir podmanPath env
                  logWriter logger t2 r Hs) as Ru.
    cbv zeta in Ru. rewrite Hr in Ru. change (String.eqb "running" "running") with true in Ru.
    cbv iota in Ru. rewrite (run_split _ t2) in Ru. injection Ru as Rr Re.
    fold state in Re. rewrite Rr, Re. fold t3.
    rewrite result_bind, events_bind.
    unfold deps.ensureDefaultConnection.
    fold (LifecycleSpec.defaultCall h baseDir podmanPath env logWriter logger).
    fold default.
    rewrite !result_bind, !events_bind.
    destruct (result default t3) as [res [e|]]; cbn [snd].
    - destruct (negb _); rewrite ?result_ret, ?events_ret, ?app_nil_r;
        (split; [reflexivity | discriminate]).
    - rewrite ?result_ret, ?events_ret, ?app_nil_r. split; reflexivity. }
  destruct Ev as [Ev Res]. split; [exact Ev|]. split; [|exact Res].
  rewrite Ev. repeat (apply Forall_app; split).
  - generalize (podmanEnv_no_exec h baseDir t). fold prepare.
    apply Forall_impl. intros [] H; try exact I. contradiction.
  - apply RunCommand_leaves. split; reflexivity.
  - apply RunCommand_leaves. split; reflexivity.
  - apply RunCommand_leaves. split; reflexivity.
Qed.

Lemma EnsurePodmanMachine_running_machine_witness :
  execs (events (deps.EnsurePodmanMachine Bench.runningMachine Lab.baseDir Lab.podman
                   None None) [])
  = map (RunnerSpec.command
           (deps.machineOpts deps.machineStartTimeout Lab.baseDir
              (builder.podmanEnv Lab.readyLocals) None None) Lab.podman)
      [["machine"; "inspect"; deps.podmanMachineName]]
    ++ map (RunnerSpec.command
              (deps.machineOpts (30 * Second) Lab.baseDir
                 (builder.podmanEnv Lab.readyLocals) None None) Lab.podman)
         [["machine"; "inspect"; deps.podmanMachineName; "--format"; "{{.State}}"];
          ["system"; "connection"; "default"; deps.podmanMachineName]]
  /\ result (deps.EnsurePodmanMachine Bench.runningMachine Lab.baseDir Lab.podman
               None None) []
     = (deps.podmanMachineName, builder.podmanEnv Lab.readyLocals, None).
Proof.
  destruct (EnsurePodmanMachine_running_machine Bench.runningMachine Lab.baseDir
              Lab.podman None None [] (builder.podmanEnv Lab.readyLocals)
              {| sysutil.Command :=
                   sysutil.commandString Lab.podman
                     ["machine"; "inspect"; deps.podmanMachineName; "--format";
                      "{{.State}}"];
                 sysutil.Stdout_ := "running" ^^ deps.lf;
                 sysutil.Stderr_ := EmptyString;
                 sysutil.ExitCode := 0;
                 sysutil.Duration_ := Second;
                 sysutil.TimedOut := false |})
    as [E [_ R]]; try reflexivity.
  split; [rewrite E; reflexivity | apply R; reflexivity].
Defined.

(** X16: [RemovePodmanMachine] removes the machine only after a stop that
    returned no error: the error of the stop ends the call, and
    [machine rm] is not run.  A removal that fails with the
    missing-machine signature counts as done, without cleanup of the
    connections; and once the removal has succeeded the call returns no
    error, whatever the cleanup of the connections returns. *)
Theorem RemovePodmanMachine_steps (h : Host) (baseDir podmanPath : string)
  (logger : sysutil.Logger) (t : Trace) (env : list string) :
  let prepare := deps.podmanEnv h baseDir in
  let stop := deps.StopPodmanMachine h baseDir podmanPath deps.podmanMachineName
                env None logger in
  let remove := LifecycleSpec.removeCall h baseDir podmanPath env None logger in
  let run := deps.RemovePodmanMachine h baseDir podmanPath logger in
  let t1 := t ++ events prepare t in
  let t2 := t1 ++ events stop t1 in
  result prepare t = (env, None) ->
  (forall e, result stop t1 = Some e ->
     run t = (Some e, events prepare t ++ events stop t1))
  /\ (result stop t1 = None ->
      (snd (result remove t2) = None -> result run t = None)
      /\ (forall e, snd (result remove t2) = Some e ->
            run t
            = (if deps.machineMissing (Some e) (fst (result remove t2)) then None
               else Some (Wrap "podman machine rm: " e),
               events prepare t ++ events stop t1 ++ events remove t2))).
Proof.
  intros prepare stop remove run t1 t2 Hp.
  subst run. unfold deps.RemovePodmanMachine, check. fold prepare.
  rewrite (run_split (bind _ _) t), result_bind, events_bind, Hp. cbv beta iota.
  fold t1. fold stop. rewrite result_bind, events_bind.
  split.
  - intros e Hs. rewrite Hs. now rewrite result_ret, events_ret, app_nil_r.
  - intros Hs. rewrite Hs. fold t2.
    fold (LifecycleSpec.removeCall h baseDir podmanPath env None logger). fold remove.
    rewrite result_bind, events_bind.
    destruct (result remove t2) as [res [e|]]; cbn [fst snd]; split.
    + discriminate.
    + intros e' E. injection E as <-.
      destruct (deps.machineMissing (Some e) res);
        now rewrite result_ret, events_ret, app_nil_r.
    + intros _. now rewrite result_bind, result_ret.
    + intros e' E. discriminate E.
Qed.

Lemma RemovePodmanMachine_steps_witness :
  result (deps.RemovePodmanMachine Lab.stuckMachine Lab.baseDir Lab.podman None) []
  = Some (Wrap "podman machine stop: "
            (RunnerSpec.processFailed 125
               "/srv/base/tools/podman/podman.exe machine stop cloudinit-builder"))
  /\ execs (events (deps.RemovePodmanMachine Lab.stuckMachine Lab.baseDir Lab.podman None) [])
     = [MachineSpec.stopCommand Lab.baseDir Lab.podman deps.podmanMachineName
          (builder.podmanEnv Lab.readyLocals) None None]
  /\ result (deps.RemovePodmanMachine Lab.calm Lab.baseDir Lab.podman None) [] = None.
Proof.
  destruct (RemovePodmanMachine_steps Lab.stuckMachine Lab.baseDir Lab.podman None []
              (builder.podmanEnv Lab.readyLocals) eq_refl) as [K _].
  specialize (K _ eq_refl).
  destruct (RemovePodmanMachine_steps Lab.calm Lab.baseDir Lab.podman None []
              (builder.podmanEnv Lab.readyLocals) eq_refl) as [_ K'].
  destruct (K' eq_refl) as [K'' _].
  split; [|split].
  - unfold result. rewrite K. reflexivity.
  - unfold events. rewrite K. reflexivity.
  - apply K''. reflexivity.
Defined.

(** ** More of the build orchestrator *)

Lemma EnsurePodmanMachine_failed (h : Host) (baseDir podmanPath : string)
  (logWriter : option File) (logger : sysutil.Logger) :
  Returns (fun r => snd r <> None -> fst r = (EmptyString, []))
    (deps.EnsurePodmanMachine h baseDir podmanPath logWriter logger).
Proof.
  unfold deps.EnsurePodmanMachine.
  repeat returns_step; cbn [fst snd]; intros E; try reflexivity; now elim E.
Qed.

Lemma stopOnExit_unset (h : Host) (baseDir : string) (logFile : File)
  (logger : sysutil.Logger) (path : string) (err : option error) (t : Trace) :
  builder.stopOnExit h baseDir logFile logger
    {| builder.podmanPath := path; builder.machineName := EmptyString;
       builder.podmanEnv := [] |} err t = (tt, []).
Proof.
  unfold builder.stopOnExit. cbn [builder.podmanPath builder.machineName builder.podmanEnv].
  change (String.eqb EmptyString EmptyString) with true.
  now rewrite orb_true_r.
Qed.

(** X17: [Build] stops the machine only when it was made ready: when a
    step up to and including [EnsurePodmanMachine] fails, [Build] returns
    an error, starts no process besides those of the steps so far, among
    them no [machine stop], and prints no warning.  A machine that
    [EnsurePodmanMachine] started before it failed is left running. *)
Theorem Build_leaves_machine_unless_ready (h : Host) (baseDir : string) (t : Trace) :
  result (BuildSpec.toMachine h baseDir) t = None ->
  result (builder.Build h baseDir) t <> None
  /\ execs (events (builder.Build h baseDir) t)
     = execs (events (BuildSpec.toMachine h baseDir) t)
  /\ BuildSpec.stopCount (events (builder.Build h baseDir) t) = 0%nat
  /\ warnings (events (builder.Build h baseDir) t) = [].
Proof.
  intros E.
  assert (K : result (builder.Build h baseDir) t <> None
              /\ exists closing,
                   events (builder.Build h baseDir) t
                   = events (BuildSpec.toMachine h baseDir) t ++ closing
                   /\ (closing = [] \/ exists f, closing = [EvFs (Close f)])).
  { unfold result, events in *.
    destruct (BuildSpec.toMachine h baseDir t) as [r pre] eqn:Epre.
    cbn [fst snd] in *. subst r. revert Epre.
    unfold builder.Build, BuildSpec.toMachine, builder.Build_steps, check, bind, ret.
    mrun.
    all: try (intros X; injection X as <-).
    all: cbn [fst snd].
    all: repeat match goal with
           | H : deps.EnsurePodmanMachine _ _ ?p ?lw ?lg ?x = (?n, ?l, Some ?e, _) |- _ =>
               let K := fresh "K" in
               pose proof (EnsurePodmanMachine_failed h baseDir p lw lg x) as K;
               unfold result in K; rewrite H in K; cbn [fst snd] in K;
               specialize (K ltac:(discriminate));
               assert (n = EmptyString /\ l = []) as [-> ->]
                 by (split; [apply (f_equal fst) in K | apply (f_equal snd) in K];
                     try exact K; discriminate);
               clear K H
           | H : builder.stopOnExit _ _ _ _ _ _ _ = _ |- _ =>
               rewrite stopOnExit_unset in H; injection H as _ <-
           | H : fsutil.fsop _ _ _ = _ |- _ =>
               unfold fsutil.fsop, request in H; injection H as _ <-
           end.
    all: mflat.
    all: (split; [discriminate|]).
    - exists []. split; [now rewrite app_nil_r | now left].
    - eexists; split; [rewrite <- ?app_assoc; reflexivity | right; eexists; reflexivity].
    - eexists; split; [rewrite <- ?app_assoc; reflexivity | right; eexists; reflexivity].
    - eexists; split; [rewrite <- ?app_assoc; reflexivity | right; eexists; reflexivity].
    - eexists; split; [rewrite <- ?app_assoc; reflexivity | right; eexists; reflexivity].
    }
  destruct K as [R [closing [Ev Hc]]]. split; [exact R|].
  assert (Hx : execs closing = [] /\ warnings closing = []).
  { destruct Hc as [->|[f ->]]; split; reflexivity. }
  destruct Hx as [Hx Hw].
  rewrite Ev. unfold BuildSpec.stopCount.
  rewrite execs_app, warnings_app, Hx, Hw, !app_nil_r.
  split; [reflexivity|]. split.
  - apply stopCount_none, toMachine_no_stop.
  - apply warnings_none, toMachine_no_warning.
Qed.

Lemma Build_leaves_machine_unless_ready_witness :
  let run := builder.Build Bench.noDefaultConnection Lab.baseDir in
  In (RunnerSpec.command
        (deps.machineOpts deps.machineStartTimeout Lab.baseDir
           (builder.podmanEnv Lab.readyLocals) (Some Lab.buildLog) (Some Lab.buildLog))
        Lab.podman ["machine"; "start"; deps.podmanMachineName])
     (execs (events run []))
  /\ BuildSpec.stopCount (events run []) = 0%nat
  /\ result run [] <> None.
Proof.
  intros run.
  destruct (Build_leaves_machine_unless_ready Bench.noDefaultConnection Lab.baseDir [])
    as [R [E [S _]]]; [reflexivity|].
  split; [|split; assumption].
  subst run. rewrite E. vm_compute. tauto.
Defined.

(** X18: [Build] closes the log file it opened on every path: when the
    log file cannot be made, [Build] returns that error and does nothing
    else; otherwise the last thing it does, whatever happened in between,
    is to close the log file.  Without a base directory nothing at all is
    done. *)
Theorem Build_closes_log (h : Host) (baseDir : string) (t : Trace) :
  let opening := logutil.NewOperationLogger h baseDir builder.buildLogPrefix in
  match result opening t with
  | inl e => builder.Build h baseDir t = (Some e, events opening t)
  | inr logFile =>
      exists es,
        events (builder.Build h baseDir) t
        = events opening t ++ es ++ [EvFs (Close logFile)]
  end
  /\ builder.Build h EmptyString t = (Some (New "logutil: baseDir is required"), []).
Proof.
  cbv zeta. split; [|reflexivity].
  unfold builder.Build.
  rewrite (run_split (bind _ _) t), result_bind, events_bind.
  destruct (result _ t) as [e|logFile].
  - now rewrite result_ret, events_ret, app_nil_r.
  - rewrite events_bind, events_bind. eexists. reflexivity.
Qed.

Lemma result_fsop (h : Host) (op : FsOp) (t : Trace) :
  result (fsutil.fsop h op) t = host_fs h t op.
Proof. reflexivity. Qed.

Lemma events_fsop (h : Host) (op : FsOp) (t : Trace) :
  events (fsutil.fsop h op) t = [EvFs op].
Proof. reflexivity. Qed.

(** X19: [runPodmanRun] removes the ISO of an earlier build before
    anything else.  An ISO that is not there is no error; any other
    failure of the removal is returned as it is, and then neither the
    directory is made nor the container run.  When the directory
    [images] cannot be made, the container is not run either. *)
Theorem runPodmanRun_removes_stale_iso (h : Host)
  (baseDir podmanPath machineName : string) (env : list string) (logFile : File)
  (logger : sysutil.Logger) (t : Trace) :
  let isoPath := filepath.Join [baseDir; "images"; "cloud-init.iso"] in
  let run := builder.runPodmanRun h baseDir podmanPath machineName env logFile logger in
  let removed :=
    match host_fs h t (Remove isoPath) with
    | Some e => IsNotExist e
    | None => true
    end in
  hd_error (events run t) = Some (EvFs (Remove isoPath))
  /\ (removed = false ->
      events run t = [EvFs (Remove isoPath)]
      /\ result run t = host_fs h t (Remove isoPath))
  /\ (removed = true ->
      hd_error (tl (events run t)) = Some (EvFs (MkdirAll (filepath.Dir isoPath)))
      /\ forall e,
           host_fs h (t ++ [EvFs (Remove isoPath)]) (MkdirAll (filepath.Dir isoPath))
           = Some e ->
           result run t = Some e /\ execs (events run t) = []).
Proof.
  intros isoPath run removed. subst run removed.
  unfold builder.runPodmanRun. fold isoPath.
  assert (Nd : filepath.Dir isoPath <> EmptyString) by apply Clean_nonempty.
  destruct (EnsureDir_run h (filepath.Dir isoPath) (t ++ [EvFs (Remove isoPath)]) Nd)
    as [Rd Ed].
  rewrite result_bind, events_bind, result_fsop, events_fsop.
  split; [reflexivity|].
  destruct (host_fs h t (Remove isoPath)) as [e|] eqn:Hr;
    [destruct (IsNotExist e) eqn:Ne|]; (split; [intros X | intros X]);
    try discriminate X.
  - unfold check. rewrite !result_bind, !events_bind, Rd, Ed.
    split; [reflexivity|]. intros e' He. rewrite He.
    rewrite result_ret, events_ret. split; reflexivity.
  - rewrite result_ret, events_ret. split; reflexivity.
  - unfold check. rewrite !result_bind, !events_bind, Rd, Ed.
    split; [reflexivity|]. intros e' He. rewrite He.
    rewrite result_ret, events_ret. split; reflexivity.
Qed.

(** ** More of the smoke-test runner *)

(** X20: [Run] closes the log file it opened on every path: when the log
    file cannot be made, [Run] returns that error and does nothing else;
    otherwise the last thing it does, whatever happened in between, is to
    close the log file.  Without a base directory nothing at all is
    done. *)
Theorem Run_closes_log (h : Host) (baseDir vmPath : string) (args : list string)
  (t : Trace) :
  let opening := logutil.NewOperationLogger h baseDir vmtest.testLogPrefix in
  match result opening t with
  | inl e => vmtest.Run h baseDir vmPath args t = (Some e, events opening t)
  | inr logFile =>
      exists es,
        events (vmtest.Run h baseDir vmPath args) t
        = events opening t ++ es ++ [EvFs (Close logFile)]
  end
  /\ vmtest.Run h EmptyString vmPath args t
     = (Some (New "logutil: baseDir is required"), []).
Proof.
  cbv zeta. split; [|reflexivity].
  unfold vmtest.Run.
  rewrite (run_split (bind _ _) t), result_bind, events_bind.
  destruct (result _ t) as [e|logFile].
  - now rewrite result_ret, events_ret, app_nil_r.
  - rewrite events_bind, events_bind. eexists. reflexivity.
Qed.

Lemma prefix_append (a b s : string) :
  String.prefix (a ^^ b) s = true -> String.prefix a s = true.
Proof.
  revert s. induction a as [|c a IH]; intros s; [now destruct s|].
  destruct s as [|d s]; cbn [String.append String.prefix]; [discriminate|].
  destruct (ascii_dec c d); [apply IH | discriminate].
Qed.

Lemma prefix_Contains (s : string) :
  strings.HasPrefix s "qemu-system" = true -> strings.Contains s "qemu" = true.
Proof.
  unfold strings.HasPrefix. intros H.
  apply (prefix_append "qemu" "-system") in H.
  destruct s as [|c s]; [discriminate H|].
  cbn [strings.Contains]. unfold strings.HasPrefix at 1. now rewrite H.
Qed.

(** X21: whether a VM executable is taken for QEMU depends only on its
    base name: it is, exactly when the base name, in lower case, contains
    [qemu]; the test for the prefix [qemu-system] adds nothing. *)
Theorem looksLikeQEMU_contains (path : string) :
  vmtest.looksLikeQEMU path
  = strings.Contains (strings.ToLower (filepath.Base path)) "qemu".
Proof.
  unfold vmtest.looksLikeQEMU. cbv zeta.
  destruct (strings.HasPrefix _ "qemu-system") eqn:P; [|reflexivity].
  now rewrite (prefix_Contains _ P).
Qed.

Lemma defaultAccel_trimmed (h : Host) :
  Returns (fun a => a <> EmptyString /\ strings.TrimSpace a = a) (vmtest.defaultAccel h).
Proof.
  unfold vmtest.defaultAccel. apply Returns_bind_any. intros v. cbv zeta.
  destruct (String.eqb_spec (strings.TrimSpace v) EmptyString) as [E|N]; cbn [negb];
    apply Returns_ret.
  - split; [discriminate | reflexivity].
  - split; [exact N | apply TrimSpace_idempotent].
Qed.

(** X22: the arguments of the launch end with the passthrough arguments,
    unchanged and in their order, in both modes.  Before them come the
    arguments for QEMU when the bundled build is used or the executable
    looks like QEMU, and [--disk], the clone, [--cdrom], the ISO
    otherwise.  The accelerator given to QEMU is never empty and has no
    white space around it. *)
Theorem launchArgs_passthrough (h : Host) (absVM : string) (usingBundledQEMU : bool)
  (isoPath clonePath : string) (passthroughArgs : list string) (t : Trace) :
  exists accel,
    accel <> EmptyString
    /\ strings.TrimSpace accel = accel
    /\ result (vmtest.launchArgs h absVM usingBundledQEMU isoPath clonePath
                 passthroughArgs) t
       = (if (usingBundledQEMU || vmtest.looksLikeQEMU absVM)%bool
          then RunSpec.qemuTemplate clonePath isoPath accel
          else RunSpec.plainTemplate clonePath isoPath)
         ++ passthroughArgs.
Proof.
  assert (P : forall chosen : list string,
            (if Nat.ltb 0 (length passthroughArgs)
             then chosen ++ passthroughArgs else chosen)
            = chosen ++ passthroughArgs).
  { intros chosen. destruct passthroughArgs; [now rewrite app_nil_r | reflexivity]. }
  unfold vmtest.launchArgs. rewrite result_bind, result_ret, P.
  destruct (usingBundledQEMU || vmtest.looksLikeQEMU absVM)%bool.
  - rewrite result_bind. unfold vmtest.defaultQEMUArgs. rewrite result_bind, result_ret.
    destruct (defaultAccel_trimmed h
                (t ++ events (output.Println h "[*] Launching QEMU with qcow2 + ISO...") t))
      as [N T].
    eexists. split; [exact N|]. split; [exact T|]. reflexivity.
  - exists "tcg". split; [discriminate|]. split; [reflexivity|].
    now rewrite result_bind, result_ret.
Qed.

(** ** The uninstall *)

Lemma Printf_execs_nil (logger : sysutil.Logger) (line : string) (t : Trace) :
  execs (events (sysutil.Printf logger line) t) = [].
Proof. now destruct logger. Qed.

Lemma killEach_execs (h : Host) (baseDir : string) (logger : sysutil.Logger)
  (names : list string) (aggregate : option error) (t : Trace) :
  execs (events (uninstall.killEach h baseDir logger names aggregate) t)
  = map (UninstallSpec.killCommand baseDir logger) names.
Proof.
  revert aggregate t. induction names as [|name rest IH]; intros aggregate t;
    [reflexivity|].
  cbn [uninstall.killEach map].
  rewrite events_bind, execs_app, RunCommand_execs.
  change (String.eqb "taskkill" EmptyString) with false. cbv iota.
  fold (UninstallSpec.killCommand baseDir logger name). cbn [app]. f_equal.
  destruct (result _ t) as [res [e|]]; [|apply IH].
  destruct (match res with Some r => sysutil.ExitCode r =? 128 | None => false end);
    [apply IH|].
  now rewrite events_bind, execs_app, Printf_execs_nil, IH.
Qed.

(** X23: [killProcesses] tries every process name it is given, in order,
    whatever the earlier attempts returned: it starts one [taskkill] per
    name, with [/IM], the name, [/T] and [/F], and nothing else. *)
Theorem killProcesses_tries_every_name (h : Host) (baseDir : string)
  (logger : sysutil.Logger) (processNames : list string) (t : Trace) :
  execs (events (uninstall.killProcesses h baseDir logger processNames) t)
  = map (UninstallSpec.killCommand baseDir logger) processNames.
Proof. unfold uninstall.killProcesses. apply killEach_execs. Qed.

Lemma killCall_not_running (h : Host) (baseDir : string) (logger : sysutil.Logger)
  (name : string) (t : Trace) :
  UninstallSpec.notRunning h baseDir logger ->
  exists r e,
    result (UninstallSpec.killCall h baseDir logger name) t = (Some r, Some e)
    /\ sysutil.ExitCode r = 128.
Proof.
  intros H. destruct (H t name) as [p [B [X D]]].
  unfold UninstallSpec.killCall.
  rewrite (RunCommand_result h _ "taskkill" _ t ltac:(discriminate)), B.
  unfold RunnerSpec.conclude.
  change (0 <? sysutil.Timeout (uninstall.killOpts baseDir logger)) with true.
  cbv iota. cbn [sysutil.cmdRun].
  change (sysutil.Timeout (uninstall.killOpts baseDir logger)) with (5 * Second).
  destruct (5 * Second <=? runtime p) eqn:L; [apply Z.leb_le in L; lia|].
  cbn [sysutil.exited sysutil.elapsed sysutil.ctxErr sysutil.runErr
       sysutil.ProcessState sysutil.outBytes sysutil.errBytes].
  rewrite L, X. cbn. eexists. eexists. split; reflexivity.
Qed.

Lemma killEach_not_running (h : Host) (baseDir : string) (logger : sysutil.Logger)
  (names : list string) (aggregate : option error) (t : Trace) :
  UninstallSpec.notRunning h baseDir logger ->
  result (uninstall.killEach h baseDir logger names aggregate) t = aggregate.
Proof.
  intros H. revert t. induction names as [|name rest IH]; intros t; [reflexivity|].
  cbn [uninstall.killEach]. rewrite result_bind.
  destruct (killCall_not_running h baseDir logger name t H) as [r [e [R X]]].
  unfold UninstallSpec.killCall in R. rewrite R. cbv beta iota. rewrite X.
  change (128 =? 128) with true. cbv iota. apply IH.
Qed.

(** X24: a helper process that is not running is no failure: when every
    [taskkill] exits with status 128 before its deadline,
    [killProcesses] returns no error. *)
Theorem killProcesses_ignores_not_running (h : Host) (baseDir : string)
  (logger : sysutil.Logger) (processNames : list string) (t : Trace) :
  UninstallSpec.notRunning h baseDir logger ->
  result (uninstall.killProcesses h baseDir logger processNames) t = None.
Proof.
  intros H. unfold uninstall.killProcesses. exact (killEach_not_running _ _ _ _ _ _ H).
Qed.

Lemma killProcesses_ignores_not_running_witness :
  result (uninstall.killProcesses Bench.idle Lab.baseDir None
            ["podman.exe"; "qemu-system-x86_64.exe"]) [] = None.
Proof.
  apply (killProcesses_ignores_not_running Bench.idle Lab.baseDir None).
  intros t name. eexists. split; [reflexivity|]. split; reflexivity.
Defined.

Lemma removals_app (a b : Trace) :
  UninstallSpec.removals (a ++ b)
  = UninstallSpec.removals a ++ UninstallSpec.removals b.
Proof.
  induction a as [|e a IH]; [reflexivity|].
  destruct e as [| |[]| | | | | | | | | |]; cbn; congruence.
Qed.

Lemma removals_none (es : Trace) :
  Forall UninstallSpec.keeps es -> UninstallSpec.removals es = [].
Proof.
  induction 1 as [|e es He _ IH]; [reflexivity|].
  destruct e as [| |[]| | | | | | | | | |]; cbn in *; tauto.
Qed.

Lemma killEach_keeps (h : Host) (baseDir : string) (logger : sysutil.Logger)
  (names : list string) (aggregate : option error) :
  Emits UninstallSpec.keeps (uninstall.killEach h baseDir logger names aggregate).
Proof.
  revert aggregate. induction names as [|name rest IH]; intros aggregate;
    cbn [uninstall.killEach]; [apply Emits_ret|].
  apply Emits_bind; [emits|]. intros [res [e|]]; [|apply IH].
  destruct (match res with Some r => sysutil.ExitCode r =? 128 | None => false end);
    [apply IH|].
  apply Emits_bind; [emits | intros _; apply IH].
Qed.

Lemma RemovePodmanMachine_keeps (h : Host) (baseDir podmanPath : string)
  (logger : sysutil.Logger) :
  Emits UninstallSpec.keeps (deps.RemovePodmanMachine h baseDir podmanPath logger).
Proof. emits. Qed.

Lemma scheduleSelfDelete_keeps (h : Host) (scriptPath binaryPath : string)
  (logger : sysutil.Logger) :
  Emits UninstallSpec.keeps (uninstall.scheduleSelfDelete h scriptPath binaryPath logger).
Proof. unfold uninstall.scheduleSelfDelete. emits. Qed.

Lemma removeTarget_run (h : Host) (logger : sysutil.Logger) (path : string)
  (t : Trace) :
  path <> EmptyString ->
  UninstallSpec.removals (events (uninstall.removeTarget h logger path) t) = [path]
  /\ (result (uninstall.removeTarget h logger path) t = None
      \/ exists e, result (uninstall.removeTarget h logger path) t
                   = Some (Wrap ("remove " ^^ path ^^ ": ") e)).
Proof.
  intros N. unfold uninstall.removeTarget, fsutil.RemoveIfExists.
  destruct (String.eqb_spec path EmptyString); [contradiction|].
  unfold events, result, fsutil.fsop, bind, request, ret.
  destruct (host_fs h t (RemoveAll path)) as [e|]; [destruct (IsNotExist e)|];
    destruct logger; cbn; eauto.
Qed.

Lemma removeTargets_run (h : Host) (logger : sysutil.Logger) (paths : list string)
  (t : Trace) :
  Forall (fun p => p <> EmptyString) paths ->
  let run := deps.forEach paths (uninstall.removeTarget h logger) in
  exists n,
    (n <= length paths)%nat
    /\ UninstallSpec.removals (events run t) = firstn n paths
    /\ (result run t = None -> n = length paths)
    /\ (forall e, result run t = Some e ->
          exists path e', e = Wrap ("remove " ^^ path ^^ ": ") e').
Proof.
  intros Hne. cbv zeta. revert t.
  induction Hne as [|p paths Hp _ IH]; intros t.
  - exists 0%nat. repeat split; auto. intros e E. discriminate E.
  - destruct (forEach_cons p paths (uninstall.removeTarget h logger) t) as [R E].
    rewrite R, E, removals_app.
    destruct (removeTarget_run h logger p t Hp) as [Rm [Ok|[e Bad]]]; rewrite Rm.
    + rewrite Ok.
      destruct (IH (t ++ events (uninstall.removeTarget h logger p) t))
        as [n [Hn [Ho [Hr He]]]].
      exists (S n). cbn [length firstn app]. rewrite Ho.
      repeat split; [lia | intros K; now rewrite (Hr K) | exact He].
    + rewrite Bad. exists 1%nat. cbn. repeat split; [lia | discriminate|].
      intros e0 K. injection K as <-. eauto.
Qed.

Lemma targets_nonempty (baseDir : string) :
  Forall (fun p => p <> EmptyString) (uninstall.targets baseDir).
Proof.
  unfold uninstall.targets.
  repeat (constructor; [apply Join_under_nonempty; reflexivity|]). constructor.
Qed.

Lemma removals_bind_keeps {A B : Type} (m : M A) (f : A -> M B) (t : Trace) :
  Emits UninstallSpec.keeps m ->
  UninstallSpec.removals (events (bind m f) t)
  = UninstallSpec.removals (events (f (result m t)) (t ++ events m t)).
Proof.
  intros K. rewrite events_bind, removals_app, (removals_none _ (K t)). reflexivity.
Qed.

Lemma Printf_keeps (logger : sysutil.Logger) (line : string) :
  Emits UninstallSpec.keeps (sysutil.Printf logger line).
Proof. emits. Qed.

Lemma PathExists_keeps (h : Host) (path : string) :
  Emits UninstallSpec.keeps (fsutil.PathExists h path).
Proof. emits. Qed.

(** What [PerformUninstall] does before and after the loop over the
    directories removes nothing. *)
Lemma PerformUninstall_run (h : Host) (unixNow : Trace -> Z) (baseDir : string)
  (selfDelete : bool) (binaryPath : string) (logger : sysutil.Logger) (t : Trace) :
  let run := uninstall.PerformUninstall h unixNow baseDir selfDelete binaryPath logger in
  let loop := deps.forEach (uninstall.targets baseDir) (uninstall.removeTarget h logger) in
  exists t1,
    UninstallSpec.removals (events run t) = UninstallSpec.removals (events loop t1)
    /\ match result loop t1 with
       | Some e => result run t = Some e
       | None =>
           if negb selfDelete then result run t = None
           else if String.eqb binaryPath EmptyString
           then result run t = Some (New "cannot self-delete: binary path unknown")
           else True
       end.
Proof.
  cbv zeta. unfold uninstall.PerformUninstall, uninstall.killProcesses.
  rewrite result_bind, (removals_bind_keeps _ _ t (Printf_keeps _ _)).
  set (t1 := t ++ _).
  rewrite result_bind, (removals_bind_keeps _ _ t1 (killEach_keeps _ _ _ _ _)).
  set (t2 := t1 ++ _). generalize (result (uninstall.killEach h baseDir logger
    ["podman.exe"; "qemu-system-x86_64.exe"] None) t1). intros killErr.
  assert (Kw : Emits UninstallSpec.keeps
                 (match killErr with
                  | Some e =>
                      sysutil.Printf logger
                        ("warning: failed to terminate some helper processes: "
                         ^^ Error e)
                  | None => ret tt
                  end)) by (destruct killErr; emits).
  rewrite result_bind, (removals_bind_keeps _ _ t2 Kw).
  set (t3 := t2 ++ _).
  rewrite result_bind, (removals_bind_keeps _ _ t3 (PathExists_keeps _ _)).
  set (t4 := t3 ++ _).
  destruct (result (fsutil.PathExists h _) t3) as [exists_ ignored].
  match goal with
  | |- context [bind ?m _] =>
      assert (Kr : Emits UninstallSpec.keeps m)
        by (destruct exists_; [|apply Emits_ret];
            apply Emits_bind; [apply RemovePodmanMachine_keeps|];
            intros [e|]; emits);
      rewrite result_bind, (removals_bind_keeps m _ t4 Kr)
  end.
  set (t5 := t4 ++ _). exists t5.
  unfold check. rewrite result_bind, events_bind, removals_app.
  destruct (result (deps.forEach _ _) t5) as [e|].
  - rewrite events_ret, result_ret.
    split; [apply app_nil_r | reflexivity].
  - destruct selfDelete; cbn [negb].
    + destruct (String.eqb binaryPath EmptyString).
      * rewrite events_ret, result_ret.
        split; [apply app_nil_r | reflexivity].
      * split; [|exact I].
        match goal with
        | |- _ ++ UninstallSpec.removals ?es = _ =>
            assert (Ks : UninstallSpec.removals es = [])
        end.
        { apply removals_none.
          apply Emits_bind; [emits|]. intros now. apply scheduleSelfDelete_keeps. }
        rewrite Ks. apply app_nil_r.
    + rewrite events_ret, result_ret.
      split; [apply app_nil_r | reflexivity].
Qed.

(** *** The order of the removals *)

Lemma bind_assoc_run {A B C : Type} (m : M A) (f : A -> M B) (g : B -> M C)
  (t : Trace) :
  bind (bind m f) g t = bind m (fun a => bind (f a) g) t.
Proof.
  unfold bind. destruct (m t) as [a es]. destruct (f a (t ++ es)) as [b es'].
  rewrite <- !app_assoc. destruct (g b (t ++ es ++ es')) as [c es''].
  now rewrite <- app_assoc.
Qed.

Lemma bind_ext_run {A B : Type} (m : M A) (f g : A -> M B) (t : Trace) :
  (forall a t', f a t' = g a t') -> bind m f t = bind m g t.
Proof.
  intros H. unfold bind. destruct (m t) as [a es]. now rewrite H.
Qed.

(** [PerformUninstall] is what it does before the removals, the removals,
    and what it does after them. *)
Lemma PerformUninstall_split (h : Host) (unixNow : Trace -> Z) (baseDir : string)
  (selfDelete : bool) (binaryPath : string) (logger : sysutil.Logger) (t : Trace) :
  let run := uninstall.PerformUninstall h unixNow baseDir selfDelete binaryPath logger in
  let before := UninstallSpec.beforeRemoval h baseDir logger in
  let loop :=
    check (deps.forEach (uninstall.targets baseDir) (uninstall.removeTarget h logger))
      (fun e => e)
      (UninstallSpec.afterRemoval h unixNow baseDir selfDelete binaryPath logger) in
  result run t = result loop (t ++ events before t)
  /\ events run t = events before t ++ events loop (t ++ events before t).
Proof.
  cbv zeta. rewrite <- (result_bind _ (fun _ => _)), <- (events_bind _ (fun _ => _)).
  unfold result, events.
  enough (K : bind (UninstallSpec.beforeRemoval h baseDir logger)
                (fun _ =>
                   check (deps.forEach (uninstall.targets baseDir)
                            (uninstall.removeTarget h logger))
                     (fun e => e)
                     (UninstallSpec.afterRemoval h unixNow baseDir selfDelete
                        binaryPath logger)) t
              = uninstall.PerformUninstall h unixNow baseDir selfDelete binaryPath
                  logger t)
    by (rewrite K; split; reflexivity).
  unfold uninstall.PerformUninstall, UninstallSpec.beforeRemoval,
    UninstallSpec.afterRemoval.
  rewrite bind_assoc_run. apply bind_ext_run. intros _ t1.
  rewrite bind_assoc_run. apply bind_ext_run. intros killErr t2.
  rewrite bind_assoc_run. apply bind_ext_run. intros _ t3.
  rewrite bind_assoc_run. apply bind_ext_run. intros [exists_ ignored] t4.
  reflexivity.
Qed.

Lemma removeTarget_removed (h : Host) (logger : sysutil.Logger) (path : string)
  (t : Trace) :
  path <> EmptyString -> UninstallSpec.removable h t path ->
  result (uninstall.removeTarget h logger path) t = None
  /\ events (uninstall.removeTarget h logger path) t
     = UninstallSpec.removed logger [path].
Proof.
  intros N. unfold UninstallSpec.removable, uninstall.removeTarget,
    fsutil.RemoveIfExists.
  destruct (String.eqb_spec path EmptyString); [contradiction|].
  unfold events, result, fsutil.fsop, bind, request, ret.
  destruct (host_fs h t (RemoveAll path)) as [e|]; [intros ->|intros _];
    destruct logger; split; reflexivity.
Qed.

Lemma removeTarget_refused (h : Host) (logger : sysutil.Logger) (path : string)
  (t : Trace) (e : error) :
  path <> EmptyString ->
  host_fs h t (RemoveAll path) = Some e -> IsNotExist e = false ->
  result (uninstall.removeTarget h logger path) t
  = Some (Wrap ("remove " ^^ path ^^ ": ") e)
  /\ events (uninstall.removeTarget h logger path) t = [EvFs (RemoveAll path)].
Proof.
  intros N Hf Hn. unfold uninstall.removeTarget, fsutil.RemoveIfExists.
  destruct (String.eqb_spec path EmptyString); [contradiction|].
  unfold events, result, fsutil.fsop, bind, request, ret.
  rewrite Hf, Hn. split; reflexivity.
Qed.

Lemma allRemoved_tail (h : Host) (logger : sysutil.Logger) (t : Trace) (p : string)
  (paths : list string) :
  UninstallSpec.allRemoved h logger t (p :: paths) ->
  UninstallSpec.removable h t p
  /\ UninstallSpec.allRemoved h logger (t ++ UninstallSpec.removed logger [p]) paths.
Proof.
  intros H. split.
  - specialize (H [] p paths eq_refl). cbn in H. now rewrite app_nil_r in H.
  - intros done q rest ->. specialize (H (p :: done) q rest eq_refl).
    rewrite <- app_assoc.
    change (UninstallSpec.removed logger (p :: done))
      with (UninstallSpec.removed logger ([p] ++ done)) in H.
    unfold UninstallSpec.removed in H |- *. now rewrite flat_map_app in H.
Qed.

Lemma allRemoved_always (h : Host) (logger : sysutil.Logger) (t : Trace)
  (paths : list string) :
  (forall t' p, In p paths -> host_fs h t' (RemoveAll p) = None) ->
  UninstallSpec.allRemoved h logger t paths.
Proof.
  intros H done p rest ->. unfold UninstallSpec.removable.
  now rewrite (H _ p (in_elt p done rest)).
Qed.

(** The loop over directories that can all be removed. *)
Lemma removeTargets_all (h : Host) (logger : sysutil.Logger) (paths : list string)
  (t : Trace) :
  Forall (fun p => p <> EmptyString) paths ->
  UninstallSpec.allRemoved h logger t paths ->
  let run := deps.forEach paths (uninstall.removeTarget h logger) in
  result run t = None /\ events run t = UninstallSpec.removed logger paths.
Proof.
  intros Hne. cbv zeta. revert t.
  induction Hne as [|p paths Hp _ IH]; intros t Hall.
  - split; reflexivity.
  - apply allRemoved_tail in Hall. destruct Hall as [H0 Hall].
    destruct (forEach_cons p paths (uninstall.removeTarget h logger) t) as [R E].
    destruct (removeTarget_removed h logger p t Hp H0) as [Rp Ep].
    rewrite R, E, Rp, Ep. destruct (IH _ Hall) as [RI EI]. rewrite RI, EI.
    split; [reflexivity|].
    change (p :: paths) with ([p] ++ paths).
    unfold UninstallSpec.removed. now rewrite flat_map_app.
Qed.

(** The loop over directories of which the first that cannot be removed
    is [bad]. *)
Lemma removeTargets_stops (h : Host) (logger : sysutil.Logger)
  (done rest : list string) (bad : string) (t : Trace) (e : error) :
  Forall (fun p => p <> EmptyString) done -> bad <> EmptyString ->
  UninstallSpec.allRemoved h logger t done ->
  host_fs h (t ++ UninstallSpec.removed logger done) (RemoveAll bad) = Some e ->
  IsNotExist e = false ->
  let run := deps.forEach (done ++ bad :: rest) (uninstall.removeTarget h logger) in
  result run t = Some (Wrap ("remove " ^^ bad ^^ ": ") e)
  /\ events run t = UninstallSpec.removed logger done ++ [EvFs (RemoveAll bad)].
Proof.
  intros Hne Hb Hall Hf Hn. cbv zeta.
  destruct (removeTargets_all h logger done t Hne Hall) as [R E].
  destruct (removeTarget_refused h logger bad _ e Hb Hf Hn) as [Rb Eb].
  rewrite <- E in Rb, Eb.
  destruct (forEach_stops done rest bad (uninstall.removeTarget h logger) t _ R Rb)
    as [R' E'].
  rewrite R', E', Eb, E. split; reflexivity.
Qed.

Lemma afterRemoval_keeps (h : Host) (unixNow : Trace -> Z) (baseDir : string)
  (selfDelete : bool) (binaryPath : string) (logger : sysutil.Logger) :
  Emits UninstallSpec.keeps
    (UninstallSpec.afterRemoval h unixNow baseDir selfDelete binaryPath logger).
Proof.
  unfold UninstallSpec.afterRemoval.
  destruct (negb selfDelete); [apply Emits_ret|].
  destruct (String.eqb binaryPath EmptyString); [apply Emits_ret|].
  apply Emits_bind; [emits|]. intros now. apply scheduleSelfDelete_keeps.
Qed.

(** X25: [PerformUninstall] removes the directories [tools], [images],
    [runtime], [cache] and [templates] of the base directory, in this
    order, and removes nothing else: not the directory [logs], and not the
    base directory; when it returns no error, all five were removed.  It
    stops at the first directory that cannot be removed: when the host
    lets the directories before [bad] be removed and refuses the removal
    of [bad] with an error other than not-exists, the call ends with that
    removal and returns the error, wrapped with the path; no directory
    after [bad] is touched.  When the host lets all five be removed, they
    are removed one after the other and the call goes on to the
    self-deletion; without self-deletion it ends there with no error. *)
Theorem PerformUninstall_removes_in_order (h : Host) (unixNow : Trace -> Z)
  (baseDir : string) (selfDelete : bool) (binaryPath : string)
  (logger : sysutil.Logger) (t : Trace) :
  let run := uninstall.PerformUninstall h unixNow baseDir selfDelete binaryPath logger in
  let before := UninstallSpec.beforeRemoval h baseDir logger in
  let t0 := t ++ events before t in
  (exists n,
     (n <= 5)%nat
     /\ UninstallSpec.removals (events run t) = firstn n (uninstall.targets baseDir)
     /\ (result run t = None -> n = 5%nat))
  /\ (forall done bad rest e,
        uninstall.targets baseDir = done ++ bad :: rest ->
        UninstallSpec.allRemoved h logger t0 done ->
        host_fs h (t0 ++ UninstallSpec.removed logger done) (RemoveAll bad) = Some e ->
        IsNotExist e = false ->
        result run t = Some (Wrap ("remove " ^^ bad ^^ ": ") e)
        /\ events run t
           = events before t ++ UninstallSpec.removed logger done
             ++ [EvFs (RemoveAll bad)])
  /\ (UninstallSpec.allRemoved h logger t0 (uninstall.targets baseDir) ->
      let t1 := t0 ++ UninstallSpec.removed logger (uninstall.targets baseDir) in
      let last :=
        UninstallSpec.afterRemoval h unixNow baseDir selfDelete binaryPath logger in
      result run t = result last t1
      /\ events run t
         = events before t ++ UninstallSpec.removed logger (uninstall.targets baseDir)
           ++ events last t1
      /\ UninstallSpec.removals (events last t1) = []
      /\ (selfDelete = false -> result run t = None /\ events last t1 = [])).
Proof.
  cbv zeta. split; [|split].
  - destruct (PerformUninstall_run h unixNow baseDir selfDelete binaryPath logger t)
      as [t1 [Ev Res]].
    destruct (removeTargets_run h logger (uninstall.targets baseDir) t1
                (targets_nonempty baseDir)) as [n [Hn [Ho [Hr _]]]].
    exists n. split; [exact Hn|]. split; [now rewrite Ev|].
    intros R. apply Hr.
    destruct (result (deps.forEach _ _) t1) as [e|]; [|reflexivity].
    rewrite Res in R. discriminate R.
  - intros done bad rest e L Hall Hf Hn.
    pose proof (targets_nonempty baseDir) as Hne. rewrite L in Hne.
    apply Forall_app in Hne. destruct Hne as [Hne Hb].
    apply Forall_cons_iff in Hb. destruct Hb as [Hb _].
    destruct (removeTargets_stops h logger done rest bad _ e Hne Hb Hall Hf Hn)
      as [R E]. cbv zeta in R, E.
    destruct (PerformUninstall_split h unixNow baseDir selfDelete binaryPath logger t)
      as [Sr Se]. cbv zeta in Sr, Se. rewrite Sr, Se. unfold check.
    rewrite result_bind, events_bind, L, R, E, result_ret, events_ret, app_nil_r.
    split; reflexivity.
  - intros Hall.
    destruct (removeTargets_all h logger (uninstall.targets baseDir) _
                (targets_nonempty baseDir) Hall) as [R E]. cbv zeta in R, E.
    destruct (PerformUninstall_split h unixNow baseDir selfDelete binaryPath logger t)
      as [Sr Se]. cbv zeta in Sr, Se. rewrite Sr, Se. unfold check.
    rewrite result_bind, events_bind, R, E.
    split; [reflexivity|]. split; [reflexivity|]. split.
    + apply removals_none, afterRemoval_keeps.
    + intros ->. split; reflexivity.
Qed.

Lemma PerformUninstall_removes_in_order_witness :
  let run :=
    uninstall.PerformUninstall Bench.busyRuntime (fun _ => 0) "/srv/base" false
      EmptyString None in
  let t0 := events (UninstallSpec.beforeRemoval Bench.busyRuntime "/srv/base" None) [] in
  UninstallSpec.allRemoved Bench.busyRuntime None t0
    ["/srv/base/tools"; "/srv/base/images"]
  /\ host_fs Bench.busyRuntime
       (t0 ++ UninstallSpec.removed None ["/srv/base/tools"; "/srv/base/images"])
       (RemoveAll "/srv/base/runtime")
     = Some (OsError "unlinkat /srv/base/runtime: device or resource busy" false)
  /\ result run []
     = Some (Wrap "remove /srv/base/runtime: "
               (OsError "unlinkat /srv/base/runtime: device or resource busy" false))
  /\ events run []
     = t0 ++ UninstallSpec.removed None ["/srv/base/tools"; "/srv/base/images"]
       ++ [EvFs (RemoveAll "/srv/base/runtime")].
Proof.
  intros run t0.
  assert (Hall : UninstallSpec.allRemoved Bench.busyRuntime None t0
                   ["/srv/base/tools"; "/srv/base/images"]).
  { apply allRemoved_always. intros t' p [<-|[<-|[]]]; reflexivity. }
  split; [exact Hall|]. split; [reflexivity|].
  destruct (proj1 (proj2 (PerformUninstall_removes_in_order Bench.busyRuntime
                            (fun _ => 0) "/srv/base" false EmptyString None []))
              ["/srv/base/tools"; "/srv/base/images"] "/srv/base/runtime"
              ["/srv/base/cache"; "/srv/base/templates"]
              (OsError "unlinkat /srv/base/runtime: device or resource busy" false)
              eq_refl Hall eq_refl eq_refl) as [R E].
  split; [exact R | exact E].
Defined.

(** X26: the binary path is looked at last: with [selfDelete] set and no
    binary path, [PerformUninstall] always returns an error, and when
    that error is the one about the missing binary path, the five
    directories have all been removed before. *)
Theorem PerformUninstall_self_delete_needs_path (h : Host) (unixNow : Trace -> Z)
  (baseDir : string) (logger : sysutil.Logger) (t : Trace) :
  let run := uninstall.PerformUninstall h unixNow baseDir true EmptyString logger in
  result run t <> None
  /\ (result run t = Some (New "cannot self-delete: binary path unknown") ->
      UninstallSpec.removals (events run t) = uninstall.targets baseDir).
Proof.
  cbv zeta.
  destruct (PerformUninstall_run h unixNow baseDir true EmptyString logger t)
    as [t1 [Ev Res]].
  destruct (removeTargets_run h logger (uninstall.targets baseDir) t1
              (targets_nonempty baseDir)) as [n [Hn [Ho [Hr He]]]].
  destruct (result (deps.forEach _ _) t1) as [e|].
  - rewrite Res. split; [discriminate|]. intros K. injection K as ->.
    destruct (He _ eq_refl) as [path [e' X]]. discriminate X.
  - cbn in Res. rewrite Res. split; [discriminate|]. intros _.
    rewrite Ev, Ho, (Hr eq_refl). reflexivity.
Qed.
(** ** The stop of the machine *)

Lemma stoppedAnywhere_message (e : error) (res : option sysutil.RunResult) :
  LifecycleSpec.stoppedAnywhere e res = false -> MachineSpec.alreadyStopped e = false.
Proof.
  unfold LifecycleSpec.stoppedAnywhere, LifecycleSpec.saysStopped,
    MachineSpec.alreadyStopped.
  intros H. apply orb_false_iff in H. exact (proj1 H).
Qed.

(** C3 (amended): [StopPodmanMachine] runs the stop command once and does
    nothing else.  When the command succeeds, or fails with the
    missing-machine signature the controller recognizes (one of "no such
    vm", "not found", "does not exist" in the error message, or one of
    "does not exist", "no such vm" on the standard output or the standard
    error), the call returns no error.  A failure without that signature
    and without the words "already stopped" in the error message, on the
    standard output or on the standard error is returned, wrapped. *)
Theorem StopPodmanMachine_missing_is_success (h : Host)
  (baseDir podmanPath machineName : string) (env : list string)
  (logWriter : option File) (logger : sysutil.Logger) (t : Trace) :
  let stop := MachineSpec.stopCall h baseDir podmanPath machineName env logWriter logger in
  let run := deps.StopPodmanMachine h baseDir podmanPath machineName env logWriter logger in
  events run t = events stop t
  /\ (snd (result stop t) = None -> result run t = None)
  /\ (forall e, snd (result stop t) = Some e ->
        MachineSpec.recognized e (fst (result stop t)) = true ->
        result run t = None)
  /\ (forall e, snd (result stop t) = Some e ->
        MachineSpec.recognized e (fst (result stop t)) = false ->
        LifecycleSpec.stoppedAnywhere e (fst (result stop t)) = false ->
        result run t = Some (Wrap "podman machine stop: " e)).
Proof.
  intros stop run. split; [apply StopPodmanMachine_events|].
  subst run. unfold deps.StopPodmanMachine.
  fold (MachineSpec.stopCall h baseDir podmanPath machineName env logWriter logger).
  fold stop. rewrite result_bind.
  destruct (result stop t) as [res [e|]] eqn:R; cbn [fst snd].
  - split; [discriminate|]. split.
    + intros e0 E S. injection E as <-.
      rewrite machineMissing_recognized, S. reflexivity.
    + intros e0 E S A. injection E as <-.
      apply stoppedAnywhere_message in A. unfold MachineSpec.alreadyStopped in A.
      rewrite machineMissing_recognized, S, A. reflexivity.
  - split; [reflexivity|]. split; intros e0 E; discriminate E.
Qed.

Lemma StopPodmanMachine_missing_is_success_witness :
  let stop := MachineSpec.stopCall Lab.noMachine Lab.baseDir Lab.podman EmptyString [] None None in
  let e := RunnerSpec.processFailed 125
             "/srv/base/tools/podman/podman.exe machine stop cloudinit-builder" in
  let stuck := MachineSpec.stopCall Lab.stuckMachine Lab.baseDir Lab.podman EmptyString [] None None in
  (snd (result stop []) = Some e
   /\ MachineSpec.recognized e (fst (result stop [])) = true
   /\ result (deps.StopPodmanMachine Lab.noMachine Lab.baseDir Lab.podman EmptyString
                [] None None) [] = None)
  /\ (snd (result stuck []) = Some e
      /\ MachineSpec.recognized e (fst (result stuck [])) = false
      /\ LifecycleSpec.stoppedAnywhere e (fst (result stuck [])) = false
      /\ result (deps.StopPodmanMachine Lab.stuckMachine Lab.baseDir Lab.podman EmptyString
                   [] None None) [] = Some (Wrap "podman machine stop: " e)).
Proof.
  intros stop e stuck. split.
  - split; [reflexivity|]. split; [reflexivity|].
    apply (proj1 (proj2 (proj2 (StopPodmanMachine_missing_is_success Lab.noMachine
             Lab.baseDir Lab.podman EmptyString [] None None []))) e); reflexivity.
  - split; [reflexivity|]. split; [reflexivity|]. split; [reflexivity|].
    apply (proj2 (proj2 (proj2 (StopPodmanMachine_missing_is_success Lab.stuckMachine
             Lab.baseDir Lab.podman EmptyString [] None None []))) e); reflexivity.
Defined.

(** C3, as the specification words it, fails: a stop that reports "not
    found" on its standard error shows a missing-machine signature, and
    its failure is returned as an error all the same. *)
Lemma stop_not_found_on_stderr_is_error :
  let stop :=
    MachineSpec.stopCall Bench.missingOnStop Lab.baseDir Lab.podman EmptyString
      [] None None in
  let run :=
    deps.StopPodmanMachine Bench.missingOnStop Lab.baseDir Lab.podman EmptyString
      [] None None in
  exists r e,
    result stop [] = (Some r, Some e)
    /\ sysutil.Stderr_ r = "Error: machine not found"
    /\ MachineSpec.listedMissing (Error e) (sysutil.Stdout_ r) (sysutil.Stderr_ r) = true
    /\ result run [] = Some (Wrap "podman machine stop: " e).
Proof.
  intros stop run. eexists. eexists. split; [reflexivity|].
  repeat split; reflexivity.
Qed.

(** The words "already stopped" are looked for in the error message only,
    which holds the exit status and the command line, never what the
    command printed: a stop of a machine that is stopped already is
    returned as an error. *)
Lemma stop_already_stopped_on_stderr_is_error :
  let stop :=
    MachineSpec.stopCall Bench.stoppedOnStop Lab.baseDir Lab.podman EmptyString
      [] None None in
  let run :=
    deps.StopPodmanMachine Bench.stoppedOnStop Lab.baseDir Lab.podman EmptyString
      [] None None in
  exists r e,
    result stop [] = (Some r, Some e)
    /\ sysutil.Stderr_ r = "Error: cloudinit-builder: VM already stopped"
    /\ LifecycleSpec.stoppedAnywhere e (Some r) = true
    /\ Error e = "command failed with exit code 125: /srv/base/tools/podman/podman.exe machine stop cloudinit-builder"
    /\ result run [] = Some (Wrap "podman machine stop: " e).
Proof.
  intros stop run. eexists. eexists. split; [reflexivity|].
  repeat split; reflexivity.
Qed.
(** ** The retry of the creation *)

(** C4 fails on the code: on a host where the machine is absent and the
    first [machine init] exits with status 125 and "Error: connection
    already exists" on its standard error (a second one would succeed),
    [ensureMachineExists] returns the error of that first [machine init]
    at once: one [machine init] in all, no cleanup after it, no retry.
    The signature is looked for in the error message, which holds the exit
    status and the command line and never what the command printed: the
    same failure is followed by the cleanup and one more [machine init],
    and the call succeeds, when the base directory happens to be named
    "/srv/connection already exists". *)
Theorem init_connection_exists_is_not_retried :
  let h := Lab.staleConnection in
  let init := MachineSpec.initCall h Lab.baseDir Lab.podman [] None None in
  let run := deps.ensureMachineExists h Lab.baseDir Lab.podman [] None None in
  let elsewhere :=
    deps.ensureMachineExists h Lab.staleBase Lab.stalePodman [] None None in
  exists r e,
    result init (MachineSpec.atInit h Lab.baseDir Lab.podman [] None None [])
    = (Some r, Some e)
    /\ sysutil.Stderr_ r = "Error: connection already exists"
    /\ Error e = "command failed with exit code 125: /srv/base/tools/podman/podman.exe machine init cloudinit-builder --now"
    /\ snd (result init (MachineSpec.atRetry h Lab.baseDir Lab.podman [] None None []))
       = None
    /\ MachineSpec.FailedAtOnce h Lab.baseDir Lab.podman [] None None [] e
    /\ map cmdArgs (execs (events run []))
       = [["machine"; "inspect"; "cloudinit-builder"];
          ["system"; "connection"; "rm"; "cloudinit-builder"];
          ["system"; "connection"; "rm"; "cloudinit-builder-root"];
          ["machine"; "init"; "cloudinit-builder"; "--now"]]
    /\ result elsewhere [] = None
    /\ map cmdArgs (execs (events elsewhere []))
       = [["machine"; "inspect"; "cloudinit-builder"];
          ["system"; "connection"; "rm"; "cloudinit-builder"];
          ["system"; "connection"; "rm"; "cloudinit-builder-root"];
          ["machine"; "init"; "cloudinit-builder"; "--now"];
          ["system"; "connection"; "rm"; "cloudinit-builder"];
          ["system"; "connection"; "rm"; "cloudinit-builder-root"];
          ["machine"; "init"; "cloudinit-builder"; "--now"]].
Proof.
  intros h init run elsewhere. eexists. eexists. split; [reflexivity|].
  repeat split; reflexivity.
Qed.
(** ** A run without the base image *)

Lemma Run_before_base_check (h : Host) (baseDir vmPath : string) (args : list string)
  (t : Trace) :
  result (VmSpec.toBaseCheck h baseDir vmPath) t = None ->
  RunSpec.EndsBeforeBaseCheck h baseDir vmPath args t.
Proof.
  unfold RunSpec.EndsBeforeBaseCheck. cbv zeta.
  unfold result, events.
  destruct (VmSpec.toBaseCheck h baseDir vmPath t) as [r pre] eqn:Epre.
  cbn [fst snd]. intros ->. revert Epre.
  unfold vmtest.Run, VmSpec.toBaseCheck, vmtest.Run_resolved, check, bind, ret.
  fold (VmSpec.isoPath baseDir).
  destruct (String.eqb vmPath EmptyString); mrun.
  all: intros X; injection X as <-; cbn [fst snd];
    repeat match goal with
           | E : fsutil.fsop _ (Close _) _ = (_, _) |- _ =>
               unfold fsutil.fsop, request in E; injection E; intros; subst; clear E
           end;
    (split; [discriminate|]); rewrite ?app_nil_r, <- ?app_assoc;
    try split; reflexivity.
Qed.

(** C7 (amended): in every run in which the base image is missing, [Run]
    fails, and does so before anything is cloned or launched: no process
    is started and no file is opened for reading.  When the steps before
    the check of the base image have passed (the log file is open, the VM
    executable is resolved, the ISO is there), [Run] ends at that check
    with the not-found error that names "velocloud qcow2 image" and its
    path: it looks the image up, closes the log file and does nothing
    else.  When one of these steps fails, [Run] ends there, before the
    image is looked up: it does what these steps did, closes the log file
    when one was opened, and returns an error. *)
Theorem Run_missing_base_image (h : Host) (baseDir vmPath : string)
  (args : list string) (t : Trace) :
  VmSpec.baseImageMissing h baseDir ->
  VmSpec.FailsBeforeClone h baseDir vmPath args t
  /\ match result (VmSpec.toBaseCheck h baseDir vmPath) t with
     | Some (logFile, _, _) => VmSpec.StopsAtBaseImage h baseDir vmPath args t logFile
     | None => RunSpec.EndsBeforeBaseCheck h baseDir vmPath args t
     end.
Proof.
  intros Hq. split.
  - destruct (Run_Fails h baseDir vmPath args Hq t) as [Hr He].
    unfold VmSpec.FailsBeforeClone. split; [exact Hr|]. split.
    + apply execs_none. eapply Forall_impl; [|exact He]. intros e [H _]. exact H.
    + apply fsops_Forall. eapply Forall_impl; [|exact He]. intros e [_ H]. exact H.
  - destruct (result (VmSpec.toBaseCheck h baseDir vmPath) t)
      as [[[logFile absVM] bundled]|] eqn:E;
      [|exact (Run_before_base_check h baseDir vmPath args t E)].
    pose proof (Run_at_base_check h baseDir vmPath args t logFile absVM bundled E) as R.
    cbv zeta in R.
    destruct (Hq (t ++ events (VmSpec.toBaseCheck h baseDir vmPath) t)) as (e & Hs & Hn).
    pose proof (Run_checked_missing h baseDir logFile absVM bundled
                  (VmSpec.isoPath baseDir) args _ e Hs Hn) as Q.
    assert (Qr := f_equal fst Q). assert (Qe := f_equal snd Q).
    cbn [fst snd] in Qr, Qe. fold (result (vmtest.Run_checked h baseDir logFile absVM
      bundled (VmSpec.isoPath baseDir) args)
      (t ++ events (VmSpec.toBaseCheck h baseDir vmPath) t)) in Qr.
    fold (events (vmtest.Run_checked h baseDir logFile absVM
      bundled (VmSpec.isoPath baseDir) args)
      (t ++ events (VmSpec.toBaseCheck h baseDir vmPath) t)) in Qe.
    rewrite Qr, Qe in R.
    unfold VmSpec.StopsAtBaseImage. unfold result at 1. unfold events at 1.
    rewrite R. split; reflexivity.
Qed.

Lemma Run_missing_base_image_witness :
  (VmSpec.baseImageMissing Lab.noBaseImage Lab.baseDir
   /\ VmSpec.FailsBeforeClone Lab.noBaseImage Lab.baseDir "/opt/vm/run-vm" [] []
   /\ result (VmSpec.toBaseCheck Lab.noBaseImage Lab.baseDir "/opt/vm/run-vm") []
      = Some (Lab.testLog, "/opt/vm/run-vm", false)
   /\ VmSpec.StopsAtBaseImage Lab.noBaseImage Lab.baseDir "/opt/vm/run-vm" [] []
        Lab.testLog)
  /\ (VmSpec.baseImageMissing Bench.nothingBuilt Lab.baseDir
      /\ result (VmSpec.toBaseCheck Bench.nothingBuilt Lab.baseDir "/opt/vm/run-vm") []
         = None
      /\ RunSpec.EndsBeforeBaseCheck Bench.nothingBuilt Lab.baseDir "/opt/vm/run-vm"
           [] []).
Proof.
  assert (Hq : VmSpec.baseImageMissing Lab.noBaseImage Lab.baseDir).
  { intros t. eexists. split; reflexivity. }
  assert (Hn : VmSpec.baseImageMissing Bench.nothingBuilt Lab.baseDir).
  { intros t. eexists. split; reflexivity. }
  split.
  - split; [exact Hq|].
    split; [exact (proj1 (Run_missing_base_image Lab.noBaseImage Lab.baseDir
                            "/opt/vm/run-vm" [] [] Hq))|].
    split; [reflexivity|].
    exact (proj2 (Run_missing_base_image Lab.noBaseImage Lab.baseDir
                    "/opt/vm/run-vm" [] [] Hq)).
  - split; [exact Hn|]. split; [reflexivity|].
    exact (proj2 (Run_missing_base_image Bench.nothingBuilt Lab.baseDir
                    "/opt/vm/run-vm" [] [] Hn)).
Defined.

(** C7, as the specification words it, fails: with the base image and the
    cloud-init ISO both missing, the error of [Run] names the ISO, not the
    base image. *)
Lemma missing_iso_is_reported_first :
  let run := vmtest.Run Bench.nothingBuilt Lab.baseDir Lab.customVM [] in
  VmSpec.baseImageMissing Bench.nothingBuilt Lab.baseDir
  /\ (exists e,
        result run [] = Some e
        /\ Error e = "cloud-init ISO not found at /srv/base/images/cloud-init.iso"
        /\ strings.Contains (Error e) "velocloud qcow2 image" = false)
  /\ result run []
     <> Some (VmSpec.notFound "velocloud qcow2 image" (VmSpec.qcowPath Lab.baseDir)).
Proof.
  intros run. split; [intros t; eexists; split; reflexivity|]. split.
  - eexists. split; [reflexivity|]. split; reflexivity.
  - discriminate.
Qed.
